(** * Usage metering and token ledger of the puhui2 service

    A shallow embedding of the request handlers of [server.js] (the Express
    back end), of the browser-side service wrappers ([userService],
    [geminiService]) and of the orchestration in [App.tsx], together with
    the properties of the token ledger, the chat store and the image store
    that follow from that code.

    Conventions of the embedding.
    - JavaScript numbers and MySQL integers are [Z]; the rounding of
      IEEE-754 doubles is not modelled.  Strings are sequences of bytes,
      the UTF-8 encoding of the text.
    - The columns of [usage_logs] have the types of the DDL
      ([token_count INT], [feature_name VARCHAR(100)]): under the strict
      [sql_mode] that MySQL has by default, a value that does not fit is
      refused and the statement throws.  The arguments written to the
      other tables are taken to fit their columns.
    - Requests are handled one at a time; a handler is a function from the
      server state to a response and a new server state.
    - Everything the code obtains from outside (a database call that
      throws, an R2 upload that fails, the outcome of a Gemini request,
      the clock) is an explicit argument of the handler. *)

From Stdlib Require Import ZArith Lia Ascii String List Sorted.
From stdpp Require Import gmap strings list fin_maps pretty.
Import ListNotations.

Local Open Scope string_scope.
Local Open Scope list_scope.
Local Open Scope Z_scope.

(** ** Tables

    One record per table of [initDb].  [users] is keyed by its primary key
    [id]; [usage_logs] and [chat_messages] have an auto-increment key and
    are kept in insertion order.  The columns [password_hash] and
    [created_at] of [users] play no part in the handlers below and are
    left out. *)

Record UserRow := mkUserRow {
  username : string;
  display_name : string;
  role : string;
  is_approved : bool;
  expiration_date : option Z;
  contact_email : string;
  mobile : string;
  tokens : Z
}.

Record UsageLog := mkUsageLog {
  user_id : Z;
  feature_name : string;
  token_count : Z;
  created_at : Z
}.

Record ChatSessionRow := mkChatSessionRow {
  cs_user_id : Z;
  title : string;
  cs_created_at : Z;
  updated_at : Z
}.

Record ChatMessageRow := mkChatMessageRow {
  session_id : string;
  msg_role : string;
  content : string;
  msg_created_at : Z
}.

Record ImageRow := mkImageRow {
  img_id : string;
  img_user_id : Z;
  prompt : string;
  r2_key : string;
  level : string;
  style : string;
  language : string;
  img_created_at : Z
}.

Record Db := mkDb {
  users : gmap Z UserRow;
  images : list ImageRow;
  chat_sessions : gmap string ChatSessionRow;
  chat_messages : list ChatMessageRow;
  usage_logs : list UsageLog
}.

Definition set_users (us : gmap Z UserRow) (d : Db) : Db :=
  mkDb us (images d) (chat_sessions d) (chat_messages d) (usage_logs d).
Definition set_images (im : list ImageRow) (d : Db) : Db :=
  mkDb (users d) im (chat_sessions d) (chat_messages d) (usage_logs d).
Definition set_chat_sessions (cs : gmap string ChatSessionRow) (d : Db) : Db :=
  mkDb (users d) (images d) cs (chat_messages d) (usage_logs d).
Definition set_chat_messages (ms : list ChatMessageRow) (d : Db) : Db :=
  mkDb (users d) (images d) (chat_sessions d) ms (usage_logs d).
Definition set_usage_logs (ls : list UsageLog) (d : Db) : Db :=
  mkDb (users d) (images d) (chat_sessions d) (chat_messages d) ls.

Definition set_tokens (t : Z) (u : UserRow) : UserRow :=
  mkUserRow (username u) (display_name u) (role u) (is_approved u)
            (expiration_date u) (contact_email u) (mobile u) t.

(** ** Database calls

    A call either returns a value or throws.  [Faults] is the script of
    the environment: its k-th entry says whether the k-th call made by a
    handler is rejected by the driver (connection lost, server gone);
    a script that is too short means that the remaining calls go through. *)

Inductive result (A : Type) : Type :=
| Ok (a : A)
| Throw.
Arguments Ok {A} a.
Arguments Throw {A}.

Definition Faults := list bool.

Definition M (S A : Type) : Type := Faults -> S -> result A * Faults * S.

Definition ret {S A} (a : A) : M S A := fun fl s => (Ok a, fl, s).

Definition bind {S A B} (m : M S A) (k : A -> M S B) : M S B :=
  fun fl s =>
    match m fl s with
    | (Ok a, fl', s') => k a fl' s'
    | (Throw, fl', s') => (Throw, fl', s')
    end.

Definition throw {S A} : M S A := fun fl s => (Throw, fl, s).

Notation "'let!' x ':=' m 'in' k" := (bind m (fun x => k))
  (at level 10, x pattern, m at level 100, k at level 200).
Notation "'run!' m 'in' k" := (bind m (fun _ => k))
  (at level 10, m at level 100, k at level 200).

(** One awaited call on the driver. *)
Definition call {S A} (f : S -> result A * S) : M S A :=
  fun fl s =>
    match fl with
    | true :: fl' => (Throw, fl', s)
    | false :: fl' => let (r, s') := f s in (r, fl', s')
    | [] => let (r, s') := f s in (r, [], s')
    end.

(** A statement is what a query does to the tables it sees. *)
Definition Stmt (A : Type) : Type := Db -> result A * Db.

(** [pool.query]: the statement is applied and committed at once. *)
Definition pool_query {A} (q : Stmt A) : M Db A := call q.

(** A connection taken from the pool: the committed tables and the tables
    as the open transaction sees them. *)
Record Conn := mkConn {
  committed : Db;
  working : Db
}.

Definition connect (d : Db) : Conn := mkConn d d.

Definition conn_query {A} (q : Stmt A) : M Conn A :=
  call (fun c => let (r, w) := q (working c) in (r, mkConn (committed c) w)).

Definition beginTransaction : M Conn unit :=
  call (fun c => (Ok tt, mkConn (committed c) (committed c))).

Definition commit : M Conn unit :=
  call (fun c => (Ok tt, mkConn (working c) (working c))).

(** [connection.rollback()] drops the uncommitted work.  Its own failure
    is not modelled: uncommitted work is lost with the connection too. *)
Definition rollback (c : Conn) : Conn := mkConn (committed c) (committed c).

(** ** Statements of the ledger *)

(** [token_count INT]: a signed 32-bit number. *)
Definition int_ok (n : Z) : bool := (-2147483648 <=? n) && (n <=? 2147483647).

(** [CHAR_LENGTH]: the characters of a string, that is the bytes of its
    UTF-8 encoding that are not continuation bytes (0x80 to 0xBF). *)
Definition is_continuation (c : ascii) : bool :=
  ((128 <=? nat_of_ascii c) && (nat_of_ascii c <? 192))%nat.

Fixpoint char_length (s : string) : nat :=
  match s with
  | EmptyString => O
  | String c s' => ((if is_continuation c then 0 else 1) + char_length s')%nat
  end.

(** [feature_name VARCHAR(100)] and [token_count INT]. *)
Definition usage_row_ok (feature : string) (n : Z) : bool :=
  (char_length feature <=? 100)%nat && int_ok n.

(** INSERT INTO usage_logs (user_id, feature_name, token_count, created_at);
    the foreign key on [users(id)] rejects an unknown user, and the
    column types reject a name of more than 100 characters ("Data too
    long") and a count outside the 32-bit range ("Out of range value").
    One case of MySQL is not told apart: a name whose characters beyond
    the 100th are all blanks is cut to its width with a warning instead
    of being refused; here it is refused like every other long name. *)
Definition insert_usage_log (uid : Z) (feature : string) (n now : Z) : Stmt unit :=
  fun d =>
    match users d !! uid with
    | Some _ =>
        if usage_row_ok feature n
        then (Ok tt, set_usage_logs (usage_logs d ++ [mkUsageLog uid feature n now]) d)
        else (Throw, d)
    | None => (Throw, d)
    end.

(** UPDATE users SET tokens = tokens - ? WHERE id = ? *)
Definition update_tokens_sub (n uid : Z) : Stmt unit :=
  fun d => (Ok tt, set_users (alter (fun u => set_tokens (tokens u - n) u) uid (users d)) d).

(** SELECT tokens FROM users WHERE id = ? *)
Definition select_tokens (uid : Z) : Stmt (list Z) :=
  fun d =>
    (Ok match users d !! uid with Some u => [tokens u] | None => [] end, d).

(** [rows[0].tokens]: a TypeError when no row came back. *)
Definition first_row {S A} (rows : list A) : M S A :=
  match rows with
  | r :: _ => ret r
  | [] => throw
  end.

(** ** Server state

    The module-level variables of [server.js]: the mock-database flag and
    its arrays, the MySQL tables behind [pool], the R2 bucket behind [r2]
    and the one environment variable the handlers test. *)

Inductive Url : Type :=
| Plain (s : string)
| Signed (bucket key : string) (expiresIn : Z).

Record MockUser := mkMockUser {
  mu_id : Z;
  mu_username : string;
  mu_role : string;
  mu_tokens : option Z  (* [None]: the field is undefined or NaN *)
}.

Record MockImage := mkMockImage {
  mi_row : ImageRow;
  data_url : Url
}.

Record Server := mkServer {
  useMockDb : bool;
  mockUsers : list MockUser;
  mockImages : list MockImage;
  mockChatSessions : list (string * ChatSessionRow);
  mockChatMessages : list (Z * ChatMessageRow);
  mockUsageLogs : list UsageLog;
  db : Db;
  r2 : gmap string string;
  R2_BUCKET_NAME : option string
}.

Definition set_db (d : Db) (s : Server) : Server :=
  mkServer (useMockDb s) (mockUsers s) (mockImages s) (mockChatSessions s)
           (mockChatMessages s) (mockUsageLogs s) d (r2 s) (R2_BUCKET_NAME s).
Definition set_r2 (o : gmap string string) (s : Server) : Server :=
  mkServer (useMockDb s) (mockUsers s) (mockImages s) (mockChatSessions s)
           (mockChatMessages s) (mockUsageLogs s) (db s) o (R2_BUCKET_NAME s).
Definition set_mockUsers (l : list MockUser) (s : Server) : Server :=
  mkServer (useMockDb s) l (mockImages s) (mockChatSessions s)
           (mockChatMessages s) (mockUsageLogs s) (db s) (r2 s) (R2_BUCKET_NAME s).
Definition set_mockImages (l : list MockImage) (s : Server) : Server :=
  mkServer (useMockDb s) (mockUsers s) l (mockChatSessions s)
           (mockChatMessages s) (mockUsageLogs s) (db s) (r2 s) (R2_BUCKET_NAME s).
Definition set_mockChatSessions (l : list (string * ChatSessionRow)) (s : Server) : Server :=
  mkServer (useMockDb s) (mockUsers s) (mockImages s) l
           (mockChatMessages s) (mockUsageLogs s) (db s) (r2 s) (R2_BUCKET_NAME s).
Definition set_mockChatMessages (l : list (Z * ChatMessageRow)) (s : Server) : Server :=
  mkServer (useMockDb s) (mockUsers s) (mockImages s) (mockChatSessions s)
           l (mockUsageLogs s) (db s) (r2 s) (R2_BUCKET_NAME s).
Definition set_mockUsageLogs (l : list UsageLog) (s : Server) : Server :=
  mkServer (useMockDb s) (mockUsers s) (mockImages s) (mockChatSessions s)
           (mockChatMessages s) l (db s) (r2 s) (R2_BUCKET_NAME s).

(** ** Requests and responses *)

(** The payload [signToken] puts in the JWT and [authenticateToken] stores
    in [req.user]. *)
Record ReqUser := mkReqUser {
  id : Z;
  ru_username : string;
  ru_role : string
}.

Record MessageView := mkMessageView {
  mv_role : string;
  mv_content : string;
  mv_timestamp : Z
}.

Record ImageView := mkImageView {
  iv_id : string;
  iv_data : Url;
  iv_prompt : string;
  iv_timestamp : Z;
  iv_level : string;
  iv_style : string;
  iv_language : string
}.

Inductive Body : Type :=
| success                                         (* { success: true } *)
| success_remaining (remainingTokens : option Z)  (* { success: true, remainingTokens } *)
| success_url (url : Url)                         (* { success: true, url } *)
| message (m : string)                            (* { message: '...' } *)
| err_message (prefix : string)                   (* { message: prefix + err.message } *)
| message_list (l : list MessageView)
| image_list (l : list ImageView).

Inductive Response : Type :=
| json (status : Z) (b : Body)
| sendStatus (code : Z)
| no_response.  (* the handler's promise rejected outside any try: nothing
                  is sent (and Node reports an unhandled rejection) *)

(** The Authorization header after [jwt.verify]: a token signed with
    [JWT_SECRET] carries its payload, any other token is refused. *)
Inductive Token : Type :=
| Verified (u : ReqUser)
| Refused.

Definition authenticateToken (authorization : option Token)
    (next : ReqUser -> Server -> Response * Server) (s : Server) : Response * Server :=
  match authorization with
  | None => (sendStatus 401, s)
  | Some Refused => (sendStatus 403, s)
  | Some (Verified u) => next u s
  end.

(** [x || 0] on an optional number: absent, null and 0 all give 0. *)
Definition or_zero (x : option Z) : Z :=
  match x with
  | Some n => n
  | None => 0
  end.

(** ** POST /api/usage *)

(** [mockUsers.find(u => u.id === uid)] *)
Definition find_mock_user (uid : Z) (l : list MockUser) : option MockUser :=
  List.find (fun u => mu_id u =? uid) l.

(** [user.tokens -= n] on the object that [find] returned: the array
    holds that same object, so its first match changes in place. *)
Fixpoint sub_mock_tokens (uid n : Z) (l : list MockUser) : list MockUser :=
  match l with
  | [] => []
  | u :: l' =>
      if mu_id u =? uid
      then mkMockUser (mu_id u) (mu_username u) (mu_role u)
                      (option_map (fun t => t - n) (mu_tokens u)) :: l'
      else u :: sub_mock_tokens uid n l'
  end.

(** The body of the transaction of POST /api/usage. *)
Definition usage_tx (uid : Z) (feature : string) (n now : Z) : M Conn Z :=
  run! beginTransaction in
  run! conn_query (insert_usage_log uid feature n now) in
  run! conn_query (update_tokens_sub n uid) in
  let! rows := conn_query (select_tokens uid) in
  let! remainingTokens := first_row rows in
  run! commit in
  ret remainingTokens.

Definition post_usage (user : ReqUser) (feature : string) (tokenCount : option Z)
    (now : Z) (fl : Faults) (s : Server) : Response * Server :=
  if useMockDb s then
    let s1 := set_mockUsageLogs
                (mockUsageLogs s ++ [mkUsageLog (id user) feature (or_zero tokenCount) now]) s in
    match find_mock_user (id user) (mockUsers s1) with
    | Some u =>
        let s2 := set_mockUsers (sub_mock_tokens (id user) (or_zero tokenCount) (mockUsers s1)) s1 in
        (json 200 (success_remaining (option_map (fun t => t - or_zero tokenCount) (mu_tokens u))), s2)
    | None => (json 200 success, s1)
    end
  else
    match fl with
    | true :: _ => (json 500 (err_message ""), s)   (* pool.getConnection() rejects *)
    | _ =>
        match usage_tx (id user) feature (or_zero tokenCount) now (tl fl) (connect (db s)) with
        | (Ok remainingTokens, _, c) =>
            (json 200 (success_remaining (Some remainingTokens)), set_db (committed c) s)
        | (Throw, _, c) =>
            (json 500 (err_message ""), set_db (committed (rollback c)) s)
        end
    end.

(** ** PUT /api/admin/users/:id *)

(** The fields the handler reads from the request body. *)
Record UserUpdate := mkUserUpdate {
  upd_displayName : string;
  upd_role : string;
  upd_isApproved : bool;
  upd_expirationDate : option Z;
  upd_contactEmail : string;
  upd_mobile : string;
  upd_tokens : Z
}.

(** The label of the row written for a top-up. *)
Definition admin_topup_label : string := "管理員手動充值".

(** UPDATE users SET display_name = ?, role = ?, is_approved = ?,
    expiration_date = ?, contact_email = ?, mobile = ?, tokens = ? WHERE id = ? *)
Definition adjusted_row (b : UserUpdate) (u : UserRow) : UserRow :=
  mkUserRow (username u) (upd_displayName b) (upd_role b) (upd_isApproved b)
            (upd_expirationDate b) (upd_contactEmail b) (upd_mobile b) (upd_tokens b).

Definition update_user (b : UserUpdate) (uid : Z) : Stmt unit :=
  fun d => (Ok tt, set_users (alter (adjusted_row b) uid (users d)) d).

Definition admin_update_tx (uid : Z) (b : UserUpdate) (now : Z) : M Conn unit :=
  run! beginTransaction in
  let! rows := conn_query (select_tokens uid) in
  let! currentTokens := first_row rows in
  let tokenChange := upd_tokens b - currentTokens in
  run! conn_query (update_user b uid) in
  run! (if 0 <? tokenChange
        then conn_query (insert_usage_log uid admin_topup_label tokenChange now)
        else ret tt) in
  commit.

Definition put_admin_user (user : ReqUser) (uid : Z) (b : UserUpdate)
    (now : Z) (fl : Faults) (s : Server) : Response * Server :=
  if negb (String.eqb (ru_role user) "admin") then (sendStatus 403, s)
  else
    match fl with
    | true :: _ => (no_response, s)   (* pool.getConnection() rejects before the try *)
    | _ =>
        match admin_update_tx uid b now (tl fl) (connect (db s)) with
        | (Ok _, _, c) => (json 200 success, set_db (committed c) s)
        | (Throw, _, c) =>
            (json 500 (err_message "Update failed: "), set_db (committed (rollback c)) s)
        end
    end.

(** ** Fault-free scripts *)

Definition no_fault (fl : Faults) : bool := forallb negb fl.

(** ** What a charge and an adjustment do to the tables when they land *)

Definition charge_effect (uid : Z) (feature : string) (n now : Z) (d : Db) : Db :=
  set_users (alter (fun u => set_tokens (tokens u - n) u) uid (users d))
    (set_usage_logs (usage_logs d ++ [mkUsageLog uid feature n now]) d).

Definition adjust_effect (uid : Z) (b : UserUpdate) (now current : Z) (d : Db) : Db :=
  let d1 := set_users (alter (adjusted_row b) uid (users d)) d in
  if 0 <? upd_tokens b - current
  then set_usage_logs
         (usage_logs d ++ [mkUsageLog uid admin_topup_label (upd_tokens b - current) now]) d1
  else d1.


(** ** The usage route behind its middleware *)

Definition api_usage (authorization : option Token) (feature : string)
    (tokenCount : option Z) (now : Z) (fl : Faults) (s : Server) : Response * Server :=
  authenticateToken authorization
    (fun user => post_usage user feature tokenCount now fl) s.

Definition api_admin_users_put (authorization : option Token) (uid : Z)
    (b : UserUpdate) (now : Z) (fl : Faults) (s : Server) : Response * Server :=
  authenticateToken authorization
    (fun user => put_admin_user user uid b now fl) s.

(** ** Histories of ledger operations

    A history is a sequence of charges and administrative updates, each
    with the clock value and the fault script it met. *)

Inductive LedgerOp : Type :=
| Charge (user : ReqUser) (feature : string) (tokenCount : option Z) (now : Z) (fl : Faults)
| Adjust (admin : ReqUser) (uid : Z) (b : UserUpdate) (now : Z) (fl : Faults).

Definition step (op : LedgerOp) (s : Server) : Server :=
  match op with
  | Charge user feature tokenCount now fl =>
      snd (post_usage user feature tokenCount now fl s)
  | Adjust admin uid b now fl =>
      snd (put_admin_user admin uid b now fl s)
  end.

Definition run (ops : list LedgerOp) (s : Server) : Server :=
  fold_left (fun s op => step op s) ops s.

(** The balance of an account and the rows of the log that belong to it. *)
Definition balance (uid : Z) (s : Server) : option Z :=
  tokens <$> users (db s) !! uid.

Definition rows_of (uid : Z) (logs : list UsageLog) : list UsageLog :=
  List.filter (fun r => user_id r =? uid) logs.

Definition sum_by (f : UsageLog -> Z) (logs : list UsageLog) : Z :=
  fold_right (fun r acc => f r + acc) 0 logs.

(** Two readings of a row as a change of the balance: the number the row
    stores, and that number signed by the kind of row (a top-up row is a
    credit, any other row is a debit). *)
Definition stored_delta (r : UsageLog) : Z := token_count r.


(** Conservation of the ledger for account [uid] under a reading [f]. *)
Definition conserved (f : UsageLog -> Z) (initialGrant uid : Z) (s : Server) : Prop :=
  balance uid s = Some (initialGrant + sum_by f (rows_of uid (usage_logs (db s)))).





(** ** Sample states *)

Definition alice : ReqUser := mkReqUser 1 "alice" "user".
Definition bob : ReqUser := mkReqUser 2 "bob" "user".
Definition root : ReqUser := mkReqUser 9 "admin" "admin".

Definition user_row (name urole : string) (t : Z) : UserRow :=
  mkUserRow name name urole true None "" "" t.

Definition sample_db (t : Z) : Db :=
  mkDb (<[1 := user_row "alice" "user" t]>
        (<[2 := user_row "bob" "user" 500]>
         (<[9 := user_row "admin" "admin" 100000]> ∅)))
       [] ∅ [] [].

Definition sample_server (t : Z) : Server :=
  mkServer false [] [] [] [] [] (sample_db t) ∅ (Some "bucket").

Definition set_balance (t : Z) : UserUpdate :=
  mkUserUpdate "alice" "user" true None "" "" t.

(** A server on the mock arrays, which no start-up produces: carol holds a
    token but is not in [mockUsers]. *)
Definition carol : ReqUser := mkReqUser 3 "carol" "user".

Definition mock_server : Server :=
  mkServer true [mkMockUser 1 "alice" "user" (Some 1000)] [] [] [] [] (sample_db 1000) ∅ None.

(** ** Sorting

    [Array.prototype.sort] and ORDER BY, as a stable insertion sort on a
    comparison [le]. *)

Fixpoint insert_sorted {A} (le : A -> A -> bool) (x : A) (l : list A) : list A :=
  match l with
  | [] => [x]
  | y :: l' => if le x y then x :: l else y :: insert_sorted le x l'
  end.

Definition sort_by {A} (le : A -> A -> bool) (l : list A) : list A :=
  fold_right (insert_sorted le) [] l.

(** ** Chat messages *)

(** INSERT INTO chat_messages (session_id, role, content, created_at);
    the foreign key on [chat_sessions(id)] rejects an unknown session. *)
Definition insert_chat_message (sid mrole mcontent : string) (at_ : Z) : Stmt unit :=
  fun d =>
    match chat_sessions d !! sid with
    | Some _ =>
        (Ok tt, set_chat_messages
                  (chat_messages d ++ [mkChatMessageRow sid mrole mcontent at_]) d)
    | None => (Throw, d)
    end.

(** UPDATE chat_sessions SET updated_at = ? WHERE id = ? *)
Definition touch_chat_session (at_ : Z) (sid : string) : Stmt unit :=
  fun d =>
    (Ok tt,
     set_chat_sessions
       (alter (fun c => mkChatSessionRow (cs_user_id c) (title c) (cs_created_at c) at_)
              sid (chat_sessions d)) d).

(** SELECT user_id FROM chat_sessions WHERE id = ? *)
Definition select_session_owner (sid : string) : Stmt (list Z) :=
  fun d =>
    (Ok match chat_sessions d !! sid with Some c => [cs_user_id c] | None => [] end, d).

(** SELECT * FROM chat_messages WHERE session_id = ? ORDER BY created_at ASC *)
Definition select_messages (sid : string) : Stmt (list ChatMessageRow) :=
  fun d =>
    (Ok (sort_by (fun a b => msg_created_at a <=? msg_created_at b)
           (List.filter (fun m => String.eqb (session_id m) sid) (chat_messages d))), d).

(** The mock session array: [find] and the in-place write of [updated_at]. *)
Definition find_mock_session (sid : string) (l : list (string * ChatSessionRow))
  : option (string * ChatSessionRow) :=
  List.find (fun c => String.eqb (fst c) sid) l.

Fixpoint touch_mock_session (sid : string) (at_ : Z) (l : list (string * ChatSessionRow))
  : list (string * ChatSessionRow) :=
  match l with
  | [] => []
  | c :: l' =>
      if String.eqb (fst c) sid
      then (fst c, mkChatSessionRow (cs_user_id (snd c)) (title (snd c))
                     (cs_created_at (snd c)) at_) :: l'
      else c :: touch_mock_session sid at_ l'
  end.

(** The row as the client sees it; the numeric [id] of the row is left out. *)
Definition message_view (m : ChatMessageRow) : MessageView :=
  mkMessageView (msg_role m) (content m) (msg_created_at m).

(** POST /api/chat/messages *)
Definition post_chat_messages (user : ReqUser) (sid mrole mcontent : string)
    (at_ now : Z) (fl : Faults) (s : Server) : Response * Server :=
  if useMockDb s then
    let s1 := set_mockChatMessages
                (mockChatMessages s ++ [(now, mkChatMessageRow sid mrole mcontent at_)]) s in
    (json 200 success,
     set_mockChatSessions (touch_mock_session sid at_ (mockChatSessions s1)) s1)
  else
    match (run! pool_query (insert_chat_message sid mrole mcontent at_) in
           pool_query (touch_chat_session at_ sid)) fl (db s) with
    | (Ok _, _, d) => (json 200 success, set_db d s)
    | (Throw, _, d) => (json 500 (err_message ""), set_db d s)
    end.

(** GET /api/chat/messages/:sessionId *)
Definition get_chat_messages (user : ReqUser) (sid : string)
    (fl : Faults) (s : Server) : Response * Server :=
  if useMockDb s then
    match find_mock_session sid (mockChatSessions s) with
    | Some c =>
        if cs_user_id (snd c) =? id user then
          (json 200
             (message_list
                (map message_view
                   (sort_by (fun a b => msg_created_at a <=? msg_created_at b)
                      (List.filter (fun m => String.eqb (session_id m) sid)
                         (map snd (mockChatMessages s)))))), s)
        else (json 403 (message "Access denied"), s)
    | None => (json 403 (message "Access denied"), s)
    end
  else
    match pool_query (select_session_owner sid) fl (db s) with
    | (Throw, _, d) => (json 500 (err_message ""), set_db d s)
    | (Ok owner, fl1, d) =>
        match owner with
        | o :: _ =>
            if o =? id user then
              match pool_query (select_messages sid) fl1 d with
              | (Ok rows, _, d') => (json 200 (message_list (map message_view rows)), set_db d' s)
              | (Throw, _, d') => (json 500 (err_message ""), set_db d' s)
              end
            else (json 403 (message "Access denied"), set_db d s)
        | [] => (json 403 (message "Access denied"), set_db d s)
        end
    end.

Definition api_chat_messages_post (authorization : option Token)
    (sid mrole mcontent : string) (at_ now : Z) (fl : Faults) (s : Server)
  : Response * Server :=
  authenticateToken authorization
    (fun user => post_chat_messages user sid mrole mcontent at_ now fl) s.

Definition api_chat_messages_get (authorization : option Token) (sid : string)
    (fl : Faults) (s : Server) : Response * Server :=
  authenticateToken authorization (fun user => get_chat_messages user sid fl) s.

(** The messages of a session, as stored. *)
Definition session_messages (sid : string) (s : Server) : list ChatMessageRow :=
  List.filter (fun m => String.eqb (session_id m) sid) (chat_messages (db s)).

(** A store where alice owns the session "s1" with one message. *)
Definition chat_db : Db :=
  set_chat_messages [mkChatMessageRow "s1" "user" "hello" 10]
    (set_chat_sessions (<["s1" := mkChatSessionRow 1 "Greetings" 10 10]> ∅)
       (sample_db 1000)).

Definition chat_server : Server :=
  mkServer false [] [] [] [] [] chat_db ∅ (Some "bucket").

(** ** Images and the R2 bucket *)

(** The body of POST /api/images. *)
Record ImageUpload := mkImageUpload {
  up_id : string;
  up_data : string;
  up_prompt : string;
  up_level : string;
  up_style : string;
  up_language : string;
  up_timestamp : Z
}.

(** [`users/${req.user.id}/${id}.png`] *)
Definition object_key (uid : Z) (imgid : string) : string :=
  "users/" +:+ pretty uid +:+ "/" +:+ imgid +:+ ".png".

(** [getSignedUrl(r2, new GetObjectCommand({Bucket, Key}), {expiresIn})]:
    computed from the credentials, the key and the lifetime; it reads and
    writes nothing of the server. *)
Definition getSignedUrl (bucket key : string) (expiresIn : Z) : Url :=
  Signed bucket key expiresIn.

(** INSERT INTO images (...): the primary key [id] must be new and the
    foreign key on [users(id)] must hold. *)
Definition insert_image (row : ImageRow) : Stmt unit :=
  fun d =>
    if existsb (fun r => String.eqb (img_id r) (img_id row)) (images d) then (Throw, d)
    else match users d !! img_user_id row with
         | Some _ => (Ok tt, set_images (images d ++ [row]) d)
         | None => (Throw, d)
         end.

(** The upload block of the handler: [url] starts as the data URI; with a
    bucket configured the object is put and a URL is signed, and a failure
    of either is caught and only logged.  The bytes stored are the base64
    payload of [data]; the model keeps [data] itself under the key. *)
Definition upload_to_r2 (key data : string) (put_fails sign_fails : bool) (s : Server)
  : Url * Server :=
  match R2_BUCKET_NAME s with
  | Some bucket =>
      if put_fails then (Plain data, s)
      else
        let s1 := set_r2 (<[key := data]> (r2 s)) s in
        if sign_fails then (Plain data, s1)
        else (getSignedUrl bucket key 604800, s1)
  | None => (Plain data, s)
  end.

(** POST /api/images *)
Definition post_images (user : ReqUser) (img : ImageUpload)
    (put_fails sign_fails : bool) (fl : Faults) (s : Server) : Response * Server :=
  match R2_BUCKET_NAME s, useMockDb s with
  | None, false => (json 500 (message "Server R2 Configuration Missing"), s)
  | _, _ =>
      let key := object_key (id user) (up_id img) in
      let (url, s1) := upload_to_r2 key (up_data img) put_fails sign_fails s in
      let row := mkImageRow (up_id img) (id user) (up_prompt img) key
                   (up_level img) (up_style img) (up_language img) (up_timestamp img) in
      if useMockDb s then
        (json 200 (success_url url),
         set_mockImages (mockImages s1 ++ [mkMockImage row url]) s1)
      else
        match pool_query (insert_image row) fl (db s1) with
        | (Ok _, _, d) => (json 200 (success_url url), set_db d s1)
        | (Throw, _, d) => (json 500 (err_message "Upload failed: "), set_db d s1)
        end
  end.

(** SELECT * FROM images WHERE user_id = ? [AND created_at >= ?]
    ORDER BY created_at DESC [LIMIT ? OFFSET ?]: the week filter when
    [period === 'week'], the page of 50 otherwise.  A negative offset is
    refused by the database. *)
Definition is_week (period : option string) : bool :=
  match period with
  | Some p => String.eqb p "week"
  | None => false
  end.

Definition select_images (uid : Z) (period : option string) (page now : Z)
  : Stmt (list ImageRow) :=
  fun d =>
    let mine := List.filter (fun r => img_user_id r =? uid) (images d) in
    let newest_first := sort_by (fun a b => img_created_at b <=? img_created_at a) in
    if is_week period then
      (Ok (newest_first
             (List.filter (fun r => now - 7 * 24 * 60 * 60 * 1000 <=? img_created_at r) mine)), d)
    else
      let offset := (page - 1) * 50 in
      if offset <? 0 then (Throw, d)
      else (Ok (take 50 (drop (Z.to_nat offset) (newest_first mine))), d).

(** The URL of one row of the history: signed for an hour when a bucket is
    configured and the key is a key, the raw key otherwise or when signing
    throws. *)
Definition history_url (bucket : option string) (sign_fails : string -> bool)
    (key : string) : Url :=
  match bucket with
  | Some b =>
      if negb (String.eqb key "") && negb (String.prefix "http" key) then
        if sign_fails key then Plain key else getSignedUrl b key 3600
      else Plain key
  | None => Plain key
  end.

Definition image_view (data : Url) (r : ImageRow) : ImageView :=
  mkImageView (img_id r) data (prompt r) (img_created_at r)
              (level r) (style r) (language r).

(** [row.data_url || row.r2_key] *)
Definition mock_image_data (m : MockImage) : Url :=
  match data_url m with
  | Plain "" => Plain (r2_key (mi_row m))
  | u => u
  end.

(** GET /api/images *)
Definition get_images (user : ReqUser) (period : option string) (page now : Z)
    (sign_fails : string -> bool) (fl : Faults) (s : Server) : Response * Server :=
  if useMockDb s then
    (json 200
       (image_list
          (map (fun m => image_view (mock_image_data m) (mi_row m))
             (sort_by (fun a b => img_created_at (mi_row b) <=? img_created_at (mi_row a))
                (List.filter (fun m => img_user_id (mi_row m) =? id user) (mockImages s))))), s)
  else
    match pool_query (select_images (id user) period page now) fl (db s) with
    | (Ok rows, _, d) =>
        (json 200
           (image_list
              (map (fun r => image_view (history_url (R2_BUCKET_NAME s) sign_fails (r2_key r)) r)
                 rows)),
         set_db d s)
    | (Throw, _, d) => (json 500 (err_message "Fetch history failed: "), set_db d s)
    end.

Definition api_images_post (authorization : option Token) (img : ImageUpload)
    (put_fails sign_fails : bool) (fl : Faults) (s : Server) : Response * Server :=
  authenticateToken authorization
    (fun user => post_images user img put_fails sign_fails fl) s.

Definition api_images_get (authorization : option Token) (period : option string)
    (page now : Z) (sign_fails : string -> bool) (fl : Faults) (s : Server)
  : Response * Server :=
  authenticateToken authorization
    (fun user => get_images user period page now sign_fails fl) s.

(** The signed URLs of a response, with their lifetimes. *)
Definition lifetime (u : Url) : option Z :=
  match u with
  | Signed _ _ expiresIn => Some expiresIn
  | Plain _ => None
  end.

Definition listed_urls (r : Response) : list Url :=
  match r with
  | json _ (image_list l) => map iv_data l
  | json _ (success_url u) => [u]
  | _ => []
  end.

Definition sample_upload : ImageUpload :=
  mkImageUpload "1700000000000" "data:image/png;base64,iVBORw0KGgo=" "volcano"
                "High School" "Default" "Traditional Chinese" 1700000000000.

Definition second_upload : ImageUpload :=
  mkImageUpload "1700000000500" "data:image/png;base64,iVBORw0KGgp=" "glacier"
                "High School" "Default" "Traditional Chinese" 1700000000500.

(** The sample store after alice saved [sample_upload]. *)
Definition saved_server : Server :=
  snd (post_images alice sample_upload false false [] (sample_server 1000)).

(** ** Start-up: the module state and [initDb] *)

Inductive Process : Type :=
| Running (s : Server)
| Exited (code : Z).

(** CREATE TABLE IF NOT EXISTS: the tables of the model are always there. *)
Definition create_table : Stmt unit := fun d => (Ok tt, d).

(** SELECT tokens FROM users LIMIT 1: the column exists in the model, so
    the probe can only fail like any other call. *)
Definition probe_tokens_column : Stmt unit := fun d => (Ok tt, d).

(** SELECT * FROM users WHERE username = ? *)
Definition select_by_username (name : string) : Stmt (list UserRow) :=
  fun d =>
    (Ok (List.filter (fun u => String.eqb (username u) name)
           (map snd (map_to_list (users d)))), d).

(** The AUTO_INCREMENT key of a new row: a key that no row holds.  The
    counter of the table is not part of the model (after the row with the
    largest key was deleted MySQL does not give that key again); the
    model takes one more than the largest key in use, and nothing below
    depends on which unused key it is. *)
Definition next_user_id (us : gmap Z UserRow) : Z :=
  1 + map_fold (fun k _ acc => Z.max k acc) 0 us.

(** INSERT INTO users (username, password_hash, display_name, role,
    is_approved, expiration_date, created_at): [tokens] takes its default. *)
Definition insert_default_admin : Stmt unit :=
  fun d =>
    (Ok tt,
     set_users
       (<[next_user_id (users d) :=
            mkUserRow "admin" "Administrator" "admin" true (Some 4102444800000) "" "" 100000]>
          (users d)) d).

(** The inner try/catch around the probe: an error that is not
    ER_BAD_FIELD_ERROR is dropped. *)
Definition swallow {S A} (m : M S A) : M S unit :=
  fun fl s =>
    match m fl s with
    | (_, fl', s') => (Ok tt, fl', s')
    end.

(** The queries of [initDb] on its connection (no transaction is opened,
    so each one commits by itself). *)
Definition initDb_queries : M Db unit :=
  run! pool_query create_table in   (* users *)
  run! pool_query create_table in   (* images *)
  run! pool_query create_table in   (* chat_sessions *)
  run! pool_query create_table in   (* chat_messages *)
  run! pool_query create_table in   (* usage_logs *)
  run! swallow (pool_query probe_tokens_column) in
  let! rows := pool_query (select_by_username "admin") in
  match rows with
  | [] => pool_query insert_default_admin
  | _ :: _ => ret tt
  end.

(** [initDb]: any error, the failed connection included, ends in
    [process.exit(1)]. *)
Definition initDb (fl : Faults) (s : Server) : Process :=
  match fl with
  | true :: _ => Exited 1
  | _ =>
      match initDb_queries (tl fl) (db s) with
      | (Ok _, _, d) => Running (set_db d s)
      | (Throw, _, _) => Exited 1
      end
  end.

(** The module-level declarations: [let useMockDb = false] and the empty
    mock arrays; then [initDb()]. *)
Definition module_state (durable : Db) (objects : gmap string string)
    (bucket : option string) : Server :=
  mkServer false [] [] [] [] [] durable objects bucket.

Definition start (durable : Db) (objects : gmap string string)
    (bucket : option string) (fl : Faults) : Process :=
  initDb fl (module_state durable objects bucket).

(** The requests of the routes modelled here, each with what the
    environment does to it. *)
Inductive Request : Type :=
| PostUsage (authorization : option Token) (feature : string) (tokenCount : option Z)
            (now : Z) (fl : Faults)
| PutAdminUser (authorization : option Token) (uid : Z) (b : UserUpdate) (now : Z) (fl : Faults)
| PostChatMessage (authorization : option Token) (sid mrole mcontent : string)
                  (at_ now : Z) (fl : Faults)
| GetChatMessages (authorization : option Token) (sid : string) (fl : Faults)
| PostImage (authorization : option Token) (img : ImageUpload)
            (put_fails sign_fails : bool) (fl : Faults)
| GetImages (authorization : option Token) (period : option string) (page now : Z)
            (sign_fails : string -> bool) (fl : Faults).

Definition handle (r : Request) (s : Server) : Response * Server :=
  match r with
  | PostUsage a feature tokenCount now fl => api_usage a feature tokenCount now fl s
  | PutAdminUser a uid b now fl => api_admin_users_put a uid b now fl s
  | PostChatMessage a sid mrole mcontent at_ now fl =>
      api_chat_messages_post a sid mrole mcontent at_ now fl s
  | GetChatMessages a sid fl => api_chat_messages_get a sid fl s
  | PostImage a img put_fails sign_fails fl => api_images_post a img put_fails sign_fails fl s
  | GetImages a period page now sign_fails fl =>
      api_images_get a period page now sign_fails fl s
  end.

(** The states a running server goes through. *)
Inductive serves (s0 : Server) : Server -> Prop :=
| serves_first : serves s0 s0
| serves_next r s : serves s0 s -> serves s0 (snd (handle r s)).

(** ** The browser side: [geminiService], [userService] and [App.tsx]

    The client talks to the routes above; the Gemini routes are the
    excluded AI gateway and enter as the replies they give.  The clock
    does not advance during one action. *)

Record ResearchResult := mkResearchResult {
  imagePrompt : string;
  facts : list string;
  usage : option Z
}.

Record AIResponse := mkAIResponse {
  ai_content : string;
  ai_usage : Z
}.

(** [inl message]: the route answered an error with that message, or the
    request itself failed, and [apiRequest] throws. *)
Definition Reply (A : Type) : Type := (string + A)%type.

Record World := mkWorld {
  research_reply : Reply ResearchResult;
  generate_reply : Reply AIResponse;
  edit_reply : Reply AIResponse;
  put_fails : bool;              (* [r2.send(PutObjectCommand)] throws *)
  sign_fails : bool;             (* [getSignedUrl] throws *)
  images_faults : Faults;        (* database calls of POST /api/images *)
  usage_faults : Faults;         (* database calls of POST /api/usage *)
  clock : Z                      (* [Date.now()] *)
}.

Record GeneratedImage := mkGeneratedImage {
  gi_id : string;
  gi_data : string;
  gi_prompt : string;
  gi_timestamp : Z;
  gi_level : string;
  gi_style : string;
  gi_language : string;
  gi_usage : Z
}.

Record User := mkUser {
  token : option Token;          (* [currentUser.token] *)
  user_tokens : option Z         (* [currentUser.tokens]; [None] is null *)
}.

Record App := mkApp {
  currentUser : option User;
  vision_token : option Token;   (* localStorage 'vision_token', read by [getHeaders] *)
  topic : string;
  complexityLevel : string;
  visualStyle : string;
  app_language : string;
  isLoading : bool;
  imageHistory : list GeneratedImage;
  error : option string;
  showAuthModal : bool;
  hasApiKey : bool
}.

Definition set_error (e : option string) (a : App) : App :=
  mkApp (currentUser a) (vision_token a) (topic a) (complexityLevel a) (visualStyle a)
        (app_language a) (isLoading a) (imageHistory a) e (showAuthModal a) (hasApiKey a).
Definition set_showAuthModal (b : bool) (a : App) : App :=
  mkApp (currentUser a) (vision_token a) (topic a) (complexityLevel a) (visualStyle a)
        (app_language a) (isLoading a) (imageHistory a) (error a) b (hasApiKey a).
Definition set_hasApiKey (b : bool) (a : App) : App :=
  mkApp (currentUser a) (vision_token a) (topic a) (complexityLevel a) (visualStyle a)
        (app_language a) (isLoading a) (imageHistory a) (error a) (showAuthModal a) b.
Definition set_isLoading (b : bool) (a : App) : App :=
  mkApp (currentUser a) (vision_token a) (topic a) (complexityLevel a) (visualStyle a)
        (app_language a) b (imageHistory a) (error a) (showAuthModal a) (hasApiKey a).
Definition set_imageHistory (h : list GeneratedImage) (a : App) : App :=
  mkApp (currentUser a) (vision_token a) (topic a) (complexityLevel a) (visualStyle a)
        (app_language a) (isLoading a) h (error a) (showAuthModal a) (hasApiKey a).

(** [updateCurrentUser({ tokens })] *)
Definition updateCurrentUser (t : option Z) (a : App) : App :=
  mkApp (option_map (fun u => mkUser (token u) t) (currentUser a))
        (vision_token a) (topic a) (complexityLevel a) (visualStyle a)
        (app_language a) (isLoading a) (imageHistory a) (error a) (showAuthModal a)
        (hasApiKey a).

(** The requests a handler of the client sends, in order. *)
Inductive Sent : Type :=
| SentResearch
| SentGenerateImage (p : string)
| SentEditImage (instruction : string)
| SentSaveImage (imgid : string)
| SentLogUsage (feature : string) (tokenCount : Z).

(** [apiRequest]: a token the server refuses ends in a throw as well. *)
Definition apiRequest {A} (tok : Token) (reply : Reply A) : Reply A :=
  match tok with
  | Verified _ => reply
  | Refused => inl "Unexpected token"
  end.

Definition researchTopicForPrompt (w : World) (tok : Token) : Reply ResearchResult :=
  apiRequest tok (research_reply w).
Definition generateInfographicImage (w : World) (tok : Token) : Reply AIResponse :=
  apiRequest tok (generate_reply w).
Definition editInfographicImage (w : World) (tok : Token) : Reply AIResponse :=
  apiRequest tok (edit_reply w).

(** [res.ok] *)
Definition ok (r : Response) : bool :=
  match r with
  | json st _ => (200 <=? st) && (st <=? 299)
  | sendStatus st => (200 <=? st) && (st <=? 299)
  | no_response => false
  end.

Definition upload_of (g : GeneratedImage) : ImageUpload :=
  mkImageUpload (gi_id g) (gi_data g) (gi_prompt g) (gi_level g) (gi_style g)
                (gi_language g) (gi_timestamp g).

(** [userService.saveUserImage]: [false] when it throws. *)
Definition saveUserImage (w : World) (a : App) (g : GeneratedImage) (s : Server)
  : bool * Server :=
  let (res, s') :=
    api_images_post (vision_token a) (upload_of g) (put_fails w) (sign_fails w)
                    (images_faults w) s in
  (ok res, s').

(** [userService.logUsage]: the [remainingTokens] of the answer, [None]
    when the field is undefined (the answer was an error, or carried no
    such field); it never throws. *)
Definition logUsage (w : World) (a : App) (feature : string) (tokenCount : Z) (s : Server)
  : option (option Z) * Server :=
  let (res, s') :=
    api_usage (vision_token a) feature (Some tokenCount) (clock w) (usage_faults w) s in
  (match res with
   | json st (success_remaining t) => if ok res then Some t else None
   | _ => None
   end, s').

(** [!topic.trim()]: the topic is empty once the white space and the line
    terminators at both ends are stripped, that is, it consists of such
    characters only.  [trim] strips the code points of ECMAScript's
    WhiteSpace and LineTerminator: U+0009 to U+000D, U+0020, U+00A0,
    U+1680, U+2000 to U+200A, U+2028, U+2029, U+202F, U+205F, U+3000 and
    U+FEFF.  In UTF-8 the first six are one byte, U+00A0 is two bytes and
    the others are three. *)
Definition is_space (c : ascii) : bool :=
  let n := nat_of_ascii c in
  ((9 <=? n) && (n <=? 13))%nat || (n =? 32)%nat.

(** U+00A0 is C2 A0. *)
Definition is_space2 (c1 c2 : ascii) : bool :=
  ((nat_of_ascii c1 =? 194) && (nat_of_ascii c2 =? 160))%nat.

(** U+1680 is E1 9A 80; U+2000 to U+200A are E2 80 80 to E2 80 8A; U+2028
    and U+2029 are E2 80 A8 and E2 80 A9; U+202F is E2 80 AF; U+205F is
    E2 81 9F; U+3000 is E3 80 80; U+FEFF is EF BB BF. *)
Definition is_space3 (c1 c2 c3 : ascii) : bool :=
  let n1 := nat_of_ascii c1 in
  let n2 := nat_of_ascii c2 in
  let n3 := nat_of_ascii c3 in
  ((n1 =? 225) && (n2 =? 154) && (n3 =? 128) ||
   (n1 =? 226) && (n2 =? 128) &&
     ((128 <=? n3) && (n3 <=? 138) || (n3 =? 168) || (n3 =? 169) || (n3 =? 175)) ||
   (n1 =? 226) && (n2 =? 129) && (n3 =? 159) ||
   (n1 =? 227) && (n2 =? 128) && (n3 =? 128) ||
   (n1 =? 239) && (n2 =? 187) && (n3 =? 191))%nat.

Fixpoint blank (s : string) : bool :=
  match s with
  | EmptyString => true
  | String c1 s1 =>
      if is_space c1 then blank s1
      else
        match s1 with
        | EmptyString => false
        | String c2 s2 =>
            if is_space2 c1 c2 then blank s2
            else
              match s2 with
              | EmptyString => false
              | String c3 s3 => is_space3 c1 c2 c3 && blank s3
              end
        end
  end.

(** [s.includes(sub)] *)
Fixpoint includes (sub s : string) : bool :=
  String.prefix sub s ||
  match s with
  | EmptyString => false
  | String _ s' => includes sub s'
  end.

(** The outer catch of [handleGenerate]. *)
Definition generate_failed (msg : string) (a : App) : App :=
  if includes "Requested entity was not found" msg || includes "404" msg || includes "403" msg
  then set_hasApiKey false
         (set_error (Some "存取被拒絕。選定的 API 金鑰無法存取所需模型。請選擇一個已啟用計費的專案。") a)
  else set_error (Some "圖像生成服務暫時無法使用，請稍後再試。") a.

Definition engine_label : string := "可視化引擎".

(** The [finally] block of both handlers: [setIsLoading(false)]. *)
Definition finally (out : list Sent * App * Server) : list Sent * App * Server :=
  let '(sent, a, s) := out in (sent, set_isLoading false a, s).

(** [handleGenerate]: research, then image generation, then the save of
    the image, then the charge. *)
Definition handleGenerate (w : World) (a : App) (s : Server) : list Sent * App * Server :=
  if isLoading a then ([], a, s)
  else
    match currentUser a with
    | None => ([], set_showAuthModal true a, s)
    | Some user =>
        if blank (topic a) then
          ([], set_error (Some "請輸入要視覺化的主題。") a, s)
        else
          let a1 := set_error None a in
          finally
            match token user with
            | None => ([], generate_failed "Authentication token is missing." a1, s)
            | Some tok =>
                match researchTopicForPrompt w tok with
                | inl msg => ([SentResearch], generate_failed msg a1, s)
                | inr researchResult =>
                    let totalTokens := or_zero (usage researchResult) in
                    match generateInfographicImage w tok with
                    | inl msg =>
                        ([SentResearch; SentGenerateImage (imagePrompt researchResult)],
                         generate_failed msg a1, s)
                    | inr genResult =>
                        let totalTokens := totalTokens + ai_usage genResult in
                        let newImage :=
                          mkGeneratedImage (pretty (clock w)) (ai_content genResult) (topic a)
                            (clock w) (complexityLevel a) (visualStyle a) (app_language a)
                            totalTokens in
                        let a2 := set_imageHistory (newImage :: imageHistory a) a1 in
                        let sent := [SentResearch;
                                     SentGenerateImage (imagePrompt researchResult);
                                     SentSaveImage (gi_id newImage)] in
                        match saveUserImage w a newImage s with
                        | (false, s1) => (sent, a2, s1)
                        | (true, s1) =>
                            match logUsage w a engine_label totalTokens s1 with
                            | (Some t, s2) =>
                                (sent ++ [SentLogUsage engine_label totalTokens],
                                 updateCurrentUser t a2, s2)
                            | (None, s2) =>
                                (sent ++ [SentLogUsage engine_label totalTokens], a2, s2)
                            end
                        end
                    end
                end
            end
    end.

(** The catch of [handleEdit]. *)
Definition edit_failed (msg : string) (a : App) : App :=
  if includes "Requested entity was not found" msg || includes "404" msg || includes "403" msg
  then set_hasApiKey false
         (set_error (Some "存取被拒絕。請選擇一個已啟用計費的有效 API 金鑰。") a)
  else set_error (Some "修改失敗，請嘗試不同的指令。") a.

(** [handleEdit]: one edit call, then the save, then the charge.  A save
    that throws lands in the same catch; its message is taken to carry no
    status code. *)
Definition handleEdit (w : World) (editPrompt : string) (a : App) (s : Server)
  : list Sent * App * Server :=
  match imageHistory a with
  | [] => ([], a, s)
  | currentImage :: _ =>
      let a1 := set_error None a in
      finally
        match currentUser a with
        | None => ([], edit_failed "User not authenticated for editing" a1, s)
        | Some user =>
            match token user with
            | None => ([], edit_failed "User not authenticated for editing" a1, s)
            | Some tok =>
                match editInfographicImage w tok with
                | inl msg => ([SentEditImage editPrompt], edit_failed msg a1, s)
                | inr editResult =>
                    let newImage :=
                      mkGeneratedImage (pretty (clock w)) (ai_content editResult) editPrompt
                        (clock w) (gi_level currentImage) (gi_style currentImage)
                        (gi_language currentImage) (ai_usage editResult) in
                    let a2 := set_imageHistory (newImage :: imageHistory a) a1 in
                    let sent := [SentEditImage editPrompt; SentSaveImage (gi_id newImage)] in
                    match saveUserImage w a newImage s with
                    | (false, s1) => (sent, edit_failed "Failed to save image" a2, s1)
                    | (true, s1) =>
                        match logUsage w a engine_label (ai_usage editResult) s1 with
                        | (Some t, s2) =>
                            (sent ++ [SentLogUsage engine_label (ai_usage editResult)],
                             updateCurrentUser t a2, s2)
                        | (None, s2) =>
                            (sent ++ [SentLogUsage engine_label (ai_usage editResult)], a2, s2)
                        end
                    end
                end
            end
        end
  end.

(** A logged-in alice about to visualise a topic. *)
Definition sample_app : App :=
  mkApp (Some (mkUser (Some (Verified alice)) (Some 1000))) (Some (Verified alice))
        "volcano" "High School" "Default" "Traditional Chinese"
        false [] None false true.

Definition sample_research : ResearchResult :=
  mkResearchResult "A cross-section of a volcano" ["magma"; "vent"; "crater"] (Some 40).

Definition sample_world : World :=
  mkWorld (inr sample_research)
          (inr (mkAIResponse "data:image/png;base64,iVBORw0KGgo=" 50))
          (inr (mkAIResponse "data:image/png;base64,iVBORw0KGgp=" 25))
          false false [] [] 1700000000000.

(** The same world with a generation stage that fails. *)
Definition generation_down : World :=
  mkWorld (inr sample_research) (inl "An error occurred during image generation.")
          (inr (mkAIResponse "data:image/png;base64,iVBORw0KGgp=" 25))
          false false [] [] 1700000000000.

(** The same world with a research stage that fails. *)
Definition research_down : World :=
  mkWorld (inl "An error occurred during the research process.")
          (inr (mkAIResponse "data:image/png;base64,iVBORw0KGgo=" 50))
          (inr (mkAIResponse "data:image/png;base64,iVBORw0KGgp=" 25))
          false false [] [] 1700000000000.

(** The same world with an R2 upload that fails. *)
Definition r2_down : World :=
  mkWorld (inr sample_research)
          (inr (mkAIResponse "data:image/png;base64,iVBORw0KGgo=" 50))
          (inr (mkAIResponse "data:image/png;base64,iVBORw0KGgp=" 25))
          true false [] [] 1700000000000.

(** A usage request is among the requests sent. *)
Definition charge_sent (sent : list Sent) : bool :=
  existsb (fun e => match e with SentLogUsage _ _ => true | _ => false end) sent.

(** The outcome of an image action on the server: a usage request was only
    sent after the image's row had been appended to [images]; without a
    usage request the balances and the usage log are as before. *)
Definition row_before_charge (imgid : string) (s : Server)
    (out : list Sent * App * Server) : Prop :=
  let '(sent, _, s') := out in
  (charge_sent sent = true ->
     exists row, images (db s') = images (db s) ++ [row] /\ img_id row = imgid) /\
  (charge_sent sent = false ->
     usage_logs (db s') = usage_logs (db s) /\ users (db s') = users (db s)).

(** alice with one image on screen, about to edit it. *)
Definition editing_app : App :=
  mkApp (Some (mkUser (Some (Verified alice)) (Some 910))) (Some (Verified alice))
        "volcano" "High School" "Default" "Traditional Chinese" false
        [mkGeneratedImage "1700000000000" "data:image/png;base64,iVBORw0KGgo=" "volcano"
           1700000000000 "High School" "Default" "Traditional Chinese" 90]
        None false true.

Definition later_world : World :=
  mkWorld (inr sample_research)
          (inr (mkAIResponse "data:image/png;base64,iVBORw0KGgo=" 50))
          (inr (mkAIResponse "data:image/png;base64,iVBORw0KGgp=" 25))
          false false [] [] 1700000000500.

(** ** Chat sessions

    The four routes under /api/chat/sessions.  A listing answers with the
    rows themselves; [Answer] keeps them apart from the status answers. *)

Inductive Answer (A : Type) : Type :=
| rows_json (rows : A)        (* [res.json(rows)] *)
| answered (r : Response).
Arguments rows_json {A} rows.
Arguments answered {A} r.

Record SessionView := mkSessionView {
  sv_id : string;
  sv_title : string;
  sv_timestamp : Z
}.

Definition session_view (c : string * ChatSessionRow) : SessionView :=
  mkSessionView (fst c) (title (snd c)) (updated_at (snd c)).

(** INSERT INTO chat_sessions (id, user_id, title, created_at, updated_at):
    [id] is the primary key, [user_id] a foreign key on [users(id)]. *)
Definition insert_chat_session (sid : string) (uid : Z) (t : string) (at_ : Z) : Stmt unit :=
  fun d =>
    match chat_sessions d !! sid with
    | Some _ => (Throw, d)
    | None =>
        match users d !! uid with
        | Some _ =>
            (Ok tt, set_chat_sessions
                      (<[sid := mkChatSessionRow uid t at_ at_]> (chat_sessions d)) d)
        | None => (Throw, d)
        end
    end.

(** POST /api/chat/sessions *)
Definition post_chat_sessions (user : ReqUser) (sid t : string) (at_ : Z)
    (fl : Faults) (s : Server) : Response * Server :=
  if useMockDb s then
    (json 200 success,
     set_mockChatSessions
       (mockChatSessions s ++ [(sid, mkChatSessionRow (id user) t at_ at_)]) s)
  else
    match pool_query (insert_chat_session sid (id user) t at_) fl (db s) with
    | (Ok _, _, d) => (json 200 success, set_db d s)
    | (Throw, _, d) => (json 500 (err_message ""), set_db d s)
    end.

(** UPDATE chat_sessions SET title = ? WHERE id = ? AND user_id = ? *)
Definition update_session_title (t sid : string) (uid : Z) : Stmt unit :=
  fun d =>
    (Ok tt,
     set_chat_sessions
       (alter (fun c => if cs_user_id c =? uid
                        then mkChatSessionRow (cs_user_id c) t (cs_created_at c) (updated_at c)
                        else c)
              sid (chat_sessions d)) d).

(** [find(s => s.id === id && s.user_id === uid)] and [session.title = title]. *)
Fixpoint retitle_mock_session (sid : string) (uid : Z) (t : string)
    (l : list (string * ChatSessionRow)) : list (string * ChatSessionRow) :=
  match l with
  | [] => []
  | c :: l' =>
      if String.eqb (fst c) sid && (cs_user_id (snd c) =? uid)
      then (fst c, mkChatSessionRow (cs_user_id (snd c)) t (cs_created_at (snd c))
                     (updated_at (snd c))) :: l'
      else c :: retitle_mock_session sid uid t l'
  end.

(** PUT /api/chat/sessions/:id *)
Definition put_chat_session (user : ReqUser) (sid t : string)
    (fl : Faults) (s : Server) : Response * Server :=
  if useMockDb s then
    (json 200 success,
     set_mockChatSessions (retitle_mock_session sid (id user) t (mockChatSessions s)) s)
  else
    match pool_query (update_session_title t sid (id user)) fl (db s) with
    | (Ok _, _, d) => (json 200 success, set_db d s)
    | (Throw, _, d) => (json 500 (err_message ""), set_db d s)
    end.

(** SELECT * FROM chat_sessions WHERE user_id = ? ORDER BY updated_at DESC *)
Definition select_sessions (uid : Z) : Stmt (list (string * ChatSessionRow)) :=
  fun d =>
    (Ok (sort_by (fun a b => updated_at (snd b) <=? updated_at (snd a))
           (List.filter (fun c => cs_user_id (snd c) =? uid)
              (map_to_list (chat_sessions d)))), d).

(** GET /api/chat/sessions *)
Definition get_chat_sessions (user : ReqUser) (fl : Faults) (s : Server)
  : Answer (list SessionView) * Server :=
  if useMockDb s then
    (rows_json
       (map session_view
          (sort_by (fun a b => updated_at (snd b) <=? updated_at (snd a))
             (List.filter (fun c => cs_user_id (snd c) =? id user) (mockChatSessions s)))), s)
  else
    match pool_query (select_sessions (id user)) fl (db s) with
    | (Ok rows, _, d) => (rows_json (map session_view rows), set_db d s)
    | (Throw, _, d) => (answered (json 500 (err_message "")), set_db d s)
    end.

(** DELETE FROM chat_sessions WHERE id = ? AND user_id = ?: the messages
    of a deleted session go with it (ON DELETE CASCADE). *)
Definition delete_session (sid : string) (uid : Z) : Stmt unit :=
  fun d =>
    match chat_sessions d !! sid with
    | Some c =>
        if cs_user_id c =? uid then
          (Ok tt,
           set_chat_messages
             (List.filter (fun m => negb (String.eqb (session_id m) sid)) (chat_messages d))
             (set_chat_sessions (delete sid (chat_sessions d)) d))
        else (Ok tt, d)
    | None => (Ok tt, d)
    end.

(** [findIndex(s => s.id === id && s.user_id === uid)] and [splice(idx, 1)]. *)
Fixpoint remove_mock_session (sid : string) (uid : Z)
    (l : list (string * ChatSessionRow)) : list (string * ChatSessionRow) :=
  match l with
  | [] => []
  | c :: l' =>
      if String.eqb (fst c) sid && (cs_user_id (snd c) =? uid)
      then l'
      else c :: remove_mock_session sid uid l'
  end.

(** DELETE /api/chat/sessions/:id *)
Definition delete_chat_session (user : ReqUser) (sid : string)
    (fl : Faults) (s : Server) : Response * Server :=
  if useMockDb s then
    (json 200 success,
     set_mockChatSessions (remove_mock_session sid (id user) (mockChatSessions s)) s)
  else
    match pool_query (delete_session sid (id user)) fl (db s) with
    | (Ok _, _, d) => (json 200 success, set_db d s)
    | (Throw, _, d) => (json 500 (err_message ""), set_db d s)
    end.

(** The sessions an account owns, as stored. *)
Definition owns (uid : Z) (s : Server) (sid : string) : Prop :=
  exists c, chat_sessions (db s) !! sid = Some c /\ cs_user_id c = uid.

(** The messages listed by an answer of GET /api/chat/messages/:sessionId. *)
Definition listed_messages (r : Response) : option (list MessageView) :=
  match r with
  | json 200 (message_list l) => Some l
  | _ => None
  end.

(** Sample store: alice owns "s1" (one message), bob owns "s2". *)
Definition two_sessions_db : Db :=
  set_chat_messages
    [mkChatMessageRow "s1" "user" "hello" 10; mkChatMessageRow "s2" "user" "hi bob" 20]
    (set_chat_sessions
       (<["s1" := mkChatSessionRow 1 "Greetings" 10 10]>
          (<["s2" := mkChatSessionRow 2 "Bob's notes" 15 20]> ∅))
       (sample_db 1000)).

Definition two_sessions : Server :=
  mkServer false [] [] [] [] [] two_sessions_db ∅ (Some "bucket").

(** ** Usage listings *)

Record UsageView := mkUsageView {
  uv_feature : string;
  uv_tokenCount : Z;
  uv_timestamp : Z
}.

Record AdminUsageView := mkAdminUsageView {
  av_username : string;
  av_feature : string;
  av_tokenCount : Z;
  av_timestamp : Z
}.

Definition usage_view (r : UsageLog) : UsageView :=
  mkUsageView (feature_name r) (token_count r) (created_at r).

(** SELECT feature_name, token_count, created_at FROM usage_logs
    WHERE user_id = ? [AND created_at >= ?] ORDER BY created_at DESC
    [LIMIT ? OFFSET ?] *)
Definition select_usage (uid : Z) (period : option string) (page now : Z)
  : Stmt (list UsageLog) :=
  fun d =>
    let mine := List.filter (fun r => user_id r =? uid) (usage_logs d) in
    let newest_first := sort_by (fun a b => created_at b <=? created_at a) in
    if is_week period then
      (Ok (newest_first
             (List.filter (fun r => now - 7 * 24 * 60 * 60 * 1000 <=? created_at r) mine)), d)
    else
      let offset := (page - 1) * 50 in
      if offset <? 0 then (Throw, d)
      else (Ok (take 50 (drop (Z.to_nat offset) (newest_first mine))), d).

(** GET /api/usage/me *)
Definition get_usage_me (user : ReqUser) (period : option string) (page now : Z)
    (fl : Faults) (s : Server) : Answer (list UsageView) * Server :=
  if useMockDb s then
    (rows_json
       (map usage_view
          (sort_by (fun a b => created_at b <=? created_at a)
             (List.filter (fun r => user_id r =? id user) (mockUsageLogs s)))), s)
  else
    match pool_query (select_usage (id user) period page now) fl (db s) with
    | (Ok rows, _, d) => (rows_json (map usage_view rows), set_db d s)
    | (Throw, _, d) => (answered (json 500 (err_message "")), set_db d s)
    end.

(** SELECT u.username, l.feature_name, l.token_count, l.created_at
    FROM usage_logs l JOIN users u ON l.user_id = u.id
    ORDER BY l.created_at DESC *)
Definition select_all_usage : Stmt (list AdminUsageView) :=
  fun d =>
    (Ok (sort_by (fun a b => av_timestamp b <=? av_timestamp a)
           (flat_map (fun r =>
                        match users d !! user_id r with
                        | Some u => [mkAdminUsageView (username u) (feature_name r)
                                       (token_count r) (created_at r)]
                        | None => []
                        end) (usage_logs d))), d).

(** GET /api/admin/usage *)
Definition get_admin_usage (user : ReqUser) (fl : Faults) (s : Server)
  : Answer (list AdminUsageView) * Server :=
  if negb (String.eqb (ru_role user) "admin") then (answered (sendStatus 403), s)
  else if useMockDb s then
    (rows_json
       (sort_by (fun a b => av_timestamp b <=? av_timestamp a)
          (map (fun l =>
                  mkAdminUsageView
                    match find_mock_user (user_id l) (mockUsers s) with
                    | Some u => mu_username u
                    | None => "Unknown"
                    end (feature_name l) (token_count l) (created_at l))
               (mockUsageLogs s))), s)
  else
    match pool_query select_all_usage fl (db s) with
    | (Ok rows, _, d) => (rows_json rows, set_db d s)
    | (Throw, _, d) => (answered (json 500 (err_message "")), set_db d s)
    end.

(** ** POST /api/generated-images *)

(** [`users/${req.user.id}/generated/${id}.png`] *)
Definition generated_key (uid : Z) (imgid : string) : string :=
  "users/" +:+ pretty uid +:+ "/generated/" +:+ imgid +:+ ".png".

Definition post_generated_images (user : ReqUser) (imgid data iprompt : string)
    (timestamp : Z) (put_throws : bool) (fl : Faults) (s : Server) : Response * Server :=
  match R2_BUCKET_NAME s with
  | None => (json 500 (message "Server R2 Configuration Missing"), s)
  | Some bucket =>
      let key := generated_key (id user) imgid in
      if put_throws then (json 500 (err_message "Save failed: "), s)
      else
        let s1 := set_r2 (<[key := data]> (r2 s)) s in
        let row := mkImageRow imgid (id user) iprompt key "N/A" "ImageGenerator" "N/A"
                     timestamp in
        match pool_query (insert_image row) fl (db s1) with
        | (Ok _, _, d) => (json 200 success, set_db d s1)
        | (Throw, _, d) => (json 500 (err_message "Save failed: "), set_db d s1)
        end
  end.

(** ** DELETE /api/admin/users/:id *)

(** DELETE FROM users WHERE id = ?: the rows that reference the user go
    with it (ON DELETE CASCADE on images, chat_sessions and usage_logs, and
    from chat_sessions on chat_messages). *)
Definition delete_user (uid : Z) : Stmt unit :=
  fun d =>
    match users d !! uid with
    | None => (Ok tt, d)
    | Some _ =>
        (Ok tt,
         mkDb (delete uid (users d))
              (List.filter (fun r => negb (img_user_id r =? uid)) (images d))
              (filter (fun kc => cs_user_id (snd kc) <> uid) (chat_sessions d))
              (List.filter
                 (fun m => match chat_sessions d !! session_id m with
                           | Some c => negb (cs_user_id c =? uid)
                           | None => true
                           end) (chat_messages d))
              (List.filter (fun r => negb (user_id r =? uid)) (usage_logs d)))
    end.

(** [findIndex(u => u.id.toString() === req.params.id)] and [splice(idx, 1)];
    the parameter is taken as the number it spells. *)
Fixpoint remove_mock_user (uid : Z) (l : list MockUser) : list MockUser :=
  match l with
  | [] => []
  | u :: l' => if mu_id u =? uid then l' else u :: remove_mock_user uid l'
  end.

Definition delete_admin_user (user : ReqUser) (uid : Z) (fl : Faults) (s : Server)
  : Response * Server :=
  if negb (String.eqb (ru_role user) "admin") then (sendStatus 403, s)
  else if useMockDb s then
    (json 200 success, set_mockUsers (remove_mock_user uid (mockUsers s)) s)
  else
    match pool_query (delete_user uid) fl (db s) with
    | (Ok _, _, d) => (json 200 success, set_db d s)
    | (Throw, _, d) => (json 500 (err_message "Delete failed: "), set_db d s)
    end.

(** Nothing in the tables refers to the account any more. *)
Definition forgotten (uid : Z) (d : Db) : Prop :=
  users d !! uid = None /\
  (forall r, In r (images d) -> img_user_id r <> uid) /\
  (forall sid c, chat_sessions d !! sid = Some c -> cs_user_id c <> uid) /\
  (forall r, In r (usage_logs d) -> user_id r <> uid).

(** A store with rows of every kind for alice and bob. *)
Definition busy_db : Db :=
  mkDb (users (sample_db 1000))
       [mkImageRow "i1" 1 "volcano" "users/1/i1.png" "High School" "Default" "English" 5;
        mkImageRow "i2" 2 "glacier" "users/2/i2.png" "High School" "Default" "English" 6]
       (chat_sessions two_sessions_db)
       (chat_messages two_sessions_db)
       [mkUsageLog 1 "engine" 90 5; mkUsageLog 2 "chat" 12 6; mkUsageLog 1 "chat" 7 8].

Definition busy_server : Server :=
  mkServer false [] [] [] [] [] busy_db
           (<["users/1/i1.png" := "AAAA"]> (<["users/2/i2.png" := "BBBB"]> ∅))
           (Some "bucket").

(** ** Strings without a slash *)

Fixpoint slash_free (s : string) : bool :=
  match s with
  | EmptyString => true
  | String c s' => negb (Ascii.eqb c "/") && slash_free s'
  end.

(** ** Runs of charges *)

(** The account a ledger operation is aimed at. *)
Definition target (op : LedgerOp) : Z :=
  match op with
  | Charge user _ _ _ _ => id user
  | Adjust _ uid _ _ _ => uid
  end.

(** A series of charges of one account, each with its feature, amount and
    time, none of them meeting a database failure. *)
Definition charges (user : ReqUser) (l : list (string * Z * Z)) : list LedgerOp :=
  map (fun c => Charge user (fst (fst c)) (Some (snd (fst c))) (snd c) []) l.



(** ** Search results of the research route

    The grounding chunks of the Gemini answer, the results pushed for the
    chunks that carry both a uri and a title, and their deduplication
    through [new Map(results.map(item => [item.url, item]))]. *)

Record WebChunk := mkWebChunk {
  uri : option string;
  chunk_title : option string
}.

(** A chunk with or without a [web] part. *)
Definition GroundingChunk : Type := option WebChunk.

Record SearchResultItem := mkSearchResultItem {
  sr_title : string;
  sr_url : string
}.

(** A string that is present and not empty. *)
Definition truthy (x : option string) : option string :=
  match x with
  | Some "" => None
  | Some v => Some v
  | None => None
  end.

Definition searchResults (chunks : list GroundingChunk) : list SearchResultItem :=
  flat_map (fun chunk =>
              match chunk with
              | Some w =>
                  match truthy (uri w), truthy (chunk_title w) with
                  | Some u, Some t => [mkSearchResultItem t u]
                  | _, _ => []
                  end
              | None => []
              end) chunks.

(** [Map.prototype.set]: a key that is present keeps its place and takes
    the new value, a new key goes last. *)
Fixpoint Map_set {V} (k : string) (v : V) (m : list (string * V)) : list (string * V) :=
  match m with
  | [] => [(k, v)]
  | (k', v') :: m' =>
      if String.eqb k' k then (k, v) :: m' else (k', v') :: Map_set k v m'
  end.

(** The entries set one after the other into a map that holds [m]. *)
Definition Map_fill {V} (m es : list (string * V)) : list (string * V) :=
  fold_left (fun m e => Map_set (fst e) (snd e) m) es m.

(** [new Map(entries)] *)
Definition Map_of {V} (entries : list (string * V)) : list (string * V) :=
  Map_fill [] entries.

(** [Array.from(new Map(results.map(item => [item.url, item])).values())] *)
Definition uniqueResults (results : list SearchResultItem) : list SearchResultItem :=
  map snd (Map_of (map (fun item => (sr_url item, item)) results)).

(** ** [restoreImage] and [handleLogout] of [App.tsx] *)

(** [restoreImage]: the image goes to the head of the history, any entry
    with its id is dropped, and the view becomes 'home'. *)
Definition restoreImage (img : GeneratedImage) (a : App) : App * string :=
  (set_imageHistory
     (img :: List.filter (fun i => negb (String.eqb (gi_id i) (gi_id img))) (imageHistory a)) a,
   "home").

(** [handleLogout]: [userService.logout] removes the stored token; the
    user and the session history are cleared and the view becomes 'home'. *)
Definition handleLogout (a : App) : App * string :=
  (mkApp None None (topic a) (complexityLevel a) (visualStyle a) (app_language a)
         (isLoading a) [] (error a) (showAuthModal a) (hasApiKey a),
   "home").

Definition sample_chunks : list GroundingChunk :=
  [Some (mkWebChunk (Some "https://a.example/volcano") (Some "Volcano"));
   None;
   Some (mkWebChunk (Some "https://b.example/magma") None);
   Some (mkWebChunk (Some "https://a.example/volcano") (Some "Volcano (mirror)"));
   Some (mkWebChunk (Some "") (Some "No link"));
   Some (mkWebChunk (Some "https://c.example/vent") (Some "Vent"))].
(** * Properties of the ledger *)

(** ** Fault scripts *)

Lemma call_hd {S A} (f : S -> result A * S) (fl : Faults) (s : S) :
  call f fl s =
    if hd false fl then (Throw, tl fl, s)
    else let (r, s') := f s in (r, tl fl, s').
Proof. destruct fl as [|[] fl]; reflexivity. Qed.

Lemma no_fault_hd fl : no_fault fl = true -> hd false fl = false.
Proof. destruct fl as [|[] fl]; simpl; congruence. Qed.

Lemma no_fault_tl fl : no_fault fl = true -> no_fault (tl fl) = true.
Proof. destruct fl as [|[] fl]; simpl; congruence. Qed.


Lemma set_db_same s : set_db (db s) s = s.
Proof. destruct s; reflexivity. Qed.

(** ** The columns of [usage_logs] *)

Lemma int_ok_spec n : int_ok n = true <-> -2147483648 <= n <= 2147483647.
Proof. unfold int_ok. rewrite andb_true_iff, !Z.leb_le. reflexivity. Qed.


Lemma topup_row_ok n : usage_row_ok admin_topup_label n = int_ok n.
Proof. reflexivity. Qed.

Lemma usage_tx_cases uid feature n now fl d :
  match usage_tx uid feature n now fl (connect d) with
  | (Throw, _, c) => committed c = d
  | (Ok t, _, c) =>
      exists u, users d !! uid = Some u /\ t = tokens u - n /\
                committed c = charge_effect uid feature n now d
  end.
Proof.
  unfold usage_tx, bind, beginTransaction, conn_query, commit, connect.
  rewrite call_hd. destruct (hd false fl); [reflexivity|]. cbn.
  rewrite call_hd. destruct (hd false (tl fl)); [reflexivity|]. cbn.
  unfold insert_usage_log at 1. cbn.
  destruct (users d !! uid) as [u|] eqn:Hu; [|reflexivity].
  destruct (usage_row_ok feature n); [|reflexivity]. cbn.
  rewrite call_hd. destruct (hd false (tl (tl fl))); [reflexivity|]. cbn.
  rewrite call_hd. destruct (hd false (tl (tl (tl fl)))); [reflexivity|]. cbn.
  rewrite lookup_alter_eq, Hu. cbn.
  rewrite call_hd. destruct (hd false (tl (tl (tl (tl fl))))); [reflexivity|]. cbn.
  exists u. repeat split.
Qed.

Lemma int_not_ok_row feature n : int_ok n = false -> usage_row_ok feature n = false.
Proof. intros Hn. unfold usage_row_ok. rewrite Hn. apply andb_false_r. Qed.

(** A count outside the 32-bit range ends the transaction, whatever the
    fault script. *)
Lemma usage_tx_refused uid feature n now fl d :
  int_ok n = false ->
  exists fl' c, usage_tx uid feature n now fl (connect d) = (Throw, fl', c) /\
                committed c = d.
Proof.
  intros Hfit. apply (int_not_ok_row feature) in Hfit.
  unfold usage_tx, bind, beginTransaction, conn_query, commit, connect.
  rewrite call_hd. destruct (hd false fl); [eexists _, _; split; reflexivity|]. cbn.
  rewrite call_hd. destruct (hd false (tl fl)); [eexists _, _; split; reflexivity|]. cbn.
  unfold insert_usage_log at 1. cbn. rewrite Hfit.
  destruct (users d !! uid); eexists _, _; split; reflexivity.
Qed.


Lemma admin_update_tx_cases uid b now fl d :
  match admin_update_tx uid b now fl (connect d) with
  | (Throw, _, c) => committed c = d
  | (Ok _, _, c) =>
      exists u, users d !! uid = Some u /\
                committed c = adjust_effect uid b now (tokens u) d
  end.
Proof.
  unfold admin_update_tx, bind, beginTransaction, conn_query, commit, connect.
  rewrite call_hd. destruct (hd false fl); [reflexivity|]. cbn.
  rewrite call_hd. destruct (hd false (tl fl)); [reflexivity|]. cbn.
  destruct (users d !! uid) as [u|] eqn:Hu; [|reflexivity]. cbn.
  rewrite call_hd. destruct (hd false (tl (tl fl))); [reflexivity|]. cbn.
  destruct (0 <? upd_tokens b - tokens u) eqn:Hpos.
  - rewrite call_hd. destruct (hd false (tl (tl (tl fl)))); [reflexivity|]. cbn.
    unfold insert_usage_log. cbn. rewrite lookup_alter_eq, Hu. cbn.
    rewrite topup_row_ok.
    destruct (int_ok (upd_tokens b - tokens u)); [|reflexivity]. cbn.
    rewrite call_hd. destruct (hd false (tl (tl (tl (tl fl))))); [reflexivity|]. cbn.
    exists u. split; [reflexivity|]. unfold adjust_effect. rewrite Hpos. reflexivity.
  - cbn. rewrite call_hd. destruct (hd false (tl (tl (tl fl)))); [reflexivity|]. cbn.
    exists u. split; [reflexivity|]. unfold adjust_effect. rewrite Hpos. reflexivity.
Qed.


(** ** The two handlers, case by case *)

Lemma post_usage_cases user feature tokenCount now fl s :
  useMockDb s = false ->
  post_usage user feature tokenCount now fl s = (json 500 (err_message ""), s) \/
  exists u, users (db s) !! id user = Some u /\
    post_usage user feature tokenCount now fl s =
      (json 200 (success_remaining (Some (tokens u - or_zero tokenCount))),
       set_db (charge_effect (id user) feature (or_zero tokenCount) now (db s)) s).
Proof.
  intros Hmock. unfold post_usage. rewrite Hmock.
  pose proof (usage_tx_cases (id user) feature (or_zero tokenCount) now (tl fl) (db s)) as Htx.
  destruct fl as [|[] fl]; [| left; reflexivity |];
    destruct (usage_tx _ _ _ _ _ _) as [[[t|] fl'] c]; cbn in *.
  - destruct Htx as (u & Hu & -> & ->). right. exists u. split; [exact Hu | reflexivity].
  - left. rewrite Htx. now rewrite set_db_same.
  - destruct Htx as (u & Hu & -> & ->). right. exists u. split; [exact Hu | reflexivity].
  - left. rewrite Htx. now rewrite set_db_same.
Qed.


(** A charge whose count is outside the 32-bit range of [token_count] is
    answered 500 and leaves the server as it was, whatever the fault
    script: the amount is not debited either. *)
Lemma post_usage_refused user feature tokenCount now fl s :
  useMockDb s = false ->
  int_ok (or_zero tokenCount) = false ->
  post_usage user feature tokenCount now fl s = (json 500 (err_message ""), s).
Proof.
  intros Hmock Hfit. unfold post_usage. rewrite Hmock.
  destruct (usage_tx_refused (id user) feature (or_zero tokenCount) now (tl fl) (db s) Hfit)
    as (fl' & c & Htx & Hc).
  destruct fl as [|[] fl]; [| reflexivity |]; rewrite Htx; cbn; rewrite Hc;
    now rewrite set_db_same.
Qed.

Lemma put_admin_user_cases user uid b now fl s :
  (fst (put_admin_user user uid b now fl s) <> json 200 success /\
   snd (put_admin_user user uid b now fl s) = s) \/
  exists u, users (db s) !! uid = Some u /\
    put_admin_user user uid b now fl s =
      (json 200 success, set_db (adjust_effect uid b now (tokens u) (db s)) s).
Proof.
  unfold put_admin_user.
  destruct (negb (ru_role user =? "admin")%string); [left; split; [discriminate | reflexivity]|].
  pose proof (admin_update_tx_cases uid b now (tl fl) (db s)) as Htx.
  destruct fl as [|[] fl]; [| left; split; [discriminate | reflexivity] |];
    destruct (admin_update_tx _ _ _ _ _) as [[[t|] fl'] c]; cbn in *.
  - destruct Htx as (u & Hu & ->). right. exists u. split; [exact Hu | reflexivity].
  - left. split; [discriminate|]. rewrite Htx. apply set_db_same.
  - destruct Htx as (u & Hu & ->). right. exists u. split; [exact Hu | reflexivity].
  - left. split; [discriminate|]. rewrite Htx. apply set_db_same.
Qed.


(** A top-up of more than 2147483647 tokens is never carried out: the row
    of the top-up does not fit [token_count], and the update of the
    account is rolled back with it, whatever the fault script. *)
Lemma admin_update_tx_refused uid b now fl d u :
  users d !! uid = Some u ->
  2147483647 < upd_tokens b - tokens u ->
  exists fl' c, admin_update_tx uid b now fl (connect d) = (Throw, fl', c).
Proof.
  intros Hu Hbig.
  assert (Hpos : (0 <? upd_tokens b - tokens u) = true) by (apply Z.ltb_lt; lia).
  assert (Hno : int_ok (upd_tokens b - tokens u) = false).
  { destruct (int_ok _) eqn:Hok; [|reflexivity]. apply int_ok_spec in Hok. lia. }
  unfold admin_update_tx, bind, beginTransaction, conn_query, commit, connect.
  rewrite call_hd. destruct (hd false fl); [eexists _, _; reflexivity|]. cbn.
  rewrite call_hd. destruct (hd false (tl fl)); [eexists _, _; reflexivity|]. cbn.
  rewrite Hu. cbn.
  rewrite call_hd. destruct (hd false (tl (tl fl))); [eexists _, _; reflexivity|]. cbn.
  rewrite Hpos.
  rewrite call_hd. destruct (hd false (tl (tl (tl fl)))); [eexists _, _; reflexivity|]. cbn.
  unfold insert_usage_log. cbn. rewrite lookup_alter_eq, Hu. cbn.
  rewrite topup_row_ok, Hno. eexists _, _; reflexivity.
Qed.

Lemma put_admin_user_refused user uid b now fl s u :
  users (db s) !! uid = Some u ->
  2147483647 < upd_tokens b - tokens u ->
  fst (put_admin_user user uid b now fl s) <> json 200 success /\
  snd (put_admin_user user uid b now fl s) = s.
Proof.
  intros Hu Hbig. unfold put_admin_user.
  destruct (negb (ru_role user =? "admin")%string); [split; [discriminate | reflexivity]|].
  pose proof (admin_update_tx_cases uid b now (tl fl) (db s)) as Htx.
  destruct (admin_update_tx_refused uid b now (tl fl) (db s) u Hu Hbig) as (fl' & c & Heq).
  destruct fl as [|[] fl]; [| split; [discriminate | reflexivity] |];
    rewrite Heq in Htx |- *; cbn in *;
    (split; [discriminate | rewrite Htx; apply set_db_same]).
Qed.

(** The tables after a charge and after an adjustment. *)

Lemma charge_effect_logs uid feature n now d :
  usage_logs (charge_effect uid feature n now d) =
    usage_logs d ++ [mkUsageLog uid feature n now].
Proof. reflexivity. Qed.

Lemma charge_effect_user uid feature n now d u :
  users d !! uid = Some u ->
  users (charge_effect uid feature n now d) !! uid = Some (set_tokens (tokens u - n) u).
Proof. intros Hu. cbn. now rewrite lookup_alter_eq, Hu. Qed.

Lemma charge_effect_other uid feature n now d uid' :
  uid <> uid' ->
  users (charge_effect uid feature n now d) !! uid' = users d !! uid'.
Proof. intros Hne. cbn. now rewrite lookup_alter_ne. Qed.

Lemma adjust_effect_logs uid b now current d :
  usage_logs (adjust_effect uid b now current d) =
    if 0 <? upd_tokens b - current
    then usage_logs d ++ [mkUsageLog uid admin_topup_label (upd_tokens b - current) now]
    else usage_logs d.
Proof. unfold adjust_effect. destruct (0 <? _); reflexivity. Qed.

Lemma adjust_effect_users uid b now current d :
  users (adjust_effect uid b now current d) = alter (adjusted_row b) uid (users d).
Proof. unfold adjust_effect. destruct (0 <? _); reflexivity. Qed.

(** * The ledger operations *)




(** The largest amount that fits is charged as any other. *)
Example charge_at_the_width :
  post_usage alice "engine" (Some 2147483647) 7 [] (sample_server 5000000000) =
    (json 200 (success_remaining (Some 2852516353)),
     set_db (charge_effect 1 "engine" 2147483647 7 (db (sample_server 5000000000)))
            (sample_server 5000000000)).
Proof. reflexivity. Qed.

(** A charge larger than the balance goes through and leaves a debt. *)
Example charge_overdraws :
  fst (post_usage alice "engine" (Some 150) 7 [] (sample_server 100)) =
    json 200 (success_remaining (Some (-50))).
Proof. reflexivity. Qed.




(** Counts chosen by the client: a credit of 400 and a debit of 150. *)
Example usage_with_negative_and_positive_count :
  balance 1 (snd (api_usage (Some (Verified alice)) "engine" (Some (-400)) 7 []
                    (sample_server 1000))) = Some 1400 /\
  balance 1 (snd (api_usage (Some (Verified alice)) "engine" (Some 150) 7 []
                    (sample_server 1000))) = Some 850.
Proof. split; reflexivity. Qed.

(** An absent count still writes a row. *)
Example usage_without_count :
  usage_logs (db (snd (api_usage (Some (Verified alice)) "chat" None 7 [] (sample_server 1000))))
    = [mkUsageLog 1 "chat" 0 7] /\
  balance 1 (snd (api_usage (Some (Verified alice)) "chat" None 7 [] (sample_server 1000)))
    = Some 1000.
Proof. split; reflexivity. Qed.




(** A balance can be lowered by any number: no row is written for it. *)
Example admin_lowering_has_no_width :
  balance 1 (snd (put_admin_user root 1 (set_balance 0) 7 [] (sample_server 5000000000)))
    = Some 0.
Proof. reflexivity. Qed.

(** Scenario C, second half: lowering 2000 to 100 writes no row. *)
Example admin_lowering_is_silent :
  balance 1 (snd (put_admin_user root 1 (set_balance 100) 7 [] (sample_server 2000))) = Some 100 /\
  usage_logs (db (snd (put_admin_user root 1 (set_balance 100) 7 [] (sample_server 2000)))) = [].
Proof. split; reflexivity. Qed.

(** Only an administrator's token reaches the transaction. *)
Lemma put_admin_user_forbidden user uid b now fl s :
  ru_role user <> "admin" ->
  put_admin_user user uid b now fl s = (sendStatus 403, s).
Proof.
  intros Hrole. unfold put_admin_user.
  destruct (String.eqb_spec (ru_role user) "admin"); [contradiction | reflexivity].
Qed.

(** C4.  Both handlers are all-or-nothing under every fault script.
    A charge either answers 500 and leaves the whole server state as it
    was, or answers 200 with both the row appended and the balance
    debited.  An administrative update either gives no success answer and
    leaves the state as it was, or answers 200 with the account rewritten
    and the log extended exactly as the update requires (one top-up row
    when the balance rose, none otherwise). *)
Theorem charge_and_adjust_all_or_nothing
    (user admin : ReqUser) (feature : string) (tokenCount : option Z)
    (uid : Z) (b : UserUpdate) (now : Z) (fl : Faults) (s : Server) :
  useMockDb s = false ->
  (let (resp, s') := post_usage user feature tokenCount now fl s in
   (resp = json 500 (err_message "") /\ s' = s) \/
   (exists u, users (db s) !! id user = Some u /\
      resp = json 200 (success_remaining (Some (tokens u - or_zero tokenCount))) /\
      usage_logs (db s') =
        usage_logs (db s) ++ [mkUsageLog (id user) feature (or_zero tokenCount) now] /\
      users (db s') !! id user = Some (set_tokens (tokens u - or_zero tokenCount) u)))
  /\
  (let (resp, s') := put_admin_user admin uid b now fl s in
   (resp <> json 200 success /\ s' = s) \/
   (exists u, users (db s) !! uid = Some u /\
      resp = json 200 success /\
      users (db s') !! uid = Some (adjusted_row b u) /\
      usage_logs (db s') =
        if 0 <? upd_tokens b - tokens u
        then usage_logs (db s) ++
               [mkUsageLog uid admin_topup_label (upd_tokens b - tokens u) now]
        else usage_logs (db s))).
Proof.
  intros Hmock. split.
  - destruct (post_usage_cases user feature tokenCount now fl s Hmock) as [-> | (u & Hu & ->)].
    + left. split; reflexivity.
    + right. exists u. split; [exact Hu|]. split; [reflexivity|].
      cbn [db set_db]. split; [apply charge_effect_logs | now apply charge_effect_user].
  - destruct (put_admin_user_cases admin uid b now fl s) as [[Hr Hs] | (u & Hu & Heq)].
    + destruct (put_admin_user admin uid b now fl s) as [resp s']. left. split; assumption.
    + rewrite Heq. right. exists u. split; [exact Hu|]. split; [reflexivity|].
      cbn [db set_db]. rewrite adjust_effect_users, adjust_effect_logs, lookup_alter_eq, Hu.
      split; reflexivity.
Qed.

Lemma charge_and_adjust_all_or_nothing_witness :
  (let (resp, s') :=
     post_usage alice "engine" (Some 150) 7 [false; false; false; true] (sample_server 1000) in
   (resp = json 500 (err_message "") /\ s' = sample_server 1000) \/
   (exists u, users (db (sample_server 1000)) !! id alice = Some u /\
      resp = json 200 (success_remaining (Some (tokens u - or_zero (Some 150)))) /\
      usage_logs (db s') =
        usage_logs (db (sample_server 1000)) ++
          [mkUsageLog (id alice) "engine" (or_zero (Some 150)) 7] /\
      users (db s') !! id alice = Some (set_tokens (tokens u - or_zero (Some 150)) u)))
  /\
  (let (resp, s') :=
     put_admin_user root 1 (set_balance 2000) 7 [false; false; false; true] (sample_server 1000) in
   (resp <> json 200 success /\ s' = sample_server 1000) \/
   (exists u, users (db (sample_server 1000)) !! 1 = Some u /\
      resp = json 200 success /\
      users (db s') !! 1 = Some (adjusted_row (set_balance 2000) u) /\
      usage_logs (db s') =
        if 0 <? upd_tokens (set_balance 2000) - tokens u
        then usage_logs (db (sample_server 1000)) ++
               [mkUsageLog 1 admin_topup_label (upd_tokens (set_balance 2000) - tokens u) 7]
        else usage_logs (db (sample_server 1000)))).
Proof.
  apply (charge_and_adjust_all_or_nothing alice root "engine" (Some 150) 1
           (set_balance 2000) 7 [false; false; false; true] (sample_server 1000)).
  reflexivity.
Defined.

(** The branch on the mock arrays is not atomic in this sense: a charge
    for a user the array does not hold writes the row and debits nobody.
    It is the reason for the premise [useMockDb s = false], which holds in
    every state a started server reaches. *)
Example mock_charge_logs_without_debit :
  post_usage carol "engine" (Some 150) 7 [] mock_server =
    (json 200 success,
     set_mockUsageLogs [mkUsageLog 3 "engine" 150 7] mock_server).
Proof. reflexivity. Qed.

(** A fault after the row was inserted and before the debit: nothing stays. *)
Example charge_rolled_back :
  post_usage alice "engine" (Some 150) 7 [false; false; false; true] (sample_server 1000) =
    (json 500 (err_message ""), sample_server 1000).
Proof. reflexivity. Qed.

(** * Conservation of the ledger *)




Lemma step_keeps_mock_flag op s : useMockDb (step op s) = useMockDb s.
Proof.
  destruct op as [user feature tc now fl | admin uid b now fl]; cbn [step].
  - destruct (useMockDb s) eqn:Hm.
    + unfold post_usage. rewrite Hm.
      destruct (find_mock_user _ _); cbn; exact Hm.
    + destruct (post_usage_cases user feature tc now fl s Hm) as [-> | (u & _ & ->)];
        cbn; exact Hm.
  - destruct (put_admin_user_cases admin uid b now fl s) as [[_ ->] | (u & _ & ->)];
      reflexivity.
Qed.

Section Conservation.

(** The account whose ledger is followed. *)
Variable uid : Z.





End Conservation.



(** The stored number of a charge row is a count, not a delta: under the
    unsigned reading a single charge already breaks the equation. *)
Example stored_counts_do_not_conserve :
  ~ conserved stored_delta 1000 1
      (run [Charge alice "engine" (Some 150) 7 []] (sample_server 1000)).
Proof. intros H; vm_compute in H; discriminate. Qed.

(** * Access to chat sessions *)

(** Listing the messages of a session checks the owner: whoever does not
    own the session (or names a session that does not exist) gets no
    message, under every fault script, and the store is left as it was. *)
Lemma get_chat_messages_checks_owner (user : ReqUser) (sid : string)
    (fl : Faults) (s : Server) (c : ChatSessionRow) :
  useMockDb s = false ->
  chat_sessions (db s) !! sid = Some c ->
  cs_user_id c <> id user ->
  (get_chat_messages user sid fl s = (json 403 (message "Access denied"), s) \/
   get_chat_messages user sid fl s = (json 500 (err_message ""), s)).
Proof.
  intros Hmock Hc Hne. unfold get_chat_messages, pool_query. rewrite Hmock.
  rewrite call_hd. destruct (hd false fl); cbn.
  - right. now rewrite set_db_same.
  - rewrite Hc. destruct (Z.eqb_spec (cs_user_id c) (id user)); [contradiction|].
    left. now rewrite set_db_same.
Qed.

(** Appending a message never looks at the requester: the handler answers
    the same, and leaves the same store, for any two users. *)
Lemma post_chat_messages_ignores_requester (u1 u2 : ReqUser) (sid mrole mcontent : string)
    (at_ now : Z) (fl : Faults) (s : Server) :
  post_chat_messages u1 sid mrole mcontent at_ now fl s =
  post_chat_messages u2 sid mrole mcontent at_ now fl s.
Proof. reflexivity. Qed.

(** C7 at the failing input.  bob, who does not own alice's session "s1",
    posts a message to it: the route answers 200, the message is stored in
    the session and the session's [updated_at] moves; alice then reads it.
    bob's own attempt to list the session is refused. *)
Theorem foreign_append_is_accepted :
  cs_user_id <$> chat_sessions (db chat_server) !! "s1" = Some (id alice) /\
  id bob <> id alice /\
  api_chat_messages_get (Some (Verified bob)) "s1" [] chat_server =
    (json 403 (message "Access denied"), chat_server) /\
  fst (api_chat_messages_post (Some (Verified bob)) "s1" "user" "intruder" 50 50 [] chat_server)
    = json 200 success /\
  session_messages "s1"
    (snd (api_chat_messages_post (Some (Verified bob)) "s1" "user" "intruder" 50 50 [] chat_server))
    = [mkChatMessageRow "s1" "user" "hello" 10; mkChatMessageRow "s1" "user" "intruder" 50] /\
  updated_at <$>
    chat_sessions
      (db (snd (api_chat_messages_post (Some (Verified bob)) "s1" "user" "intruder" 50 50 []
                  chat_server))) !! "s1" = Some 50 /\
  fst (api_chat_messages_get (Some (Verified alice)) "s1" []
         (snd (api_chat_messages_post (Some (Verified bob)) "s1" "user" "intruder" 50 50 []
                 chat_server)))
    = json 200 (message_list [mkMessageView "user" "hello" 10;
                              mkMessageView "user" "intruder" 50]).
Proof.
  split; [reflexivity|]. split; [discriminate|].
  repeat split; vm_compute; reflexivity.
Qed.

(** * Signed URLs *)

Lemma upload_to_r2_state key data put_fails sign_fails s :
  snd (upload_to_r2 key data put_fails sign_fails s) =
  snd (upload_to_r2 key data put_fails false s).
Proof.
  unfold upload_to_r2. destruct (R2_BUCKET_NAME s); [|reflexivity].
  destruct put_fails, sign_fails; reflexivity.
Qed.

(** Whether the URL of a new image gets signed or not, the server ends in
    the same state: signing writes nothing.  (With the mock arrays in use
    the URL itself would be stored in [mockImages].) *)
Lemma post_images_signing_writes_nothing user img put_fails sign_fails fl s :
  useMockDb s = false ->
  snd (post_images user img put_fails sign_fails fl s) =
  snd (post_images user img put_fails false fl s).
Proof.
  intros Hmock. unfold post_images. rewrite Hmock.
  pose proof (upload_to_r2_state (object_key (id user) (up_id img)) (up_data img)
                put_fails sign_fails s) as Hst.
  destruct (upload_to_r2 _ _ put_fails sign_fails s) as [url s1].
  destruct (upload_to_r2 _ _ put_fails false s) as [url' s1']. cbn in Hst. subst s1'.
  destruct (R2_BUCKET_NAME s); [|reflexivity].
  destruct (pool_query (insert_image _) fl (db s1)) as [[[?|] ?] ?]; reflexivity.
Qed.

Lemma get_images_state user period page now sign_fails fl s :
  snd (get_images user period page now sign_fails fl s) = s.
Proof.
  unfold get_images, pool_query. destruct (useMockDb s); [reflexivity|].
  rewrite call_hd. destruct (hd false fl); cbn; [apply set_db_same|].
  unfold select_images.
  destruct (is_week period); [cbn; apply set_db_same|].
  destruct (_ <? 0); cbn; apply set_db_same.
Qed.

Lemma history_url_lifetime bucket sign_fails key t :
  lifetime (history_url bucket sign_fails key) = Some t -> t = 3600.
Proof.
  unfold history_url, getSignedUrl. destruct bucket as [b|]; [|discriminate].
  destruct (negb (key =? "")%string && negb (String.prefix "http" key)); [|discriminate].
  destruct (sign_fails key); [discriminate|]. cbn. congruence.
Qed.

Lemma upload_to_r2_lifetime key data put_fails sign_fails s t :
  lifetime (fst (upload_to_r2 key data put_fails sign_fails s)) = Some t -> t = 604800.
Proof.
  unfold upload_to_r2, getSignedUrl. destruct (R2_BUCKET_NAME s); [|discriminate].
  destruct put_fails; [discriminate|]. destruct sign_fails; [discriminate|].
  cbn. congruence.
Qed.

Lemma post_images_lifetime user img put_fails sign_fails fl s u t :
  In u (listed_urls (fst (post_images user img put_fails sign_fails fl s))) ->
  lifetime u = Some t -> t = 604800.
Proof.
  unfold post_images.
  pose proof (upload_to_r2_lifetime (object_key (id user) (up_id img)) (up_data img)
                put_fails sign_fails s t) as Hl.
  destruct (upload_to_r2 _ _ put_fails sign_fails s) as [url s1]. cbn in Hl.
  assert (Hok : In u [url] -> lifetime u = Some t -> t = 604800).
  { intros [<-|[]]. exact Hl. }
  destruct (R2_BUCKET_NAME s), (useMockDb s); cbn; try exact Hok; try contradiction;
    destruct (pool_query (insert_image _) fl (db s1)) as [[[?|] ?] ?]; cbn;
    try exact Hok; contradiction.
Qed.

Lemma get_images_lifetime user period page now sign_fails fl s u t :
  useMockDb s = false ->
  In u (listed_urls (fst (get_images user period page now sign_fails fl s))) ->
  lifetime u = Some t -> t = 3600.
Proof.
  intros Hmock. unfold get_images. rewrite Hmock.
  destruct (pool_query _ fl (db s)) as [[[rows|] ?] ?]; cbn; [|contradiction].
  rewrite map_map. cbn. intros Hin Hl.
  apply in_map_iff in Hin as (r & <- & _).
  now apply history_url_lifetime in Hl.
Qed.

(** C8, as the handlers behave.  Deriving a signed URL writes nothing:
    saving an image leaves the same server state whether or not its URL
    gets signed, and listing the history leaves the state as it was.  The
    lifetimes are fixed by the route: every signed URL returned for a newly
    saved image lives 604800 seconds (7 days), and every signed URL of a
    history listing lives 3600 seconds (1 hour). *)
Theorem signed_urls_write_nothing_and_have_route_lifetimes
    (user : ReqUser) (img : ImageUpload) (put_fails sign_fails : bool)
    (period : option string) (page now : Z) (key_fails : string -> bool)
    (fl : Faults) (s : Server) :
  useMockDb s = false ->
  snd (post_images user img put_fails sign_fails fl s) =
    snd (post_images user img put_fails false fl s) /\
  snd (get_images user period page now key_fails fl s) = s /\
  (forall u t,
     In u (listed_urls (fst (post_images user img put_fails sign_fails fl s))) ->
     lifetime u = Some t -> t = 7 * 24 * 60 * 60) /\
  (forall u t,
     In u (listed_urls (fst (get_images user period page now key_fails fl s))) ->
     lifetime u = Some t -> t = 60 * 60).
Proof.
  intros Hmock. split; [now apply post_images_signing_writes_nothing|].
  split; [apply get_images_state|]. split.
  - intros u t Hin Hl. now apply (post_images_lifetime _ _ _ _ _ _ _ _ Hin) in Hl.
  - intros u t Hin Hl. now apply (get_images_lifetime _ _ _ _ _ _ _ _ _ Hmock Hin) in Hl.
Qed.

(** The state after alice saved one image. *)
Lemma sample_saved_state :
  post_images alice sample_upload false false [] (sample_server 1000) =
    (json 200 (success_url (Signed "bucket" "users/1/1700000000000.png" 604800)),
     snd (post_images alice sample_upload false false [] (sample_server 1000))).
Proof. vm_compute. reflexivity. Qed.

Lemma signed_urls_write_nothing_and_have_route_lifetimes_witness :
  snd (post_images alice second_upload false false [] saved_server) =
    snd (post_images alice second_upload false false [] saved_server) /\
  snd (get_images alice None 1 1700000001000 (fun _ => false) [] saved_server) = saved_server /\
  (forall u t,
     In u (listed_urls (fst (post_images alice second_upload false false [] saved_server))) ->
     lifetime u = Some t -> t = 7 * 24 * 60 * 60) /\
  (forall u t,
     In u (listed_urls
             (fst (get_images alice None 1 1700000001000 (fun _ => false) [] saved_server))) ->
     lifetime u = Some t -> t = 60 * 60).
Proof.
  apply (signed_urls_write_nothing_and_have_route_lifetimes
           alice second_upload false false None 1 1700000001000 (fun _ => false) []
           saved_server).
  reflexivity.
Defined.

(** The two routes on the sample store: the URL of the second image as it
    is saved, and the history read afterwards. *)
Example second_image_url :
  listed_urls (fst (post_images alice second_upload false false [] saved_server)) =
    [Signed "bucket" "users/1/1700000000500.png" 604800].
Proof. vm_compute. reflexivity. Qed.

Example history_urls :
  listed_urls (fst (get_images alice None 1 1700000001000 (fun _ => false) [] saved_server)) =
    [Signed "bucket" "users/1/1700000000000.png" 3600].
Proof. vm_compute. reflexivity. Qed.

(** C8 as the specification words it fails: the URL handed out for a
    newly saved image does not live one hour. *)
Lemma fresh_url_lifetime_counterexample :
  map lifetime
    (listed_urls (fst (post_images alice sample_upload false false [] (sample_server 1000))))
    = [Some 604800] /\
  ~ (forall u,
       In u (listed_urls
               (fst (post_images alice sample_upload false false [] (sample_server 1000)))) ->
       lifetime u = Some 3600).
Proof.
  split; [vm_compute; reflexivity|].
  intros H. specialize (H (Signed "bucket" "users/1/1700000000000.png" 604800)).
  rewrite sample_saved_state in H. cbn in H.
  specialize (H (or_introl eq_refl)). discriminate.
Qed.

(** * Start-up and the mock database *)

Lemma post_chat_messages_keeps_mock_flag user sid mrole mcontent at_ now fl s :
  useMockDb (snd (post_chat_messages user sid mrole mcontent at_ now fl s)) = useMockDb s.
Proof.
  unfold post_chat_messages. destruct (useMockDb s) eqn:Hm; [exact Hm|].
  destruct (bind _ _ fl (db s)) as [[[?|] ?] ?]; exact Hm.
Qed.

Lemma get_chat_messages_keeps_mock_flag user sid fl s :
  useMockDb (snd (get_chat_messages user sid fl s)) = useMockDb s.
Proof.
  unfold get_chat_messages. destruct (useMockDb s) eqn:Hm.
  - destruct (find_mock_session _ _) as [c|]; [|exact Hm].
    destruct (_ =? _); exact Hm.
  - destruct (pool_query (select_session_owner sid) fl (db s)) as [[[[|o ?]|] ?] ?];
      try exact Hm.
    destruct (o =? id user); [|exact Hm].
    destruct (pool_query (select_messages sid) _ _) as [[[?|] ?] ?]; exact Hm.
Qed.

Lemma upload_to_r2_keeps_mock_flag key data put_fails sign_fails s :
  useMockDb (snd (upload_to_r2 key data put_fails sign_fails s)) = useMockDb s.
Proof.
  unfold upload_to_r2. destruct (R2_BUCKET_NAME s); [|reflexivity].
  destruct put_fails; [reflexivity|]. destruct sign_fails; reflexivity.
Qed.

Lemma post_images_keeps_mock_flag user img put_fails sign_fails fl s :
  useMockDb (snd (post_images user img put_fails sign_fails fl s)) = useMockDb s.
Proof.
  unfold post_images.
  pose proof (upload_to_r2_keeps_mock_flag (object_key (id user) (up_id img)) (up_data img)
                put_fails sign_fails s) as Hup.
  destruct (upload_to_r2 _ _ put_fails sign_fails s) as [url s1]. cbn in Hup.
  destruct (useMockDb s) eqn:Hm.
  - destruct (R2_BUCKET_NAME s); exact Hup.
  - destruct (R2_BUCKET_NAME s); [|exact Hm].
    destruct (pool_query (insert_image _) fl (db s1)) as [[[?|] ?] ?]; exact Hup.
Qed.

Lemma handle_keeps_mock_flag r s : useMockDb (snd (handle r s)) = useMockDb s.
Proof.
  destruct r as [a ? ? ? ? | a ? ? ? ? | a ? ? ? ? ? ? | a ? ? | a ? ? ? ? | a ? ? ? ? ?];
    cbn [handle];
    unfold api_usage, api_admin_users_put, api_chat_messages_post, api_chat_messages_get,
      api_images_post, api_images_get, authenticateToken;
    destruct a as [[u|]|]; try reflexivity.
  - apply (step_keeps_mock_flag (Charge u feature tokenCount now fl)).
  - apply (step_keeps_mock_flag (Adjust u uid b now fl)).
  - apply post_chat_messages_keeps_mock_flag.
  - apply get_chat_messages_keeps_mock_flag.
  - apply post_images_keeps_mock_flag.
  - now rewrite get_images_state.
Qed.

Lemma initDb_keeps_mock_flag fl s s' :
  initDb fl s = Running s' -> useMockDb s' = useMockDb s.
Proof.
  unfold initDb. destruct fl as [|[] fl]; try discriminate;
    destruct (initDb_queries _ (db s)) as [[[?|] ?] d]; try discriminate;
    intros [= <-]; reflexivity.
Qed.

(** C9, as the code behaves.  When the connection to the database fails
    at start-up the process exits with code 1.  When start-up succeeds,
    the server runs with [useMockDb = false], and no request handled
    afterwards changes that: the mock arrays are never put to use. *)
Theorem unreachable_store_ends_the_process
    (durable : Db) (objects : gmap string string) (bucket : option string)
    (fl : Faults) :
  (hd false fl = true -> start durable objects bucket fl = Exited 1) /\
  (forall s0 s,
     start durable objects bucket fl = Running s0 -> serves s0 s -> useMockDb s = false).
Proof.
  split.
  - destruct fl as [|[] fl]; cbn; [discriminate | reflexivity | discriminate].
  - intros s0 s Hstart Hserves.
    apply initDb_keeps_mock_flag in Hstart. cbn in Hstart.
    induction Hserves as [|r s Hs IH]; [exact Hstart|].
    now rewrite handle_keeps_mock_flag.
Qed.

Lemma unreachable_store_ends_the_process_witness :
  (hd false [true] = true -> start (sample_db 1000) ∅ (Some "bucket") [true] = Exited 1) /\
  (forall s0 s,
     start (sample_db 1000) ∅ (Some "bucket") [true] = Running s0 ->
     serves s0 s -> useMockDb s = false).
Proof.
  apply (unreachable_store_ends_the_process (sample_db 1000) ∅ (Some "bucket") [true]).
Defined.

(** With the database reachable the sample store starts serving. *)
Example start_serves :
  start (sample_db 1000) ∅ (Some "bucket") [] = Running (sample_server 1000).
Proof. vm_compute. reflexivity. Qed.

(** C9 as the specification words it fails: with the database
    unreachable there is no running server on the mock arrays; the
    process has exited. *)
Lemma mock_fallback_counterexample :
  start (sample_db 1000) ∅ (Some "bucket") [true] = Exited 1 /\
  ~ (exists s, start (sample_db 1000) ∅ (Some "bucket") [true] = Running s /\
               useMockDb s = true).
Proof.
  split; [reflexivity|]. intros (s & Hs & _). discriminate.
Qed.

(** * The pipeline of [handleGenerate] *)

(** C5.  Once the guards of [handleGenerate] are passed (not loading, a
    logged-in user with a token, a topic), a failing stage ends the
    action.  If the research stage fails, the only request sent is the
    research request.  If research succeeds and image generation fails,
    the only requests sent are those two.  In both cases no save and no
    usage request is sent, and the server state, and with it every balance
    and the usage log, is exactly as before: the cost reported by the
    research stage is not charged. *)
Theorem pipeline_short_circuit
    (w : World) (a : App) (s : Server) (user : User) (tok : Token) :
  isLoading a = false ->
  currentUser a = Some user ->
  blank (topic a) = false ->
  token user = Some tok ->
  (forall msg, researchTopicForPrompt w tok = inl msg ->
     exists a', handleGenerate w a s = ([SentResearch], a', s)) /\
  (forall r msg,
     researchTopicForPrompt w tok = inr r ->
     generateInfographicImage w tok = inl msg ->
     exists a',
       handleGenerate w a s =
         ([SentResearch; SentGenerateImage (imagePrompt r)], a', s)).
Proof.
  intros Hload Huser Htopic Htok. split.
  - intros msg Hres. unfold handleGenerate.
    rewrite Hload, Huser, Htopic, Htok, Hres. eexists. reflexivity.
  - intros r msg Hres Hgen. unfold handleGenerate.
    rewrite Hload, Huser, Htopic, Htok, Hres, Hgen. eexists. reflexivity.
Qed.

Lemma pipeline_short_circuit_witness :
  (forall msg, researchTopicForPrompt generation_down (Verified alice) = inl msg ->
     exists a', handleGenerate generation_down sample_app (sample_server 1000) =
                  ([SentResearch], a', sample_server 1000)) /\
  (forall r msg,
     researchTopicForPrompt generation_down (Verified alice) = inr r ->
     generateInfographicImage generation_down (Verified alice) = inl msg ->
     exists a',
       handleGenerate generation_down sample_app (sample_server 1000) =
         ([SentResearch; SentGenerateImage (imagePrompt r)], a', sample_server 1000)).
Proof.
  apply (pipeline_short_circuit generation_down sample_app (sample_server 1000)
           (mkUser (Some (Verified alice)) (Some 1000)) (Verified alice));
    reflexivity.
Defined.

(** Scenario B: research reports 40 tokens, generation fails; nothing is
    charged and nothing is saved. *)
Example generation_failure_charges_nothing :
  let '(sent, a', s') := handleGenerate generation_down sample_app (sample_server 1000) in
  sent = [SentResearch; SentGenerateImage "A cross-section of a volcano"] /\
  s' = sample_server 1000 /\
  balance 1 s' = Some 1000 /\
  usage_logs (db s') = [].
Proof. vm_compute. repeat split. Qed.

(** A failed research stage: the generation request is never sent. *)
Example research_failure_stops_the_pipeline :
  let '(sent, a', s') := handleGenerate research_down sample_app (sample_server 1000) in
  sent = [SentResearch] /\
  s' = sample_server 1000 /\
  error a' = Some "圖像生成服務暫時無法使用，請稍後再試。".
Proof. vm_compute. repeat split. Qed.

(** A topic of white space only does not get past the guard, whatever
    the white space: an ideographic space (U+3000, the bytes E3 80 80), a
    no-break space (U+00A0, the bytes C2 A0) and a tab are trimmed like
    blanks, and nothing is sent. *)
Example blank_topic_sends_nothing :
  let spaces :=
    String "227" (String "128" (String "128"
      (String "194" (String "160" (String "009" " "))))) in
  let a := mkApp (Some (mkUser (Some (Verified alice)) (Some 1000))) (Some (Verified alice))
             spaces "High School" "Default" "Traditional Chinese"
             false [] None false true in
  blank (topic a) = true /\
  handleGenerate sample_world a (sample_server 1000) =
    ([], set_error (Some "請輸入要視覺化的主題。") a, sample_server 1000).
Proof. split; reflexivity. Qed.

(** A letter between white space is a topic, and so is a character that
    [trim] does not strip (a zero-width space, U+200B, the bytes
    E2 80 8B). *)
Example padded_topic_is_not_blank :
  blank (String "227" (String "128" (String "128" "volcano "))) = false /\
  blank (String "226" (String "128" (String "139" ""))) = false /\
  blank "" = true.
Proof. repeat split. Qed.

(** * The save before the charge *)

Lemma upload_to_r2_db key data put_fails sign_fails s :
  db (snd (upload_to_r2 key data put_fails sign_fails s)) = db s.
Proof.
  unfold upload_to_r2. destruct (R2_BUCKET_NAME s); [|reflexivity].
  destruct put_fails; [reflexivity|]. destruct sign_fails; reflexivity.
Qed.

(** The save route touches neither balances nor the usage log, and when
    it answers 2xx on the database path the image's row is in [images]. *)
Lemma api_images_post_saves authorization img put_fails sign_fails fl s :
  useMockDb s = false ->
  let (res, s') := api_images_post authorization img put_fails sign_fails fl s in
  usage_logs (db s') = usage_logs (db s) /\
  users (db s') = users (db s) /\
  useMockDb s' = false /\
  (ok res = true ->
     exists row, images (db s') = images (db s) ++ [row] /\ img_id row = up_id img).
Proof.
  intros Hmock. unfold api_images_post, authenticateToken.
  destruct authorization as [[user|]|];
    [| repeat split; [exact Hmock | discriminate]
     | repeat split; [exact Hmock | discriminate]].
  unfold post_images. rewrite Hmock.
  pose proof (upload_to_r2_db (object_key (id user) (up_id img)) (up_data img)
                put_fails sign_fails s) as Hdb.
  pose proof (upload_to_r2_keeps_mock_flag (object_key (id user) (up_id img)) (up_data img)
                put_fails sign_fails s) as Hflag.
  destruct (upload_to_r2 _ _ put_fails sign_fails s) as [url s1]. cbn in Hdb, Hflag.
  rewrite Hmock in Hflag.
  destruct (R2_BUCKET_NAME s); [| repeat split; [exact Hmock | discriminate]].
  unfold pool_query. rewrite call_hd, Hdb.
  destruct (hd false fl); cbn; [repeat split; [exact Hflag | discriminate]|].
  unfold insert_image. cbn.
  destruct (existsb _ (images (db s))); cbn; [repeat split; [exact Hflag | discriminate]|].
  destruct (users (db s) !! id user); cbn; [| repeat split; [exact Hflag | discriminate]].
  repeat split; [exact Hflag|]. intros _. eexists. split; reflexivity.
Qed.

(** The usage route leaves the images alone. *)
Lemma api_usage_keeps_images authorization feature tokenCount now fl s :
  images (db (snd (api_usage authorization feature tokenCount now fl s))) = images (db s).
Proof.
  unfold api_usage, authenticateToken. destruct authorization as [[user|]|]; try reflexivity.
  destruct (useMockDb s) eqn:Hm.
  - unfold post_usage. rewrite Hm. destruct (find_mock_user _ _); reflexivity.
  - destruct (post_usage_cases user feature tokenCount now fl s Hm) as [-> | (u & _ & ->)];
      reflexivity.
Qed.

(** The block shared by [handleGenerate] and [handleEdit]: the save, and
    the charge only when the save did not throw. *)
Lemma save_then_charge (w : World) (a : App) (g : GeneratedImage) (n : Z) (s : Server) :
  useMockDb s = false ->
  match saveUserImage w a g s with
  | (false, s1) =>
      usage_logs (db s1) = usage_logs (db s) /\ users (db s1) = users (db s)
  | (true, s1) =>
      exists row,
        images (db (snd (logUsage w a engine_label n s1))) = images (db s) ++ [row] /\
        img_id row = gi_id g
  end.
Proof.
  intros Hmock. unfold saveUserImage.
  pose proof (api_images_post_saves (vision_token a) (upload_of g) (put_fails w)
                (sign_fails w) (images_faults w) s Hmock) as Hsave.
  destruct (api_images_post _ _ _ _ _ s) as [res s1].
  destruct Hsave as (Hlogs & Husers & _ & Hrow).
  destruct (ok res); [| split; assumption].
  destruct (Hrow eq_refl) as (row & Hin & Hid). exists row. split; [|exact Hid].
  rewrite <- Hin.
  unfold logUsage.
  pose proof (api_usage_keeps_images (vision_token a) engine_label (Some n) (clock w)
                (usage_faults w) s1) as Himg.
  destruct (api_usage _ _ _ _ _ s1) as [res2 s2]. exact Himg.
Qed.

(** An action that stopped before the save changed nothing. *)
Ltac nothing_sent := split; [discriminate | split; reflexivity].

(** C6, as the code behaves.  In both image actions of the application
    ([handleGenerate] and [handleEdit]) the usage request is sent only
    after the save request was answered 2xx, that is with the row of the
    new image inserted in [images]; when the save request fails no usage
    request is sent and balances and usage log stay as they were.  Whether
    the binary reached the R2 bucket is not part of this: the save route
    answers 2xx also when the upload failed. *)
Theorem charge_only_after_image_row
    (w : World) (editPrompt : string) (a : App) (s : Server) :
  useMockDb s = false ->
  row_before_charge (pretty (clock w)) s (handleGenerate w a s) /\
  row_before_charge (pretty (clock w)) s (handleEdit w editPrompt a s).
Proof.
  intros Hmock. split.
  - unfold handleGenerate.
    destruct (isLoading a); [nothing_sent|].
    destruct (currentUser a) as [user|]; [| nothing_sent].
    destruct (blank (topic a)); [nothing_sent|].
    destruct (token user) as [tok|]; [| nothing_sent].
    destruct (researchTopicForPrompt w tok) as [msg|r];
      [nothing_sent|].
    destruct (generateInfographicImage w tok) as [msg|g];
      [nothing_sent|].
    match goal with
    | |- context [saveUserImage w a ?img s] =>
        match goal with
        | |- context [logUsage w a engine_label ?n _] =>
            pose proof (save_then_charge w a img n s Hmock) as Hblock
        end
    end.
    destruct (saveUserImage w a _ s) as [[] s1].
    + destruct (logUsage w a engine_label _ s1) as [[t|] s2]; cbn in Hblock |- *;
        (split; [intros _; exact Hblock | discriminate]).
    + split; [discriminate | intros _; exact Hblock].
  - unfold handleEdit.
    destruct (imageHistory a) as [|currentImage h]; [nothing_sent|].
    destruct (currentUser a) as [user|]; [| nothing_sent].
    destruct (token user) as [tok|]; [| nothing_sent].
    destruct (editInfographicImage w tok) as [msg|e];
      [nothing_sent|].
    match goal with
    | |- context [saveUserImage w a ?img s] =>
        pose proof (save_then_charge w a img (ai_usage e) s Hmock) as Hblock
    end.
    destruct (saveUserImage w a _ s) as [[] s1].
    + destruct (logUsage w a engine_label _ s1) as [[t|] s2]; cbn in Hblock |- *;
        (split; [intros _; exact Hblock | discriminate]).
    + split; [discriminate | intros _; exact Hblock].
Qed.

Lemma charge_only_after_image_row_witness :
  row_before_charge (pretty (clock later_world)) saved_server
    (handleGenerate later_world editing_app saved_server) /\
  row_before_charge (pretty (clock later_world)) saved_server
    (handleEdit later_world "add labels" editing_app saved_server).
Proof.
  apply (charge_only_after_image_row later_world "add labels" editing_app saved_server).
  reflexivity.
Defined.

(** The edit on the sample store: saved under a new id, then charged 25. *)
Example edit_saves_then_charges :
  let '(sent, a', s') := handleEdit later_world "add labels" editing_app saved_server in
  sent = [SentEditImage "add labels"; SentSaveImage "1700000000500";
          SentLogUsage engine_label 25] /\
  map img_id (images (db s')) = ["1700000000000"; "1700000000500"] /\
  usage_logs (db s') = [mkUsageLog 1 engine_label 25 1700000000500] /\
  balance 1 s' = Some 975.
Proof. vm_compute. repeat split. Qed.

(** The whole action on the sample world: saved, then charged 40 + 50. *)
Example generate_saves_then_charges :
  let '(sent, a', s') := handleGenerate sample_world sample_app (sample_server 1000) in
  sent = [SentResearch; SentGenerateImage "A cross-section of a volcano";
          SentSaveImage "1700000000000"; SentLogUsage engine_label 90] /\
  map img_id (images (db s')) = ["1700000000000"] /\
  r2 s' !! "users/1/1700000000000.png" = Some "data:image/png;base64,iVBORw0KGgo=" /\
  usage_logs (db s') = [mkUsageLog 1 engine_label 90 1700000000000] /\
  balance 1 s' = Some 910.
Proof. vm_compute. repeat split. Qed.

(** A save that fails in the database stops the action before the charge. *)
Example failed_save_charges_nothing :
  let w := mkWorld (inr sample_research)
             (inr (mkAIResponse "data:image/png;base64,iVBORw0KGgo=" 50))
             (inr (mkAIResponse "data:image/png;base64,iVBORw0KGgp=" 25))
             false false [true] [] 1700000000000 in
  let '(sent, a', s') := handleGenerate w sample_app (sample_server 1000) in
  sent = [SentResearch; SentGenerateImage "A cross-section of a volcano";
          SentSaveImage "1700000000000"] /\
  usage_logs (db s') = [] /\
  balance 1 s' = Some 1000.
Proof. vm_compute. repeat split. Qed.

(** C6 as the specification words it fails.  The pipeline succeeds and the
    upload to R2 fails: the save route still answers 2xx, the usage
    request follows, 90 tokens are charged, and the bucket holds no object
    under the key that the image's row names. *)
Lemma charge_without_stored_object_counterexample :
  let '(sent, a', s') := handleGenerate r2_down sample_app (sample_server 1000) in
  charge_sent sent = true /\
  usage_logs (db s') = [mkUsageLog 1 engine_label 90 1700000000000] /\
  balance 1 s' = Some 910 /\
  map r2_key (images (db s')) = ["users/1/1700000000000.png"] /\
  r2 s' !! "users/1/1700000000000.png" = None /\
  r2 s' = ∅.
Proof. vm_compute. repeat split. Qed.

(** * Sorting *)

Lemma insert_sorted_perm {A} (le : A -> A -> bool) (x : A) (l : list A) :
  Permutation (insert_sorted le x l) (x :: l).
Proof.
  induction l as [|y l IH]; cbn; [reflexivity|].
  destruct (le x y); [reflexivity|].
  rewrite IH. apply perm_swap.
Qed.

Lemma sort_by_perm {A} (le : A -> A -> bool) (l : list A) :
  Permutation (sort_by le l) l.
Proof.
  induction l as [|x l IH]; cbn; [reflexivity|].
  unfold sort_by in *. cbn. rewrite insert_sorted_perm. now constructor.
Qed.

Lemma sort_by_In {A} (le : A -> A -> bool) (l : list A) (x : A) :
  In x (sort_by le l) <-> In x l.
Proof.
  split; apply Permutation_in; [apply sort_by_perm | symmetry; apply sort_by_perm].
Qed.

Section SortedBy.
Context {A : Type} (le : A -> A -> bool).
Hypothesis le_total : forall a b, le a b = false -> le b a = true.
Hypothesis le_trans : forall a b c, le a b = true -> le b c = true -> le a c = true.

Lemma insert_sorted_sorted (x : A) (l : list A) :
  StronglySorted (fun a b => le a b = true) l ->
  StronglySorted (fun a b => le a b = true) (insert_sorted le x l).
Proof.
  induction 1 as [|y l Hs IH Hall]; cbn.
  - constructor; constructor.
  - destruct (le x y) eqn:Hxy.
    + constructor; [constructor; assumption|].
      constructor; [exact Hxy|].
      eapply Forall_impl; [exact Hall|]. intros z Hz. cbn in Hz. eauto.
    + constructor; [exact IH|].
      apply List.Forall_forall. intros z Hz.
      apply (Permutation_in _ (insert_sorted_perm le x l)) in Hz.
      destruct Hz as [<-|Hz]; [now apply le_total|].
      rewrite List.Forall_forall in Hall. now apply Hall.
Qed.

Lemma sort_by_sorted (l : list A) :
  StronglySorted (fun a b => le a b = true) (sort_by le l).
Proof.
  induction l as [|x l IH]; [constructor|].
  apply insert_sorted_sorted. exact IH.
Qed.
End SortedBy.

Lemma StronglySorted_map {A B} (R : A -> A -> Prop) (R' : B -> B -> Prop)
    (f : A -> B) (l : list A) :
  (forall a b, R a b -> R' (f a) (f b)) ->
  StronglySorted R l -> StronglySorted R' (map f l).
Proof.
  intros Hf. induction 1 as [|x l Hs IH Hall]; cbn; constructor; [exact IH|].
  apply List.Forall_forall. intros y Hy. apply in_map_iff in Hy as (a & <- & Ha).
  rewrite List.Forall_forall in Hall. auto.
Qed.

Lemma In_take {A} (n : nat) (l : list A) (x : A) : In x (take n l) -> In x l.
Proof.
  revert n. induction l as [|y l IH]; intros [|n]; cbn; try contradiction.
  intros [->|H]; [now left | right; eauto].
Qed.

Lemma In_drop {A} (n : nat) (l : list A) (x : A) : In x (drop n l) -> In x l.
Proof.
  revert n. induction l as [|y l IH]; intros [|n]; cbn; try contradiction; auto.
  intros H. right. eauto.
Qed.

Lemma StronglySorted_take {A} (R : A -> A -> Prop) (n : nat) (l : list A) :
  StronglySorted R l -> StronglySorted R (take n l).
Proof.
  intros H. revert n. induction H as [|x l Hs IH Hall]; intros [|n]; cbn; try constructor.
  - apply IH.
  - apply List.Forall_forall. intros y Hy. rewrite List.Forall_forall in Hall.
    apply Hall. eapply In_take. exact Hy.
Qed.

Lemma StronglySorted_drop {A} (R : A -> A -> Prop) (n : nat) (l : list A) :
  StronglySorted R l -> StronglySorted R (drop n l).
Proof.
  intros H. revert n. induction H as [|x l Hs IH Hall]; intros [|n]; cbn;
    try constructor; auto.
Qed.

Lemma pool_query_ok {A} (q : Stmt A) (fl : Faults) (d : Db) :
  no_fault fl = true ->
  pool_query q fl d = (fst (q d), tl fl, snd (q d)).
Proof.
  intros Hfl. unfold pool_query. rewrite call_hd, (no_fault_hd _ Hfl).
  destruct (q d); reflexivity.
Qed.

(** * Chat sessions *)

Lemma set_chat_sessions_same d : set_chat_sessions (chat_sessions d) d = d.
Proof. destruct d; reflexivity. Qed.

Lemma leb_desc_total {A} (key : A -> Z) (a b : A) :
  (key b <=? key a) = false -> (key a <=? key b) = true.
Proof. intros H. apply Z.leb_gt in H. apply Z.leb_le. lia. Qed.

Lemma leb_desc_trans {A} (key : A -> Z) (a b c : A) :
  (key b <=? key a) = true -> (key c <=? key b) = true -> (key c <=? key a) = true.
Proof. rewrite !Z.leb_le. lia. Qed.

Lemma leb_asc_total {A} (key : A -> Z) (a b : A) :
  (key a <=? key b) = false -> (key b <=? key a) = true.
Proof. intros H. apply Z.leb_gt in H. apply Z.leb_le. lia. Qed.

Lemma leb_asc_trans {A} (key : A -> Z) (a b c : A) :
  (key a <=? key b) = true -> (key b <=? key c) = true -> (key a <=? key c) = true.
Proof. rewrite !Z.leb_le. lia. Qed.

Lemma get_chat_sessions_spec (user : ReqUser) (fl : Faults) (s : Server) :
  useMockDb s = false -> no_fault fl = true ->
  exists l,
    get_chat_sessions user fl s = (rows_json l, s) /\
    (forall v, In v l <->
       exists sid c, chat_sessions (db s) !! sid = Some c /\ cs_user_id c = id user /\
                     v = session_view (sid, c)) /\
    StronglySorted (fun a b => sv_timestamp b <= sv_timestamp a) l.
Proof.
  intros Hmock Hfl. unfold get_chat_sessions. rewrite Hmock.
  rewrite (pool_query_ok _ _ _ Hfl). cbn [fst snd select_sessions].
  eexists. split; [now rewrite set_db_same|]. split.
  - intros v. rewrite in_map_iff. split.
    + intros ([sid c] & <- & Hin). apply sort_by_In in Hin.
      apply filter_In in Hin as [Hin Hown]. cbn in Hown.
      apply list_elem_of_In, elem_of_map_to_list in Hin.
      exists sid, c. repeat split; [exact Hin | now apply Z.eqb_eq].
    + intros (sid & c & Hc & Hown & ->). exists (sid, c). split; [reflexivity|].
      apply sort_by_In. apply filter_In. split.
      * apply list_elem_of_In, elem_of_map_to_list. exact Hc.
      * cbn. now apply Z.eqb_eq.
  - eapply StronglySorted_map; [|apply sort_by_sorted].
    + intros a b H. cbn in *. now apply Z.leb_le.
    + intros a b. apply (leb_desc_total (fun c => updated_at (snd c))).
    + intros a b c. apply (leb_desc_trans (fun c => updated_at (snd c))).
Qed.

(** Listing the sessions: with the database answering, the route returns
    exactly the sessions the requester owns, each with its title and its
    [updated_at], the most recently updated first. *)
Theorem sessions_listing_is_own_and_newest_first
    (user : ReqUser) (fl : Faults) (s : Server) :
  useMockDb s = false ->
  no_fault fl = true ->
  exists l,
    get_chat_sessions user fl s = (rows_json l, s) /\
    (forall v, In v l <->
       exists sid c, chat_sessions (db s) !! sid = Some c /\ cs_user_id c = id user /\
                     v = mkSessionView sid (title c) (updated_at c)) /\
    StronglySorted (fun a b => sv_timestamp b <= sv_timestamp a) l.
Proof. apply get_chat_sessions_spec. Qed.

Lemma sessions_listing_is_own_and_newest_first_witness :
  exists l,
    get_chat_sessions alice [] two_sessions = (rows_json l, two_sessions) /\
    (forall v, In v l <->
       exists sid c, chat_sessions (db two_sessions) !! sid = Some c /\
                     cs_user_id c = id alice /\
                     v = mkSessionView sid (title c) (updated_at c)) /\
    StronglySorted (fun a b => sv_timestamp b <= sv_timestamp a) l.
Proof.
  apply (sessions_listing_is_own_and_newest_first alice [] two_sessions); reflexivity.
Defined.

Example alice_sees_her_session_only :
  fst (get_chat_sessions alice [] two_sessions) =
    rows_json [mkSessionView "s1" "Greetings" 10].
Proof. vm_compute. reflexivity. Qed.

Lemma put_chat_session_foreign user sid t fl s :
  useMockDb s = false ->
  ~ owns (id user) s sid ->
  snd (put_chat_session user sid t fl s) = s.
Proof.
  intros Hmock Hown. unfold put_chat_session, pool_query. rewrite Hmock, call_hd.
  destruct (hd false fl); cbn; [apply set_db_same|].
  rewrite alter_id; [now rewrite set_chat_sessions_same, set_db_same|].
  intros c Hc. destruct (Z.eqb_spec (cs_user_id c) (id user)) as [Heq|]; [|reflexivity].
  exfalso. apply Hown. exists c. split; assumption.
Qed.

Lemma delete_chat_session_foreign user sid fl s :
  useMockDb s = false ->
  ~ owns (id user) s sid ->
  snd (delete_chat_session user sid fl s) = s.
Proof.
  intros Hmock Hown. unfold delete_chat_session, pool_query. rewrite Hmock, call_hd.
  destruct (hd false fl); cbn; [apply set_db_same|].
  unfold delete_session.
  destruct (chat_sessions (db s) !! sid) as [c|] eqn:Hc; cbn; [|apply set_db_same].
  destruct (Z.eqb_spec (cs_user_id c) (id user)) as [Heq|]; cbn; [|apply set_db_same].
  exfalso. apply Hown. exists c. split; assumption.
Qed.

(** Renaming or deleting a session one does not own (or that does not
    exist) changes nothing in the store, under every fault script; when no
    database call fails the route nevertheless answers [success: true]. *)
Theorem foreign_rename_and_delete_change_nothing
    (user : ReqUser) (sid t : string) (fl : Faults) (s : Server) :
  useMockDb s = false ->
  ~ owns (id user) s sid ->
  snd (put_chat_session user sid t fl s) = s /\
  snd (delete_chat_session user sid fl s) = s /\
  (no_fault fl = true ->
     fst (put_chat_session user sid t fl s) = json 200 success /\
     fst (delete_chat_session user sid fl s) = json 200 success).
Proof.
  intros Hmock Hown.
  split; [now apply put_chat_session_foreign|].
  split; [now apply delete_chat_session_foreign|].
  intros Hfl. unfold put_chat_session, delete_chat_session.
  rewrite Hmock, !(pool_query_ok _ _ _ Hfl). cbn.
  unfold delete_session. destruct (chat_sessions (db s) !! sid) as [c|]; cbn; [|split; reflexivity].
  destruct (cs_user_id c =? id user); split; reflexivity.
Qed.

Lemma foreign_rename_and_delete_change_nothing_witness :
  snd (put_chat_session bob "s1" "mine now" [] two_sessions) = two_sessions /\
  snd (delete_chat_session bob "s1" [] two_sessions) = two_sessions /\
  (no_fault [] = true ->
     fst (put_chat_session bob "s1" "mine now" [] two_sessions) = json 200 success /\
     fst (delete_chat_session bob "s1" [] two_sessions) = json 200 success).
Proof.
  apply (foreign_rename_and_delete_change_nothing bob "s1" "mine now" [] two_sessions).
  - reflexivity.
  - intros (c & Hc & Hown). vm_compute in Hc. injection Hc as <-. discriminate.
Defined.

Lemma set_chat_messages_same d : set_chat_messages (chat_messages d) d = d.
Proof. destruct d; reflexivity. Qed.

Lemma filter_other_session (sid sid' : string) (l : list ChatMessageRow) :
  sid' <> sid ->
  List.filter (fun m => String.eqb (session_id m) sid')
    (List.filter (fun m => negb (String.eqb (session_id m) sid)) l) =
  List.filter (fun m => String.eqb (session_id m) sid') l.
Proof.
  intros Hne. induction l as [|m l IH]; cbn; [reflexivity|].
  destruct (String.eqb_spec (session_id m) sid) as [Hm|Hm]; cbn.
  - destruct (String.eqb_spec (session_id m) sid'); [congruence | exact IH].
  - destruct (String.eqb_spec (session_id m) sid'); cbn; now rewrite IH.
Qed.

Lemma filter_same_session (sid : string) (l : list ChatMessageRow) :
  List.filter (fun m => String.eqb (session_id m) sid)
    (List.filter (fun m => negb (String.eqb (session_id m) sid)) l) = [].
Proof.
  induction l as [|m l IH]; cbn; [reflexivity|].
  destruct (String.eqb_spec (session_id m) sid) as [Hm|Hm]; cbn; [exact IH|].
  destruct (String.eqb_spec (session_id m) sid); [contradiction | exact IH].
Qed.

(** Deleting one's own session removes it together with all its messages
    and nothing else: every other session keeps its row and its messages,
    and users, images and the usage log are untouched. *)
Theorem session_delete_takes_its_messages_only
    (user : ReqUser) (sid : string) (fl : Faults) (s : Server) (c : ChatSessionRow) :
  useMockDb s = false ->
  no_fault fl = true ->
  chat_sessions (db s) !! sid = Some c ->
  cs_user_id c = id user ->
  exists s',
    delete_chat_session user sid fl s = (json 200 success, s') /\
    chat_sessions (db s') !! sid = None /\
    session_messages sid s' = [] /\
    (forall sid', sid' <> sid ->
       chat_sessions (db s') !! sid' = chat_sessions (db s) !! sid' /\
       session_messages sid' s' = session_messages sid' s) /\
    users (db s') = users (db s) /\
    images (db s') = images (db s) /\
    usage_logs (db s') = usage_logs (db s).
Proof.
  intros Hmock Hfl Hc Hown. unfold delete_chat_session.
  rewrite Hmock, (pool_query_ok _ _ _ Hfl). unfold delete_session.
  rewrite Hc, Hown, Z.eqb_refl. cbn.
  eexists. split; [reflexivity|]. unfold session_messages. cbn.
  split; [apply lookup_delete_eq|]. split; [apply filter_same_session|].
  split; [|repeat split].
  intros sid' Hne. split; [now apply lookup_delete_ne | now apply filter_other_session].
Qed.

Lemma session_delete_takes_its_messages_only_witness :
  exists s',
    delete_chat_session alice "s1" [] two_sessions = (json 200 success, s') /\
    chat_sessions (db s') !! "s1" = None /\
    session_messages "s1" s' = [] /\
    (forall sid', sid' <> "s1" ->
       chat_sessions (db s') !! sid' = chat_sessions (db two_sessions) !! sid' /\
       session_messages sid' s' = session_messages sid' two_sessions) /\
    users (db s') = users (db two_sessions) /\
    images (db s') = images (db two_sessions) /\
    usage_logs (db s') = usage_logs (db two_sessions).
Proof.
  apply (session_delete_takes_its_messages_only alice "s1" [] two_sessions
           (mkChatSessionRow 1 "Greetings" 10 10)); reflexivity.
Defined.

(** Renaming one's own session changes its title and nothing else: the
    owner, the creation time and [updated_at] of the session stay, and so
    do all other sessions and all messages. *)
Theorem session_rename_changes_the_title_only
    (user : ReqUser) (sid t : string) (fl : Faults) (s : Server) (c : ChatSessionRow) :
  useMockDb s = false ->
  no_fault fl = true ->
  chat_sessions (db s) !! sid = Some c ->
  cs_user_id c = id user ->
  exists s',
    put_chat_session user sid t fl s = (json 200 success, s') /\
    chat_sessions (db s') !! sid =
      Some (mkChatSessionRow (cs_user_id c) t (cs_created_at c) (updated_at c)) /\
    (forall sid', sid' <> sid ->
       chat_sessions (db s') !! sid' = chat_sessions (db s) !! sid') /\
    chat_messages (db s') = chat_messages (db s) /\
    users (db s') = users (db s) /\
    usage_logs (db s') = usage_logs (db s).
Proof.
  intros Hmock Hfl Hc Hown. unfold put_chat_session.
  rewrite Hmock, (pool_query_ok _ _ _ Hfl). cbn.
  eexists. split; [reflexivity|]. cbn.
  split; [now rewrite lookup_alter_eq, Hc; cbn; rewrite Hown, Z.eqb_refl|].
  split; [|repeat split].
  intros sid' Hne. now apply lookup_alter_ne.
Qed.

Lemma session_rename_changes_the_title_only_witness :
  exists s',
    put_chat_session alice "s1" "Volcano chat" [] two_sessions = (json 200 success, s') /\
    chat_sessions (db s') !! "s1" =
      Some (mkChatSessionRow 1 "Volcano chat" 10 10) /\
    (forall sid', sid' <> "s1" ->
       chat_sessions (db s') !! sid' = chat_sessions (db two_sessions) !! sid') /\
    chat_messages (db s') = chat_messages (db two_sessions) /\
    users (db s') = users (db two_sessions) /\
    usage_logs (db s') = usage_logs (db two_sessions).
Proof.
  apply (session_rename_changes_the_title_only alice "s1" "Volcano chat" [] two_sessions
           (mkChatSessionRow 1 "Greetings" 10 10)); reflexivity.
Defined.

(** Creating a session and reading it back: a new id is stored for the
    requester and then appears in the requester's listing with the given
    title and time, and in nobody else's; an id that is already taken is
    refused with 500 and the store stays as it was. *)
Theorem session_create_then_list
    (user : ReqUser) (sid t : string) (at_ : Z) (fl fl' : Faults) (s : Server) (u : UserRow) :
  useMockDb s = false ->
  no_fault fl = true ->
  no_fault fl' = true ->
  users (db s) !! id user = Some u ->
  (chat_sessions (db s) !! sid = None ->
     exists s' l,
       post_chat_sessions user sid t at_ fl s = (json 200 success, s') /\
       get_chat_sessions user fl' s' = (rows_json l, s') /\
       In (mkSessionView sid t at_) l /\
       (forall other l',
          id other <> id user ->
          fst (get_chat_sessions other fl' s') = rows_json l' ->
          forall v, In v l' -> sv_id v <> sid)) /\
  (is_Some (chat_sessions (db s) !! sid) ->
     post_chat_sessions user sid t at_ fl s = (json 500 (err_message ""), s)).
Proof.
  intros Hmock Hfl Hfl' Hu. split.
  - intros Hnew. unfold post_chat_sessions.
    rewrite Hmock, (pool_query_ok _ _ _ Hfl). unfold insert_chat_session.
    rewrite Hnew, Hu. cbn.
    set (s' := set_db _ s).
    assert (Hmock' : useMockDb s' = false) by exact Hmock.
    destruct (get_chat_sessions_spec user fl' s' Hmock' Hfl') as (l & Hget & Hin & _).
    exists s', l. split; [reflexivity|]. split; [exact Hget|]. split.
    + apply Hin. exists sid, (mkChatSessionRow (id user) t at_ at_).
      split; [apply lookup_insert_eq | split; reflexivity].
    + intros other l' Hother Hl' v Hv.
      destruct (get_chat_sessions_spec other fl' s' Hmock' Hfl') as (l2 & Hget2 & Hin2 & _).
      rewrite Hget2 in Hl'. cbn in Hl'. injection Hl' as <-.
      apply Hin2 in Hv as (sid' & c & Hc & Hown & ->). cbn. intros ->.
      subst s'. cbn in Hc. rewrite lookup_insert_eq in Hc. injection Hc as <-.
      cbn in Hown. congruence.
  - intros [c Hc]. unfold post_chat_sessions.
    rewrite Hmock, (pool_query_ok _ _ _ Hfl). unfold insert_chat_session.
    rewrite Hc. cbn. now rewrite set_db_same.
Qed.

Lemma session_create_then_list_witness :
  (chat_sessions (db two_sessions) !! "s3" = None ->
     exists s' l,
       post_chat_sessions alice "s3" "..." 30 [] two_sessions = (json 200 success, s') /\
       get_chat_sessions alice [] s' = (rows_json l, s') /\
       In (mkSessionView "s3" "..." 30) l /\
       (forall other l',
          id other <> id alice ->
          fst (get_chat_sessions other [] s') = rows_json l' ->
          forall v, In v l' -> sv_id v <> "s3")) /\
  (is_Some (chat_sessions (db two_sessions) !! "s3") ->
     post_chat_sessions alice "s3" "..." 30 [] two_sessions =
       (json 500 (err_message ""), two_sessions)).
Proof.
  apply (session_create_then_list alice "s3" "..." 30 [] [] two_sessions
           (user_row "alice" "user" 1000)); reflexivity.
Defined.

(** * Chat messages *)

Lemma get_chat_messages_owner_spec (user : ReqUser) (sid : string) (fl : Faults)
    (s : Server) (c : ChatSessionRow) :
  useMockDb s = false -> no_fault fl = true ->
  chat_sessions (db s) !! sid = Some c -> cs_user_id c = id user ->
  get_chat_messages user sid fl s =
    (json 200
       (message_list
          (map message_view
             (sort_by (fun a b => msg_created_at a <=? msg_created_at b)
                (session_messages sid s)))), s).
Proof.
  intros Hmock Hfl Hc Hown. unfold get_chat_messages. rewrite Hmock.
  rewrite (pool_query_ok _ _ _ Hfl). cbn [fst snd select_session_owner].
  rewrite Hc, Hown, Z.eqb_refl.
  rewrite (pool_query_ok _ _ _ (no_fault_tl _ Hfl)). cbn.
  now rewrite set_db_same.
Qed.

(** Listing a session one owns returns the messages of that session and
    no others, each exactly once, in ascending order of [created_at]; the
    store is not changed. *)
Theorem messages_listing_is_the_session_in_time_order
    (user : ReqUser) (sid : string) (fl : Faults) (s : Server) (c : ChatSessionRow) :
  useMockDb s = false ->
  no_fault fl = true ->
  chat_sessions (db s) !! sid = Some c ->
  cs_user_id c = id user ->
  exists l,
    get_chat_messages user sid fl s = (json 200 (message_list l), s) /\
    Permutation l (map message_view (session_messages sid s)) /\
    StronglySorted (fun a b => mv_timestamp a <= mv_timestamp b) l.
Proof.
  intros Hmock Hfl Hc Hown.
  eexists. split; [now apply (get_chat_messages_owner_spec user sid fl s c)|]. split.
  - apply Permutation_map, sort_by_perm.
  - eapply StronglySorted_map; [|apply sort_by_sorted].
    + intros a b H. cbn in *. now apply Z.leb_le.
    + intros a b. apply (leb_asc_total msg_created_at).
    + intros a b d. apply (leb_asc_trans msg_created_at).
Qed.

Lemma messages_listing_is_the_session_in_time_order_witness :
  exists l,
    get_chat_messages alice "s1" [] two_sessions = (json 200 (message_list l), two_sessions) /\
    Permutation l (map message_view (session_messages "s1" two_sessions)) /\
    StronglySorted (fun a b => mv_timestamp a <= mv_timestamp b) l.
Proof.
  apply (messages_listing_is_the_session_in_time_order alice "s1" [] two_sessions
           (mkChatSessionRow 1 "Greetings" 10 10)); reflexivity.
Defined.

Lemma post_chat_messages_ok (user : ReqUser) (sid mrole mcontent : string) (at_ now : Z)
    (fl : Faults) (s : Server) (c : ChatSessionRow) :
  useMockDb s = false -> no_fault fl = true ->
  chat_sessions (db s) !! sid = Some c ->
  post_chat_messages user sid mrole mcontent at_ now fl s =
    (json 200 success,
     set_db (set_chat_sessions
               (<[sid := mkChatSessionRow (cs_user_id c) (title c) (cs_created_at c) at_]>
                  (chat_sessions (db s)))
               (set_chat_messages
                  (chat_messages (db s) ++ [mkChatMessageRow sid mrole mcontent at_]) (db s)))
            s).
Proof.
  intros Hmock Hfl Hc. unfold post_chat_messages, bind. rewrite Hmock.
  rewrite (pool_query_ok _ _ _ Hfl). unfold insert_chat_message. rewrite Hc. cbn.
  rewrite (pool_query_ok _ _ _ (no_fault_tl _ Hfl)). cbn.
  do 3 f_equal. apply map_eq. intros k.
  destruct (decide (k = sid)) as [->|Hne].
  - now rewrite lookup_alter_eq, lookup_insert_eq, Hc.
  - now rewrite lookup_alter_ne, lookup_insert_ne by congruence.
Qed.

(** Appending and reading back: a message posted to an existing session
    is stored last among the session's messages, the session's
    [updated_at] becomes the message's [created_at] (whatever it was
    before, also when that makes it go back in time), and the owner's next
    listing of the session contains the message. *)
Theorem message_append_then_list
    (poster owner : ReqUser) (sid mrole mcontent : string) (at_ now : Z)
    (fl fl' : Faults) (s : Server) (c : ChatSessionRow) :
  useMockDb s = false ->
  no_fault fl = true ->
  no_fault fl' = true ->
  chat_sessions (db s) !! sid = Some c ->
  cs_user_id c = id owner ->
  exists s' l,
    post_chat_messages poster sid mrole mcontent at_ now fl s = (json 200 success, s') /\
    session_messages sid s' =
      session_messages sid s ++ [mkChatMessageRow sid mrole mcontent at_] /\
    updated_at <$> chat_sessions (db s') !! sid = Some at_ /\
    get_chat_messages owner sid fl' s' = (json 200 (message_list l), s') /\
    In (mkMessageView mrole mcontent at_) l.
Proof.
  intros Hmock Hfl Hfl' Hc Hown.
  rewrite (post_chat_messages_ok poster sid mrole mcontent at_ now fl s c Hmock Hfl Hc).
  set (s' := set_db _ s).
  assert (Hmsgs : session_messages sid s' =
                  session_messages sid s ++ [mkChatMessageRow sid mrole mcontent at_]).
  { unfold session_messages. subst s'. cbn. rewrite List.filter_app. cbn.
    now rewrite String.eqb_refl. }
  assert (Hc' : chat_sessions (db s') !! sid =
                Some (mkChatSessionRow (cs_user_id c) (title c) (cs_created_at c) at_)).
  { subst s'. cbn. apply lookup_insert_eq. }
  eexists s', _. split; [reflexivity|]. split; [exact Hmsgs|].
  split; [now rewrite Hc'|].
  split; [apply (get_chat_messages_owner_spec owner sid fl' s' _ Hmock Hfl' Hc' Hown)|].
  apply in_map_iff. exists (mkChatMessageRow sid mrole mcontent at_). split; [reflexivity|].
  apply sort_by_In. rewrite Hmsgs. apply in_or_app. right. now left.
Qed.

Lemma message_append_then_list_witness :
  exists s' l,
    post_chat_messages alice "s1" "model" "Hello alice" 5 31 [] two_sessions =
      (json 200 success, s') /\
    session_messages "s1" s' =
      session_messages "s1" two_sessions ++ [mkChatMessageRow "s1" "model" "Hello alice" 5] /\
    updated_at <$> chat_sessions (db s') !! "s1" = Some 5 /\
    get_chat_messages alice "s1" [] s' = (json 200 (message_list l), s') /\
    In (mkMessageView "model" "Hello alice" 5) l.
Proof.
  apply (message_append_then_list alice alice "s1" "model" "Hello alice" 5 31 [] []
           two_sessions (mkChatSessionRow 1 "Greetings" 10 10)); reflexivity.
Defined.

(** The two writes of an append are not one transaction: when the insert
    goes through and the update of the session fails, the route answers
    500, the message stays stored and the session keeps its old
    [updated_at]. *)
Theorem message_append_can_be_half_done
    (user : ReqUser) (sid mrole mcontent : string) (at_ now : Z)
    (fl : Faults) (s : Server) (c : ChatSessionRow) :
  useMockDb s = false ->
  chat_sessions (db s) !! sid = Some c ->
  hd false fl = false ->
  hd false (tl fl) = true ->
  exists s',
    post_chat_messages user sid mrole mcontent at_ now fl s =
      (json 500 (err_message ""), s') /\
    chat_messages (db s') =
      chat_messages (db s) ++ [mkChatMessageRow sid mrole mcontent at_] /\
    chat_sessions (db s') = chat_sessions (db s).
Proof.
  intros Hmock Hc H1 H2. unfold post_chat_messages, bind, pool_query. rewrite Hmock.
  rewrite call_hd, H1. unfold insert_chat_message. rewrite Hc. cbn.
  rewrite call_hd, H2. cbn. eexists. split; [reflexivity|]. split; reflexivity.
Qed.

Lemma message_append_can_be_half_done_witness :
  exists s',
    post_chat_messages alice "s1" "user" "again" 40 40 [false; true] two_sessions =
      (json 500 (err_message ""), s') /\
    chat_messages (db s') =
      chat_messages (db two_sessions) ++ [mkChatMessageRow "s1" "user" "again" 40] /\
    chat_sessions (db s') = chat_sessions (db two_sessions).
Proof.
  apply (message_append_can_be_half_done alice "s1" "user" "again" 40 40 [false; true]
           two_sessions (mkChatSessionRow 1 "Greetings" 10 10)); reflexivity.
Defined.

(** A message for a session that does not exist is refused by the foreign
    key: the route answers 500 and stores nothing, under every fault
    script. *)
Theorem message_for_unknown_session_is_refused
    (user : ReqUser) (sid mrole mcontent : string) (at_ now : Z)
    (fl : Faults) (s : Server) :
  useMockDb s = false ->
  chat_sessions (db s) !! sid = None ->
  post_chat_messages user sid mrole mcontent at_ now fl s = (json 500 (err_message ""), s).
Proof.
  intros Hmock Hc. unfold post_chat_messages, bind, pool_query. rewrite Hmock.
  rewrite call_hd. destruct (hd false fl); cbn; [now rewrite set_db_same|].
  unfold insert_chat_message. rewrite Hc. cbn. now rewrite set_db_same.
Qed.

Lemma message_for_unknown_session_is_refused_witness :
  post_chat_messages alice "s9" "user" "lost" 40 40 [] two_sessions =
    (json 500 (err_message ""), two_sessions).
Proof.
  apply (message_for_unknown_session_is_refused alice "s9" "user" "lost" 40 40 []
           two_sessions); reflexivity.
Defined.

(** * Usage listings *)

Lemma sort_desc_sorted {A} (key : A -> Z) (l : list A) :
  StronglySorted (fun a b => key b <= key a)
    (sort_by (fun a b => key b <=? key a) l).
Proof.
  rewrite <- (map_id (sort_by _ l)).
  eapply (StronglySorted_map _ _ (fun r => r)); [|apply sort_by_sorted].
  - intros a b H. cbn in H. now apply Z.leb_le.
  - intros a b. apply (leb_desc_total key).
  - intros a b c. apply (leb_desc_trans key).
Qed.

Lemma select_usage_spec (uid : Z) (period : option string) (page now : Z) (d : Db) :
  snd (select_usage uid period page now d) = d /\
  match fst (select_usage uid period page now d) with
  | Ok rows =>
      (forall r, In r rows -> In r (usage_logs d) /\ user_id r = uid) /\
      StronglySorted (fun a b => created_at b <= created_at a) rows /\
      (is_week period = false -> (length rows <= 50)%nat /\ 1 <= page) /\
      (is_week period = true ->
         forall r, In r rows <->
                   In r (usage_logs d) /\ user_id r = uid /\
                   now - 604800000 <= created_at r)
  | Throw => is_week period = false /\ page < 1
  end.
Proof.
  unfold select_usage. destruct (is_week period) eqn:Hw; cbn.
  - split; [reflexivity|]. split; [|split; [|split; [discriminate|]]].
    + intros r Hr. apply sort_by_In in Hr. apply filter_In in Hr as [Hr _].
      apply filter_In in Hr as [Hr Hu]. split; [exact Hr | now apply Z.eqb_eq].
    + apply (sort_desc_sorted created_at).
    + intros _ r. rewrite sort_by_In, !filter_In, Z.eqb_eq, Z.leb_le.
      change (7 * 24 * 60 * 60 * 1000) with 604800000. tauto.
  - destruct ((page - 1) * 50 <? 0) eqn:Hoff; cbn.
    + split; [reflexivity|]. split; [reflexivity|]. apply Z.ltb_lt in Hoff. lia.
    + apply Z.ltb_ge in Hoff. split; [reflexivity|].
      split; [|split; [|split; [|discriminate]]].
      * intros r Hr. apply In_take, In_drop in Hr. apply sort_by_In in Hr.
        apply filter_In in Hr as [Hr Hu]. split; [exact Hr | now apply Z.eqb_eq].
      * apply StronglySorted_take, StronglySorted_drop.
        apply (sort_desc_sorted created_at).
      * intros _. split; [|lia]. rewrite length_take. lia.
Qed.

Lemma get_usage_me_unfold (user : ReqUser) (period : option string) (page now : Z)
    (fl : Faults) (s : Server) :
  useMockDb s = false -> no_fault fl = true ->
  get_usage_me user period page now fl s =
    (match fst (select_usage (id user) period page now (db s)) with
     | Ok rows => rows_json (map usage_view rows)
     | Throw => answered (json 500 (err_message ""))
     end, s).
Proof.
  intros Hmock Hfl. unfold get_usage_me. rewrite Hmock, (pool_query_ok _ _ _ Hfl).
  destruct (select_usage_spec (id user) period page now (db s)) as [-> _].
  destruct (fst _); now rewrite set_db_same.
Qed.

Lemma get_usage_me_spec
    (user : ReqUser) (period : option string) (page now : Z) (fl : Faults) (s : Server) :
  useMockDb s = false ->
  no_fault fl = true ->
  snd (get_usage_me user period page now fl s) = s /\
  match fst (get_usage_me user period page now fl s) with
  | rows_json l =>
      (forall v, In v l ->
         exists r, In r (usage_logs (db s)) /\ user_id r = id user /\ v = usage_view r) /\
      StronglySorted (fun a b => uv_timestamp b <= uv_timestamp a) l /\
      (is_week period = false -> (length l <= 50)%nat /\ 1 <= page) /\
      (is_week period = true ->
         forall r, In r (usage_logs (db s)) -> user_id r = id user ->
                   now - 604800000 <= created_at r -> In (usage_view r) l)
  | answered r => r = json 500 (err_message "") /\ is_week period = false /\ page < 1
  end.
Proof.
  intros Hmock Hfl. rewrite (get_usage_me_unfold _ _ _ _ _ _ Hmock Hfl). cbn [fst snd].
  split; [reflexivity|].
  destruct (select_usage_spec (id user) period page now (db s)) as [_ Hspec].
  destruct (fst (select_usage _ _ _ _ _)) as [rows|].
  - destruct Hspec as (Hown & Hsorted & Hpage & Hweek).
    split; [|split; [|split]].
    + intros v Hv. apply in_map_iff in Hv as (r & <- & Hr).
      destruct (Hown r Hr). exists r. auto.
    + eapply StronglySorted_map; [|exact Hsorted]. intros a b H. exact H.
    + intros Hw. rewrite length_map. auto.
    + intros Hw r Hr Hu Hrecent. apply in_map. apply (Hweek Hw). auto.
  - destruct Hspec. auto.
Qed.

(** The usage history of an account: with the database answering, the
    route never changes the store and returns only rows of the requester,
    newest first.  Without [period=week] it returns at most 50 rows, and a
    page below 1 is answered 500; with [period=week] it returns exactly
    the requester's rows of the last 7 days. *)
Theorem usage_history_is_own_newest_first
    (user : ReqUser) (period : option string) (page now : Z) (fl : Faults) (s : Server) :
  useMockDb s = false ->
  no_fault fl = true ->
  snd (get_usage_me user period page now fl s) = s /\
  match fst (get_usage_me user period page now fl s) with
  | rows_json l =>
      (forall v, In v l ->
         exists r, In r (usage_logs (db s)) /\ user_id r = id user /\ v = usage_view r) /\
      StronglySorted (fun a b => uv_timestamp b <= uv_timestamp a) l /\
      (is_week period = false -> (length l <= 50)%nat /\ 1 <= page) /\
      (is_week period = true ->
         forall r, In r (usage_logs (db s)) -> user_id r = id user ->
                   now - 604800000 <= created_at r -> In (usage_view r) l)
  | answered r => r = json 500 (err_message "") /\ is_week period = false /\ page < 1
  end.
Proof. apply get_usage_me_spec. Qed.

Lemma usage_history_is_own_newest_first_witness :
  snd (get_usage_me alice None 1 100 [] busy_server) = busy_server /\
  match fst (get_usage_me alice None 1 100 [] busy_server) with
  | rows_json l =>
      (forall v, In v l ->
         exists r, In r (usage_logs (db busy_server)) /\ user_id r = id alice /\
                   v = usage_view r) /\
      StronglySorted (fun a b => uv_timestamp b <= uv_timestamp a) l /\
      (is_week None = false -> (length l <= 50)%nat /\ 1 <= 1) /\
      (is_week None = true ->
         forall r, In r (usage_logs (db busy_server)) -> user_id r = id alice ->
                   100 - 604800000 <= created_at r -> In (usage_view r) l)
  | answered r => r = json 500 (err_message "") /\ is_week None = false /\ 1 < 1
  end.
Proof.
  apply (usage_history_is_own_newest_first alice None 1 100 [] busy_server); reflexivity.
Defined.

Example alice_usage_history :
  fst (get_usage_me alice None 1 100 [] busy_server) =
    rows_json [mkUsageView "chat" 7 8; mkUsageView "engine" 90 5].
Proof. vm_compute. reflexivity. Qed.

Example usage_page_zero_is_an_error :
  fst (get_usage_me alice None 0 100 [] busy_server) = answered (json 500 (err_message "")).
Proof. vm_compute. reflexivity. Qed.



(** A charge that was refused for its width leaves no entry behind. *)
Example refused_charge_is_not_listed :
  fst (get_usage_me alice (Some "week") 1 200 []
         (snd (post_usage alice "engine" (Some 3000000000) 100 [] busy_server))) =
  fst (get_usage_me alice (Some "week") 1 200 [] busy_server).
Proof. reflexivity. Qed.

(** * Administrative routes *)

(** The three administrative routes look at the role carried by the token
    and nothing else: with any other role than "admin" each of them
    answers 403 and leaves the store as it was. *)
Theorem admin_routes_refuse_other_roles
    (user : ReqUser) (uid : Z) (b : UserUpdate) (now : Z) (fl : Faults) (s : Server) :
  ru_role user <> "admin" ->
  put_admin_user user uid b now fl s = (sendStatus 403, s) /\
  delete_admin_user user uid fl s = (sendStatus 403, s) /\
  get_admin_usage user fl s = (answered (sendStatus 403), s).
Proof.
  intros Hrole. unfold put_admin_user, delete_admin_user, get_admin_usage.
  destruct (String.eqb_spec (ru_role user) "admin"); [contradiction|].
  repeat split.
Qed.

Lemma admin_routes_refuse_other_roles_witness :
  put_admin_user alice 1 (set_balance 999999) 7 [] busy_server = (sendStatus 403, busy_server) /\
  delete_admin_user alice 2 [] busy_server = (sendStatus 403, busy_server) /\
  get_admin_usage alice [] busy_server = (answered (sendStatus 403), busy_server).
Proof.
  apply (admin_routes_refuse_other_roles alice 1 (set_balance 999999) 7 [] busy_server).
  discriminate.
Defined.

(** The join of the usage rows with their accounts: one pair for every
    row whose account exists, in the order of the rows. *)
Lemma usage_join_rows {V} (view : UserRow -> UsageLog -> V)
    (us : gmap Z UserRow) (logs : list UsageLog) :
  exists rows : list (UsageLog * UserRow),
    map fst rows =
      List.filter (fun r => match us !! user_id r with Some _ => true | None => false end)
        logs /\
    Forall (fun ru => us !! user_id (fst ru) = Some (snd ru)) rows /\
    flat_map (fun r => match us !! user_id r with
                       | Some u => [view u r]
                       | None => []
                       end) logs =
      map (fun ru => view (snd ru) (fst ru)) rows.
Proof.
  induction logs as [|r logs (rows & Hfst & Hall & Hmap)].
  - exists []. repeat split. constructor.
  - cbn. destruct (us !! user_id r) as [u|] eqn:Hu.
    + exists ((r, u) :: rows). cbn. rewrite Hfst, Hmap. repeat split.
      constructor; [exact Hu | exact Hall].
    + exists rows. repeat split; assumption.
Qed.

(** The usage of all accounts: an administrator's listing holds exactly
    one entry for every usage row whose account exists (the listing is a
    rearrangement of the entries of those rows, taken one per row), each
    with that account's user name and the row's feature, count and time,
    newest first, and the store is not changed. *)
Theorem admin_usage_lists_every_account
    (user : ReqUser) (fl : Faults) (s : Server) :
  ru_role user = "admin" ->
  useMockDb s = false ->
  no_fault fl = true ->
  exists (l : list AdminUsageView) (rows : list (UsageLog * UserRow)),
    get_admin_usage user fl s = (rows_json l, s) /\
    map fst rows =
      List.filter (fun r => match users (db s) !! user_id r with
                            | Some _ => true
                            | None => false
                            end) (usage_logs (db s)) /\
    Forall (fun ru => users (db s) !! user_id (fst ru) = Some (snd ru)) rows /\
    Permutation l
      (map (fun ru => mkAdminUsageView (username (snd ru)) (feature_name (fst ru))
                        (token_count (fst ru)) (created_at (fst ru))) rows) /\
    length l = length rows /\
    (forall v, In v l <->
       exists r u, In r (usage_logs (db s)) /\ users (db s) !! user_id r = Some u /\
                   v = mkAdminUsageView (username u) (feature_name r) (token_count r)
                         (created_at r)) /\
    StronglySorted (fun a b => av_timestamp b <= av_timestamp a) l.
Proof.
  intros Hrole Hmock Hfl. unfold get_admin_usage.
  rewrite Hrole, Hmock, (pool_query_ok _ _ _ Hfl). cbn.
  destruct (usage_join_rows
              (fun u r => mkAdminUsageView (username u) (feature_name r) (token_count r)
                            (created_at r))
              (users (db s)) (usage_logs (db s))) as (rows & Hfst & Hall & Hmap).
  eexists _, rows. split; [now rewrite set_db_same|].
  split; [exact Hfst|]. split; [exact Hall|].
  assert (Hperm : Permutation
            (sort_by (fun a b => av_timestamp b <=? av_timestamp a)
               (flat_map (fun r => match users (db s) !! user_id r with
                                   | Some u => [mkAdminUsageView (username u) (feature_name r)
                                                  (token_count r) (created_at r)]
                                   | None => []
                                   end) (usage_logs (db s))))
            (map (fun ru => mkAdminUsageView (username (snd ru)) (feature_name (fst ru))
                              (token_count (fst ru)) (created_at (fst ru))) rows)).
  { rewrite <- Hmap. apply sort_by_perm. }
  split; [exact Hperm|]. split.
  { rewrite (Permutation_length Hperm). apply length_map. }
  split.
  - intros v. rewrite sort_by_In, in_flat_map. split.
    + intros (r & Hr & Hv). destruct (users (db s) !! user_id r) as [u|] eqn:Hu; [|contradiction].
      destruct Hv as [<-|[]]. exists r, u. auto.
    + intros (r & u & Hr & Hu & ->). exists r. split; [exact Hr|]. rewrite Hu. now left.
  - apply (sort_desc_sorted av_timestamp).
Qed.

Lemma admin_usage_lists_every_account_witness :
  exists (l : list AdminUsageView) (rows : list (UsageLog * UserRow)),
    get_admin_usage root [] busy_server = (rows_json l, busy_server) /\
    map fst rows =
      List.filter (fun r => match users (db busy_server) !! user_id r with
                            | Some _ => true
                            | None => false
                            end) (usage_logs (db busy_server)) /\
    Forall (fun ru => users (db busy_server) !! user_id (fst ru) = Some (snd ru)) rows /\
    Permutation l
      (map (fun ru => mkAdminUsageView (username (snd ru)) (feature_name (fst ru))
                        (token_count (fst ru)) (created_at (fst ru))) rows) /\
    length l = length rows /\
    (forall v, In v l <->
       exists r u, In r (usage_logs (db busy_server)) /\
                   users (db busy_server) !! user_id r = Some u /\
                   v = mkAdminUsageView (username u) (feature_name r) (token_count r)
                         (created_at r)) /\
    StronglySorted (fun a b => av_timestamp b <= av_timestamp a) l.
Proof.
  apply (admin_usage_lists_every_account root [] busy_server); reflexivity.
Defined.

(** Three rows of two accounts give three entries, newest first. *)
Example admin_usage_of_the_sample :
  fst (get_admin_usage root [] busy_server) =
    rows_json [mkAdminUsageView "alice" "chat" 7 8;
               mkAdminUsageView "bob" "chat" 12 6;
               mkAdminUsageView "alice" "engine" 90 5].
Proof. vm_compute. reflexivity. Qed.

Lemma filter_other_owner {A} (key : A -> Z) (uid uid' : Z) (l : list A) :
  uid' <> uid ->
  List.filter (fun r => key r =? uid') (List.filter (fun r => negb (key r =? uid)) l) =
  List.filter (fun r => key r =? uid') l.
Proof.
  intros Hne. induction l as [|r l IH]; cbn; [reflexivity|].
  destruct (Z.eqb_spec (key r) uid) as [Hr|Hr]; cbn.
  - destruct (Z.eqb_spec (key r) uid'); [congruence | exact IH].
  - destruct (Z.eqb_spec (key r) uid'); now rewrite IH.
Qed.

Lemma filter_surviving_session (uid : Z) (sid : string) (c : ChatSessionRow)
    (m : gmap string ChatSessionRow) (l : list ChatMessageRow) :
  m !! sid = Some c -> cs_user_id c <> uid ->
  List.filter (fun x => String.eqb (session_id x) sid)
    (List.filter (fun x => match m !! session_id x with
                           | Some c' => negb (cs_user_id c' =? uid)
                           | None => true
                           end) l) =
  List.filter (fun x => String.eqb (session_id x) sid) l.
Proof.
  intros Hc Hown. induction l as [|x l IH]; cbn; [reflexivity|].
  destruct (String.eqb_spec (session_id x) sid) as [Hx|Hx].
  - rewrite Hx, Hc. destruct (Z.eqb_spec (cs_user_id c) uid); [contradiction|]. cbn.
    rewrite Hx, String.eqb_refl. now rewrite IH.
  - destruct (match m !! session_id x with Some _ => _ | None => _ end); cbn; [|exact IH].
    destruct (String.eqb_spec (session_id x) sid); [contradiction | exact IH].
Qed.

(** Deleting an account (with a token of role "admin", whatever the
    database says about the requester) removes the account and everything
    that refers to it: its images, its chat sessions with their messages
    and its usage rows.  Every other account keeps its row, its images,
    its usage rows and its sessions with their messages.  The objects in
    the R2 bucket are not touched. *)
Theorem account_delete_cascades
    (user : ReqUser) (uid : Z) (fl : Faults) (s : Server) (u : UserRow) :
  ru_role user = "admin" ->
  useMockDb s = false ->
  no_fault fl = true ->
  users (db s) !! uid = Some u ->
  exists s',
    delete_admin_user user uid fl s = (json 200 success, s') /\
    forgotten uid (db s') /\
    (forall m c, In m (chat_messages (db s')) ->
       chat_sessions (db s) !! session_id m = Some c -> cs_user_id c <> uid) /\
    (forall uid', uid' <> uid ->
       users (db s') !! uid' = users (db s) !! uid' /\
       rows_of uid' (usage_logs (db s')) = rows_of uid' (usage_logs (db s)) /\
       List.filter (fun r => img_user_id r =? uid') (images (db s')) =
       List.filter (fun r => img_user_id r =? uid') (images (db s))) /\
    (forall sid c, chat_sessions (db s) !! sid = Some c -> cs_user_id c <> uid ->
       chat_sessions (db s') !! sid = Some c /\
       session_messages sid s' = session_messages sid s) /\
    r2 s' = r2 s.
Proof.
  intros Hrole Hmock Hfl Hu. unfold delete_admin_user.
  rewrite Hrole, Hmock, (pool_query_ok _ _ _ Hfl). unfold delete_user. rewrite Hu. cbn.
  eexists. split; [reflexivity|]. cbn.
  split; [|split; [|split; [|split; [|reflexivity]]]].
  - split; [apply lookup_delete_eq|]. split; [|split].
    + intros r Hr. apply filter_In in Hr as [_ Hr].
      apply negb_true_iff, Z.eqb_neq in Hr. exact Hr.
    + intros sid c Hc. apply map_lookup_filter_Some in Hc as [_ Hc]. exact Hc.
    + intros r Hr. apply filter_In in Hr as [_ Hr].
      apply negb_true_iff, Z.eqb_neq in Hr. exact Hr.
  - intros m c Hm Hc. apply filter_In in Hm as [_ Hm]. rewrite Hc in Hm.
    apply negb_true_iff, Z.eqb_neq in Hm. exact Hm.
  - intros uid' Hne. split; [now apply lookup_delete_ne|]. split.
    + unfold rows_of. now apply (filter_other_owner user_id).
    + now apply (filter_other_owner img_user_id).
  - intros sid c Hc Hown. split.
    + apply map_lookup_filter_Some. split; [exact Hc | exact Hown].
    + unfold session_messages. cbn. now apply (filter_surviving_session uid sid c).
Qed.

Lemma account_delete_cascades_witness :
  exists s',
    delete_admin_user root 1 [] busy_server = (json 200 success, s') /\
    forgotten 1 (db s') /\
    (forall m c, In m (chat_messages (db s')) ->
       chat_sessions (db busy_server) !! session_id m = Some c -> cs_user_id c <> 1) /\
    (forall uid', uid' <> 1 ->
       users (db s') !! uid' = users (db busy_server) !! uid' /\
       rows_of uid' (usage_logs (db s')) = rows_of uid' (usage_logs (db busy_server)) /\
       List.filter (fun r => img_user_id r =? uid') (images (db s')) =
       List.filter (fun r => img_user_id r =? uid') (images (db busy_server))) /\
    (forall sid c, chat_sessions (db busy_server) !! sid = Some c -> cs_user_id c <> 1 ->
       chat_sessions (db s') !! sid = Some c /\
       session_messages sid s' = session_messages sid busy_server) /\
    r2 s' = r2 busy_server.
Proof.
  apply (account_delete_cascades root 1 [] busy_server (user_row "alice" "user" 1000));
    reflexivity.
Defined.

(** After alice's account is deleted her objects are still in the bucket. *)
Example deleted_account_leaves_objects :
  r2 (snd (delete_admin_user root 1 [] busy_server)) !! "users/1/i1.png" = Some "AAAA" /\
  images (db (snd (delete_admin_user root 1 [] busy_server))) =
    [mkImageRow "i2" 2 "glacier" "users/2/i2.png" "High School" "Default" "English" 6].
Proof. split; vm_compute; reflexivity. Qed.

(** * Images *)

(** The image-generator route stores the object first and the row second,
    and fails when the upload fails: a row it inserts always has its
    object in the bucket under the row's key.  Without a configured bucket
    or with a failing upload it answers 500 and changes nothing; whenever
    it does not answer success, no row was added. *)
Theorem generated_image_row_has_its_object
    (user : ReqUser) (imgid data iprompt : string) (timestamp : Z)
    (put_throws : bool) (fl : Faults) (s : Server) :
  let key := generated_key (id user) imgid in
  let row := mkImageRow imgid (id user) iprompt key "N/A" "ImageGenerator" "N/A" timestamp in
  let (res, s') := post_generated_images user imgid data iprompt timestamp put_throws fl s in
  (res = json 200 success ->
     images (db s') = images (db s) ++ [row] /\ r2 s' !! key = Some data) /\
  (res <> json 200 success -> images (db s') = images (db s)) /\
  (R2_BUCKET_NAME s = None \/ put_throws = true -> ok res = false /\ s' = s).
Proof.
  cbn zeta. unfold post_generated_images.
  destruct (R2_BUCKET_NAME s) as [bucket|];
    [| split; [discriminate | split; [reflexivity | split; reflexivity]]].
  destruct put_throws; [split; [discriminate | split; [reflexivity | split; reflexivity]]|].
  unfold pool_query. rewrite call_hd.
  destruct (hd false fl); cbn.
  { split; [discriminate|]. split; [reflexivity|]. intros [H|H]; discriminate. }
  unfold insert_image. cbn.
  destruct (existsb _ (images (db s))); cbn.
  { split; [discriminate|]. split; [reflexivity|]. intros [H|H]; discriminate. }
  destruct (users (db s) !! id user); cbn.
  - split; [|split; [congruence | intros [H|H]; discriminate]].
    intros _. split; [reflexivity | apply lookup_insert_eq].
  - split; [discriminate|]. split; [reflexivity|]. intros [H|H]; discriminate.
Qed.

Example generated_image_saved :
  let '(res, s') :=
    post_generated_images alice "g1" "CCCC" "a fox" 50 false [] busy_server in
  res = json 200 success /\
  r2 s' !! "users/1/generated/g1.png" = Some "CCCC" /\
  map img_id (images (db s')) = ["i1"; "i2"; "g1"].
Proof. vm_compute. repeat split. Qed.

(** The save route of the visual engine writes the object before it
    inserts the row and never takes it back: with a bucket configured and
    the upload going through, the bucket holds the new data under the
    image's key whatever the database then does, so a save that is
    answered 500 (a taken id, an unknown account, a database failure)
    still replaces the object stored under that key. *)
Theorem image_object_is_written_before_the_row
    (user : ReqUser) (img : ImageUpload) (sign_fails : bool) (fl : Faults)
    (s : Server) (bucket : string) :
  useMockDb s = false ->
  R2_BUCKET_NAME s = Some bucket ->
  let (res, s') := post_images user img false sign_fails fl s in
  r2 s' = <[object_key (id user) (up_id img) := up_data img]> (r2 s) /\
  (ok res = false -> images (db s') = images (db s)).
Proof.
  intros Hmock Hbucket. unfold post_images, upload_to_r2. rewrite Hmock, Hbucket.
  unfold pool_query.
  destruct sign_fails; rewrite call_hd; (destruct (hd false fl); cbn; [split; reflexivity|]);
    unfold insert_image; cbn;
    (destruct (existsb _ (images (db s))); cbn; [split; reflexivity|]);
    (destruct (users (db s) !! id user); cbn; split; try reflexivity; discriminate).
Qed.

Lemma image_object_is_written_before_the_row_witness :
  let (res, s') :=
    post_images alice (mkImageUpload "i1" "ZZZZ" "volcano" "High School" "Default" "English" 9)
      false false [] busy_server in
  r2 s' = <[object_key (id alice) "i1" := "ZZZZ"]> (r2 busy_server) /\
  (ok res = false -> images (db s') = images (db busy_server)).
Proof.
  apply (image_object_is_written_before_the_row alice
           (mkImageUpload "i1" "ZZZZ" "volcano" "High School" "Default" "English" 9)
           false [] busy_server "bucket"); reflexivity.
Defined.

(** Saving again under the id "i1": refused, and the stored image is gone. *)
Example refused_save_replaces_the_object :
  let '(res, s') :=
    post_images alice (mkImageUpload "i1" "ZZZZ" "volcano" "High School" "Default" "English" 9)
      false false [] busy_server in
  res = json 500 (err_message "Upload failed: ") /\
  r2 busy_server !! "users/1/i1.png" = Some "AAAA" /\
  r2 s' !! "users/1/i1.png" = Some "ZZZZ".
Proof. vm_compute. repeat split. Qed.

Lemma generated_image_row_has_its_object_witness :
  let key := generated_key (id alice) "g1" in
  let row := mkImageRow "g1" (id alice) "a fox" key "N/A" "ImageGenerator" "N/A" 50 in
  let (res, s') := post_generated_images alice "g1" "CCCC" "a fox" 50 false [] busy_server in
  (res = json 200 success ->
     images (db s') = images (db busy_server) ++ [row] /\ r2 s' !! key = Some "CCCC") /\
  (res <> json 200 success -> images (db s') = images (db busy_server)) /\
  (R2_BUCKET_NAME busy_server = None \/ false = true -> ok res = false /\ s' = busy_server).
Proof.
  apply (generated_image_row_has_its_object alice "g1" "CCCC" "a fox" 50 false []
           busy_server).
Defined.

Lemma select_images_spec (uid : Z) (period : option string) (page now : Z) (d : Db) :
  snd (select_images uid period page now d) = d /\
  match fst (select_images uid period page now d) with
  | Ok rows =>
      (forall r, In r rows -> In r (images d) /\ img_user_id r = uid) /\
      StronglySorted (fun a b => img_created_at b <= img_created_at a) rows /\
      (is_week period = false -> (length rows <= 50)%nat /\ 1 <= page) /\
      (is_week period = true ->
         forall r, In r rows <->
                   In r (images d) /\ img_user_id r = uid /\
                   now - 604800000 <= img_created_at r)
  | Throw => is_week period = false /\ page < 1
  end.
Proof.
  unfold select_images. destruct (is_week period) eqn:Hw; cbn.
  - split; [reflexivity|]. split; [|split; [|split; [discriminate|]]].
    + intros r Hr. apply sort_by_In in Hr. apply filter_In in Hr as [Hr _].
      apply filter_In in Hr as [Hr Hu]. split; [exact Hr | now apply Z.eqb_eq].
    + apply (sort_desc_sorted img_created_at).
    + intros _ r. rewrite sort_by_In, !filter_In, Z.eqb_eq, Z.leb_le.
      change (7 * 24 * 60 * 60 * 1000) with 604800000. tauto.
  - destruct ((page - 1) * 50 <? 0) eqn:Hoff; cbn.
    + split; [reflexivity|]. split; [reflexivity|]. apply Z.ltb_lt in Hoff. lia.
    + apply Z.ltb_ge in Hoff. split; [reflexivity|].
      split; [|split; [|split; [|discriminate]]].
      * intros r Hr. apply In_take, In_drop in Hr. apply sort_by_In in Hr.
        apply filter_In in Hr as [Hr Hu]. split; [exact Hr | now apply Z.eqb_eq].
      * apply StronglySorted_take, StronglySorted_drop.
        apply (sort_desc_sorted img_created_at).
      * intros _. split; [|lia]. rewrite length_take. lia.
Qed.

Lemma get_images_spec
    (user : ReqUser) (period : option string) (page now : Z)
    (sign_fails : string -> bool) (fl : Faults) (s : Server) :
  useMockDb s = false ->
  no_fault fl = true ->
  match fst (get_images user period page now sign_fails fl s) with
  | json st (image_list l) =>
      st = 200 /\
      (forall v, In v l ->
         exists r, In r (images (db s)) /\ img_user_id r = id user /\
                   v = image_view (history_url (R2_BUCKET_NAME s) sign_fails (r2_key r)) r) /\
      StronglySorted (fun a b => iv_timestamp b <= iv_timestamp a) l /\
      (is_week period = false -> (length l <= 50)%nat /\ 1 <= page) /\
      (is_week period = true ->
         forall r, In r (images (db s)) -> img_user_id r = id user ->
                   now - 604800000 <= img_created_at r ->
                   In (image_view (history_url (R2_BUCKET_NAME s) sign_fails (r2_key r)) r) l)
  | r => r = json 500 (err_message "Fetch history failed: ") /\
         is_week period = false /\ page < 1
  end.
Proof.
  intros Hmock Hfl. unfold get_images. rewrite Hmock, (pool_query_ok _ _ _ Hfl).
  destruct (select_images_spec (id user) period page now (db s)) as [_ Hspec].
  destruct (fst (select_images _ _ _ _ _)) as [rows|]; cbn.
  - destruct Hspec as (Hown & Hsorted & Hpage & Hweek).
    split; [reflexivity|]. split; [|split; [|split]].
    + intros v Hv. apply in_map_iff in Hv as (r & <- & Hr).
      destruct (Hown r Hr). exists r. auto.
    + eapply StronglySorted_map; [|exact Hsorted]. intros a b H. exact H.
    + intros Hw. rewrite length_map. auto.
    + intros Hw r Hr Hu Hrecent.
      apply (in_map (fun r => image_view (history_url _ sign_fails (r2_key r)) r)).
      apply (Hweek Hw). auto.
  - destruct Hspec. auto.
Qed.

(** The image history of an account: with the database answering, the
    route returns only images of the requester, newest first, each with
    the URL derived from its key.  Without [period=week] it returns at
    most 50 images, and a page below 1 is answered 500; with [period=week]
    it returns every image of the requester of the last 7 days. *)
Theorem image_history_is_own_newest_first
    (user : ReqUser) (period : option string) (page now : Z)
    (sign_fails : string -> bool) (fl : Faults) (s : Server) :
  useMockDb s = false ->
  no_fault fl = true ->
  match fst (get_images user period page now sign_fails fl s) with
  | json st (image_list l) =>
      st = 200 /\
      (forall v, In v l ->
         exists r, In r (images (db s)) /\ img_user_id r = id user /\
                   v = image_view (history_url (R2_BUCKET_NAME s) sign_fails (r2_key r)) r) /\
      StronglySorted (fun a b => iv_timestamp b <= iv_timestamp a) l /\
      (is_week period = false -> (length l <= 50)%nat /\ 1 <= page) /\
      (is_week period = true ->
         forall r, In r (images (db s)) -> img_user_id r = id user ->
                   now - 604800000 <= img_created_at r ->
                   In (image_view (history_url (R2_BUCKET_NAME s) sign_fails (r2_key r)) r) l)
  | r => r = json 500 (err_message "Fetch history failed: ") /\
         is_week period = false /\ page < 1
  end.
Proof. apply get_images_spec. Qed.

Lemma image_history_is_own_newest_first_witness :
  match fst (get_images alice None 1 100 (fun _ => false) [] busy_server) with
  | json st (image_list l) =>
      st = 200 /\
      (forall v, In v l ->
         exists r, In r (images (db busy_server)) /\ img_user_id r = id alice /\
                   v = image_view (history_url (R2_BUCKET_NAME busy_server) (fun _ => false)
                                     (r2_key r)) r) /\
      StronglySorted (fun a b => iv_timestamp b <= iv_timestamp a) l /\
      (is_week None = false -> (length l <= 50)%nat /\ 1 <= 1) /\
      (is_week None = true ->
         forall r, In r (images (db busy_server)) -> img_user_id r = id alice ->
                   100 - 604800000 <= img_created_at r ->
                   In (image_view (history_url (R2_BUCKET_NAME busy_server) (fun _ => false)
                                     (r2_key r)) r) l)
  | r => r = json 500 (err_message "Fetch history failed: ") /\
         is_week None = false /\ 1 < 1
  end.
Proof.
  apply (image_history_is_own_newest_first alice None 1 100 (fun _ => false) []
           busy_server); reflexivity.
Defined.

(** Saving and reading back: an image saved through the visual-engine
    route (bucket configured, upload and insert going through) appears in
    the owner's history of the week, read up to 7 days after the image's
    timestamp, with its id, prompt and timestamp and with a URL signed for
    one hour over the key under which the object was stored. *)
Theorem image_save_then_history
    (user : ReqUser) (img : ImageUpload) (sign_fails : bool) (later : Z)
    (fl fl' : Faults) (s : Server) (bucket : string) (u : UserRow) :
  useMockDb s = false ->
  R2_BUCKET_NAME s = Some bucket ->
  no_fault fl = true ->
  no_fault fl' = true ->
  users (db s) !! id user = Some u ->
  existsb (fun r => String.eqb (img_id r) (up_id img)) (images (db s)) = false ->
  later - 604800000 <= up_timestamp img ->
  exists url s' l,
    post_images user img false sign_fails fl s = (json 200 (success_url url), s') /\
    r2 s' !! object_key (id user) (up_id img) = Some (up_data img) /\
    fst (get_images user (Some "week") 1 later (fun _ => false) fl' s') =
      json 200 (image_list l) /\
    In (mkImageView (up_id img)
          (Signed bucket (object_key (id user) (up_id img)) 3600)
          (up_prompt img) (up_timestamp img) (up_level img) (up_style img)
          (up_language img)) l.
Proof.
  intros Hmock Hbucket Hfl Hfl' Hu Hnew Hlater.
  set (key := object_key (id user) (up_id img)).
  set (row := mkImageRow (up_id img) (id user) (up_prompt img) key (up_level img)
                (up_style img) (up_language img) (up_timestamp img)).
  set (s' := set_db (set_images (images (db s) ++ [row]) (db s))
               (set_r2 (<[key := up_data img]> (r2 s)) s)).
  assert (Hpost : post_images user img false sign_fails fl s =
                    (json 200 (success_url (if sign_fails then Plain (up_data img)
                                            else Signed bucket key 604800)), s')).
  { unfold post_images, upload_to_r2. rewrite Hmock, Hbucket. fold key. fold row.
    unfold pool_query.
    destruct sign_fails; rewrite call_hd, (no_fault_hd _ Hfl);
      unfold insert_image; cbn [db set_r2 img_id img_user_id row];
      rewrite Hnew, Hu; reflexivity. }
  assert (Hmock' : useMockDb s' = false) by exact Hmock.
  pose proof (get_images_spec user (Some "week") 1 later (fun _ => false) fl' s'
                Hmock' Hfl') as Hget.
  eexists _, s'.
  destruct (fst (get_images user (Some "week") 1 later (fun _ => false) fl' s'))
    as [st [| | | | |l|l] | |] eqn:Hl; try (destruct Hget as (_ & Hw & _); discriminate).
  destruct Hget as (-> & _ & _ & _ & Hweek).
  exists l. split; [exact Hpost|]. split; [subst s'; cbn; apply lookup_insert_eq|].
  split; [reflexivity|].
  specialize (Hweek eq_refl row).
  assert (Hurl : history_url (R2_BUCKET_NAME s') (fun _ => false) (r2_key row) =
                 Signed bucket key 3600).
  { change (R2_BUCKET_NAME s') with (R2_BUCKET_NAME s). rewrite Hbucket.
    unfold history_url, row, key, object_key. cbn. reflexivity. }
  rewrite Hurl in Hweek.
  apply Hweek; [subst s'; cbn; apply in_or_app; right; now left | reflexivity | exact Hlater].
Qed.

Lemma image_save_then_history_witness :
  exists url s' l,
    post_images alice second_upload false false [] saved_server =
      (json 200 (success_url url), s') /\
    r2 s' !! object_key (id alice) (up_id second_upload) = Some (up_data second_upload) /\
    fst (get_images alice (Some "week") 1 1700000001000 (fun _ => false) [] s') =
      json 200 (image_list l) /\
    In (mkImageView (up_id second_upload)
          (Signed "bucket" (object_key (id alice) (up_id second_upload)) 3600)
          (up_prompt second_upload) (up_timestamp second_upload) (up_level second_upload)
          (up_style second_upload) (up_language second_upload)) l.
Proof.
  apply (image_save_then_history alice second_upload false 1700000001000 [] []
           saved_server "bucket" (user_row "alice" "user" 1000)); try reflexivity.
  vm_compute. discriminate.
Defined.

(** * Object keys *)


Lemma pretty_N_char_slash_free (x : N) : Ascii.eqb (pretty_N_char x) "/" = false.
Proof.
  destruct x as [|p]; [reflexivity|].
  do 4 (destruct p as [p|p|]; try reflexivity).
Qed.

Lemma pretty_N_go_slash_free (x : N) : forall s,
  slash_free s = true -> slash_free (pretty_N_go x s) = true.
Proof.
  induction (N.lt_wf_0 x) as [x _ IH]. intros s Hs.
  destruct (N.eq_dec x 0%N) as [->|Hx]; [now rewrite pretty_N_go_0|].
  rewrite pretty_N_go_step by lia. apply IH.
  - apply N.div_lt; lia.
  - cbn. now rewrite pretty_N_char_slash_free.
Qed.

Lemma pretty_Z_slash_free (z : Z) : slash_free (pretty z) = true.
Proof.
  assert (HN : forall p, slash_free (pretty (N.pos p)) = true).
  { intros p. unfold pretty, pretty_N. destruct (decide (N.pos p = 0%N)); [reflexivity|].
    now apply pretty_N_go_slash_free. }
  destruct z as [|p|p]; unfold pretty, pretty_Z; [reflexivity | apply HN |].
  cbn. apply HN.
Qed.

Lemma split_at_slash (s1 : string) : forall s2 r1 r2,
  slash_free s1 = true -> slash_free s2 = true ->
  (s1 +:+ "/" +:+ r1 = s2 +:+ "/" +:+ r2)%string ->
  s1 = s2 /\ r1 = r2.
Proof.
  induction s1 as [|c s1 IH]; intros [|c2 s2] r1 r2 H1 H2 Heq; cbn in H1, H2.
  - change (String "/" r1 = String "/" r2) in Heq. split; congruence.
  - change (String "/" r1 = String c2 (s2 +:+ "/" +:+ r2)) in Heq.
    apply andb_prop in H2 as [H2 _]. assert (c2 = "/"%char) as -> by congruence.
    discriminate.
  - change (String c (s1 +:+ "/" +:+ r1) = String "/" r2) in Heq.
    apply andb_prop in H1 as [H1 _]. assert (c = "/"%char) as -> by congruence.
    discriminate.
  - change (String c (s1 +:+ "/" +:+ r1) = String c2 (s2 +:+ "/" +:+ r2)) in Heq.
    apply andb_prop in H1 as [_ H1]. apply andb_prop in H2 as [_ H2].
    assert (Hc : c = c2) by congruence.
    assert (Hrest : (s1 +:+ "/" +:+ r1 = s2 +:+ "/" +:+ r2)%string) by congruence.
    destruct (IH s2 r1 r2 H1 H2 Hrest) as [-> ->]. split; congruence.
Qed.

Lemma string_length_append (s t : string) :
  String.length (s +:+ t) = (String.length s + String.length t)%nat.
Proof.
  induction s as [|c s IH]; [reflexivity|].
  change (S (String.length (s +:+ t)) = S (String.length s + String.length t)).
  now rewrite IH.
Qed.

Lemma append_tail_inj (t : string) (s1 : string) : forall s2,
  (s1 +:+ t = s2 +:+ t)%string -> s1 = s2.
Proof.
  induction s1 as [|c s1 IH]; intros [|c2 s2] Heq.
  - reflexivity.
  - apply (f_equal String.length) in Heq.
    change (String.length (String c2 s2 +:+ t)) with (S (String.length (s2 +:+ t))) in Heq.
    change ("" +:+ t) with t in Heq. rewrite string_length_append in Heq. lia.
  - apply (f_equal String.length) in Heq.
    change (String.length (String c s1 +:+ t)) with (S (String.length (s1 +:+ t))) in Heq.
    change ("" +:+ t) with t in Heq. rewrite string_length_append in Heq. lia.
  - change (String c (s1 +:+ t) = String c2 (s2 +:+ t)) in Heq.
    assert (Hc : c = c2) by congruence.
    assert (Hrest : (s1 +:+ t = s2 +:+ t)%string) by congruence.
    rewrite Hc. f_equal. now apply IH.
Qed.

Lemma object_key_inj (u1 u2 : Z) (i1 i2 : string) :
  object_key u1 i1 = object_key u2 i2 -> u1 = u2 /\ i1 = i2.
Proof.
  unfold object_key. intros Heq.
  change ("users/" +:+ pretty u1 +:+ "/" +:+ i1 +:+ ".png")
    with (String "u" (String "s" (String "e" (String "r" (String "s" (String "/"
            (pretty u1 +:+ "/" +:+ i1 +:+ ".png"))))))) in Heq.
  change ("users/" +:+ pretty u2 +:+ "/" +:+ i2 +:+ ".png")
    with (String "u" (String "s" (String "e" (String "r" (String "s" (String "/"
            (pretty u2 +:+ "/" +:+ i2 +:+ ".png"))))))) in Heq.
  assert (Hrest : (pretty u1 +:+ "/" +:+ (i1 +:+ ".png") =
                   pretty u2 +:+ "/" +:+ (i2 +:+ ".png"))%string) by congruence.
  clear Heq. rename Hrest into Heq.
  apply split_at_slash in Heq as [Hu Hi]; try apply pretty_Z_slash_free.
  split; [now apply (inj pretty) | now apply (append_tail_inj ".png")].
Qed.

Lemma generated_key_as_object_key (u : Z) (i : string) :
  generated_key u i = object_key u ("generated/" +:+ i).
Proof. reflexivity. Qed.

Lemma post_images_bucket (user : ReqUser) (img : ImageUpload) (put_fails sign_fails : bool)
    (fl : Faults) (s : Server) :
  r2 (snd (post_images user img put_fails sign_fails fl s)) = r2 s \/
  r2 (snd (post_images user img put_fails sign_fails fl s)) =
    <[object_key (id user) (up_id img) := up_data img]> (r2 s).
Proof.
  unfold post_images, upload_to_r2.
  destruct (R2_BUCKET_NAME s), (useMockDb s); try (left; reflexivity);
    destruct put_fails, sign_fails; cbn;
    try (left; reflexivity); try (right; reflexivity);
    destruct (pool_query (insert_image _) fl _) as [[[?|] ?] ?];
    try (left; reflexivity); right; reflexivity.
Qed.

Lemma post_generated_images_bucket (user : ReqUser) (imgid data iprompt : string)
    (timestamp : Z) (put_throws : bool) (fl : Faults) (s : Server) :
  r2 (snd (post_generated_images user imgid data iprompt timestamp put_throws fl s)) = r2 s \/
  r2 (snd (post_generated_images user imgid data iprompt timestamp put_throws fl s)) =
    <[generated_key (id user) imgid := data]> (r2 s).
Proof.
  unfold post_generated_images.
  destruct (R2_BUCKET_NAME s); [|left; reflexivity].
  destruct put_throws; [left; reflexivity|].
  destruct (pool_query (insert_image _) fl _) as [[[?|] ?] ?]; right; reflexivity.
Qed.

(** Object keys are per account: the keys of two different accounts never
    coincide, whatever image ids the requests carry, so neither save route
    can create, replace or remove an object stored under another
    account's key. *)
Theorem saves_stay_within_the_account
    (user : ReqUser) (img : ImageUpload) (put_fails sign_fails : bool)
    (imgid data iprompt : string) (timestamp : Z) (fl : Faults) (s : Server)
    (other : Z) (i : string) :
  other <> id user ->
  (forall j, object_key other i <> object_key (id user) j) /\
  r2 (snd (post_images user img put_fails sign_fails fl s)) !! object_key other i =
    r2 s !! object_key other i /\
  r2 (snd (post_generated_images user imgid data iprompt timestamp put_fails fl s))
    !! object_key other i = r2 s !! object_key other i.
Proof.
  intros Hother.
  assert (Hkeys : forall j, object_key other i <> object_key (id user) j).
  { intros j Heq. apply object_key_inj in Heq as [Heq _]. contradiction. }
  split; [exact Hkeys|]. split.
  - destruct (post_images_bucket user img put_fails sign_fails fl s) as [-> | ->];
      [reflexivity|]. apply lookup_insert_ne. intros Heq. now apply (Hkeys _ (eq_sym Heq)).
  - destruct (post_generated_images_bucket user imgid data iprompt timestamp put_fails fl s)
      as [-> | ->]; [reflexivity|].
    rewrite generated_key_as_object_key.
    apply lookup_insert_ne. intros Heq. now apply (Hkeys _ (eq_sym Heq)).
Qed.

Lemma saves_stay_within_the_account_witness :
  (forall j, object_key 2 "i2" <> object_key (id alice) j) /\
  r2 (snd (post_images alice
             (mkImageUpload "../2/i2" "EVIL" "x" "x" "x" "x" 9) false false [] busy_server))
    !! object_key 2 "i2" = r2 busy_server !! object_key 2 "i2" /\
  r2 (snd (post_generated_images alice "../../2/i2" "EVIL" "x" 9 false [] busy_server))
    !! object_key 2 "i2" = r2 busy_server !! object_key 2 "i2".
Proof.
  apply (saves_stay_within_the_account alice
           (mkImageUpload "../2/i2" "EVIL" "x" "x" "x" "x" 9) false false
           "../../2/i2" "EVIL" "x" 9 [] busy_server 2 "i2").
  discriminate.
Defined.

(** * Start-up *)

Lemma next_user_id_fresh (us : gmap Z UserRow) : us !! next_user_id us = None.
Proof.
  unfold next_user_id.
  assert (H : forall k, is_Some (us !! k) -> k <= map_fold (fun k _ acc => Z.max k acc) 0 us).
  { apply (map_fold_weak_ind
             (fun r (m : gmap Z UserRow) => forall k, is_Some (m !! k) -> k <= r)).
    - intros k [x Hx]. rewrite lookup_empty in Hx. discriminate.
    - intros i x m r Hi IH k Hk. destruct (decide (k = i)) as [->|Hne]; [lia|].
      rewrite lookup_insert_ne in Hk by congruence. specialize (IH k Hk). lia. }
  destruct (us !! (1 + _)) as [u|] eqn:Hu; [|reflexivity].
  specialize (H _ (ex_intro _ u Hu)). lia.
Qed.

Lemma select_by_username_rows (name : string) (d : Db) :
  match fst (select_by_username name d) with
  | Ok [] => forall uid u, users d !! uid = Some u -> username u <> name
  | Ok (r :: _) => exists uid, users d !! uid = Some r /\ username r = name
  | Throw => False
  end.
Proof.
  unfold select_by_username. cbn.
  destruct (List.filter _ _) as [|r rows] eqn:Hrows.
  - intros uid u Hu Hname.
    assert (Hin : In u (List.filter (fun u => String.eqb (username u) name)
                          (map snd (map_to_list (users d))))).
    { apply filter_In. split; [|now apply String.eqb_eq].
      apply in_map_iff. exists (uid, u). split; [reflexivity|].
      apply list_elem_of_In, elem_of_map_to_list. exact Hu. }
    rewrite Hrows in Hin. contradiction.
  - assert (Hin : In r (List.filter (fun u => String.eqb (username u) name)
                          (map snd (map_to_list (users d))))).
    { rewrite Hrows. now left. }
    apply filter_In in Hin as [Hin Hname]. apply in_map_iff in Hin as ([uid u] & <- & Hin).
    apply list_elem_of_In, elem_of_map_to_list in Hin.
    exists uid. split; [exact Hin | now apply String.eqb_eq].
Qed.

Lemma initDb_queries_cases (fl : Faults) (d : Db) :
  match initDb_queries fl d with
  | (Ok _, _, d') =>
      (d' = d /\ exists uid u, users d !! uid = Some u /\ username u = "admin") \/
      (d' = snd (insert_default_admin d) /\
       forall uid u, users d !! uid = Some u -> username u <> "admin")
  | (Throw, _, _) => True
  end.
Proof.
  unfold initDb_queries, bind, swallow, pool_query.
  rewrite call_hd. destruct (hd false fl); [exact I|]. cbn.
  rewrite call_hd. destruct (hd false (tl fl)); [exact I|]. cbn.
  rewrite call_hd. destruct (hd false (tl (tl fl))); [exact I|]. cbn.
  rewrite call_hd. destruct (hd false (tl (tl (tl fl)))); [exact I|]. cbn.
  rewrite call_hd. destruct (hd false (tl (tl (tl (tl fl))))); [exact I|]. cbn.
  assert (Hprobe : forall fl0,
            (let '(_, fl', s') := call probe_tokens_column fl0 d in (Ok tt, fl', s')) =
            (Ok tt, tl fl0, d)).
  { intros fl0. rewrite call_hd. destruct (hd false fl0); reflexivity. }
  rewrite Hprobe.
  rewrite call_hd. destruct (hd false _); [exact I|].
  pose proof (select_by_username_rows "admin" d) as Hsel.
  destruct (select_by_username "admin" d) as [[rows|] d0] eqn:Hq; cbn in Hsel; [|contradiction].
  assert (d0 = d) as -> by (unfold select_by_username in Hq; congruence).
  destruct rows as [|r rows].
  - rewrite call_hd. destruct (hd false _); [exact I|]. cbn. right. split; [reflexivity | exact Hsel].
  - cbn. left. split; [reflexivity|]. destruct Hsel as (uid & Hu & Hname). eauto.
Qed.

(** A start-up that succeeds keeps every account that was there, changes
    no other table, and leaves an account named "admin" behind; it adds
    that account only when none had the name, so starting again changes
    nothing. *)
Theorem start_up_keeps_accounts_and_ensures_admin
    (fl fl2 : Faults) (s s' : Server) :
  initDb fl s = Running s' ->
  (forall uid u, users (db s) !! uid = Some u -> users (db s') !! uid = Some u) /\
  (exists uid u, users (db s') !! uid = Some u /\ username u = "admin") /\
  s' = set_db (set_users (users (db s')) (db s)) s /\
  (forall s'', initDb fl2 s' = Running s'' -> s'' = s').
Proof.
  intros Hinit.
  assert (Hrun : forall fl0 s0 s1, initDb fl0 s0 = Running s1 ->
            (s1 = s0 /\ exists uid u, users (db s0) !! uid = Some u /\ username u = "admin") \/
            (s1 = set_db (snd (insert_default_admin (db s0))) s0 /\
             forall uid u, users (db s0) !! uid = Some u -> username u <> "admin")).
  { intros fl0 s0 s1. unfold initDb.
    pose proof (initDb_queries_cases (tl fl0) (db s0)) as Hq.
    destruct fl0 as [|[] fl0]; try discriminate;
      destruct (initDb_queries _ (db s0)) as [[[?|] ?] d']; try discriminate;
      intros [= <-]; (destruct Hq as [[-> Hadm] | [-> Hnone]];
                      [left; split; [apply set_db_same | exact Hadm] | right; split; auto]). }
  assert (Hadmin : exists uid u, users (db s') !! uid = Some u /\ username u = "admin").
  { destruct (Hrun _ _ _ Hinit) as [[-> Hadm] | [-> _]]; [exact Hadm|].
    cbn. eexists _, _. split; [apply lookup_insert_eq | reflexivity]. }
  split; [|split; [exact Hadmin | split]].
  - intros uid u Hu. destruct (Hrun _ _ _ Hinit) as [[-> _] | [-> _]]; [exact Hu|].
    cbn. rewrite lookup_insert_ne; [exact Hu|].
    intros Heq. rewrite <- Heq, next_user_id_fresh in Hu. discriminate.
  - destruct (Hrun _ _ _ Hinit) as [[-> _] | [-> _]].
    + destruct s as [? ? ? ? ? ? [] ? ?]; reflexivity.
    + destruct s as [? ? ? ? ? ? [] ? ?]; reflexivity.
  - intros s'' Hagain. destruct (Hrun _ _ _ Hagain) as [[-> _] | [_ Hnone]]; [reflexivity|].
    destruct Hadmin as (uid & u & Hu & Hname). now destruct (Hnone uid u Hu).
Qed.

Lemma start_up_keeps_accounts_and_ensures_admin_witness :
  (forall uid u, users (db two_sessions) !! uid = Some u ->
                 users (db two_sessions) !! uid = Some u) /\
  (exists uid u, users (db two_sessions) !! uid = Some u /\ username u = "admin") /\
  two_sessions = set_db (set_users (users (db two_sessions)) (db two_sessions)) two_sessions /\
  (forall s'', initDb [false; false] two_sessions = Running s'' -> s'' = two_sessions).
Proof.
  apply (start_up_keeps_accounts_and_ensures_admin [] [false; false] two_sessions two_sessions).
  vm_compute. reflexivity.
Defined.

(** On an empty database the first start creates the administrator. *)
Example first_start_creates_admin :
  start (mkDb ∅ [] ∅ [] []) ∅ None [] =
    Running (mkServer false [] [] [] [] []
               (mkDb (<[1 := mkUserRow "admin" "Administrator" "admin" true
                              (Some 4102444800000) "" "" 100000]> ∅) [] ∅ [] [])
               ∅ None).
Proof. vm_compute. reflexivity. Qed.

(** * Locality and accumulation of ledger operations *)

(** A charge or an administrative update touches one account: for every
    other account the row, the balance and the usage rows are the same
    afterwards, under every fault script, and images, chat sessions, chat
    messages and the bucket are never touched. *)
Theorem ledger_operations_are_local (op : LedgerOp) (s : Server) (other : Z) :
  useMockDb s = false ->
  target op <> other ->
  users (db (step op s)) !! other = users (db s) !! other /\
  rows_of other (usage_logs (db (step op s))) = rows_of other (usage_logs (db s)) /\
  images (db (step op s)) = images (db s) /\
  chat_sessions (db (step op s)) = chat_sessions (db s) /\
  chat_messages (db (step op s)) = chat_messages (db s) /\
  r2 (step op s) = r2 s.
Proof.
  intros Hmock Hother.
  destruct op as [user feature tc now fl | admin uid b now fl]; cbn [step target] in *.
  - destruct (post_usage_cases user feature tc now fl s Hmock) as [-> | (u & _ & ->)];
      [repeat split|]. cbn [snd db set_db r2].
    split; [now apply charge_effect_other|]. split; [|repeat split].
    rewrite charge_effect_logs. unfold rows_of. rewrite List.filter_app. cbn.
    destruct (Z.eqb_spec (id user) other); [contradiction|]. apply app_nil_r.
  - destruct (put_admin_user_cases admin uid b now fl s) as [[_ ->] | (u & _ & ->)];
      [repeat split|]. cbn [snd db set_db r2].
    rewrite adjust_effect_users, adjust_effect_logs.
    split; [now apply lookup_alter_ne|].
    unfold adjust_effect. destruct (0 <? upd_tokens b - tokens u); [|repeat split].
    split; [|repeat split].
    unfold rows_of. rewrite List.filter_app. cbn.
    destruct (Z.eqb_spec uid other); [contradiction|]. apply app_nil_r.
Qed.

Lemma ledger_operations_are_local_witness :
  users (db (step (Charge alice "engine" (Some 150) 9 []) busy_server)) !! 2 =
    users (db busy_server) !! 2 /\
  rows_of 2 (usage_logs (db (step (Charge alice "engine" (Some 150) 9 []) busy_server))) =
    rows_of 2 (usage_logs (db busy_server)) /\
  images (db (step (Charge alice "engine" (Some 150) 9 []) busy_server)) =
    images (db busy_server) /\
  chat_sessions (db (step (Charge alice "engine" (Some 150) 9 []) busy_server)) =
    chat_sessions (db busy_server) /\
  chat_messages (db (step (Charge alice "engine" (Some 150) 9 []) busy_server)) =
    chat_messages (db busy_server) /\
  r2 (step (Charge alice "engine" (Some 150) 9 []) busy_server) = r2 busy_server.
Proof.
  apply (ledger_operations_are_local (Charge alice "engine" (Some 150) 9 []) busy_server 2).
  - reflexivity.
  - discriminate.
Defined.

Lemma run_app (ops1 ops2 : list LedgerOp) (s : Server) :
  run (ops1 ++ ops2) s = run ops2 (run ops1 s).
Proof. unfold run. apply fold_left_app. Qed.



(** A charge that does not fit is skipped by the run: the other charges
    of the series still add up. *)
Example oversized_charge_is_skipped :
  balance 1 (run (charges alice [("a", 30, 5); ("b", 3000000000, 6); ("c", 70, 7)])
               (sample_server 200)) = Some 100 /\
  usage_logs (db (run (charges alice [("a", 30, 5); ("b", 3000000000, 6); ("c", 70, 7)])
                    (sample_server 200))) =
    [mkUsageLog 1 "a" 30 5; mkUsageLog 1 "c" 70 7].
Proof. split; reflexivity. Qed.

(** Scenario D, one charge after the other: 200 - 30 - 70 = 100 either way. *)
Example two_charges_either_order :
  balance 1 (run (charges alice [("a", 30, 5); ("b", 70, 6)]) (sample_server 200)) = Some 100 /\
  balance 1 (run (charges alice [("b", 70, 5); ("a", 30, 6)]) (sample_server 200)) = Some 100.
Proof. split; reflexivity. Qed.

(** * Search results *)

Section MapSet.
Context {V : Type}.
Implicit Types (m es : list (string * V)).

Lemma Map_set_keys k v m k' :
  In k' (map fst (Map_set k v m)) <-> k' = k \/ In k' (map fst m).
Proof.
  induction m as [|[k0 v0] m IH]; cbn.
  - intuition congruence.
  - destruct (String.eqb_spec k0 k) as [->|Hne]; cbn; [intuition congruence|].
    rewrite IH. intuition congruence.
Qed.

Lemma Map_set_NoDup k v m :
  List.NoDup (map fst m) -> List.NoDup (map fst (Map_set k v m)).
Proof.
  induction m as [|[k0 v0] m IH]; cbn; intros Hnd.
  - constructor; [intros [] | constructor].
  - inversion Hnd as [|? ? Hnotin Hnd']; subst.
    destruct (String.eqb_spec k0 k) as [->|Hne]; cbn; [now constructor|].
    constructor; [|now apply IH].
    rewrite Map_set_keys. intros [->|Hin]; [now apply Hne | now apply Hnotin].
Qed.

Lemma Map_set_In k v m e :
  In e (Map_set k v m) -> e = (k, v) \/ In e m.
Proof.
  induction m as [|[k0 v0] m IH]; cbn.
  - intuition congruence.
  - destruct (String.eqb_spec k0 k) as [->|Hne]; cbn; intuition congruence.
Qed.

Lemma Map_set_new k v m :
  ~ In k (map fst m) -> Map_set k v m = m ++ [(k, v)].
Proof.
  induction m as [|[k0 v0] m IH]; cbn; intros Hnotin; [reflexivity|].
  destruct (String.eqb_spec k0 k) as [->|Hne]; [tauto|].
  rewrite IH; [reflexivity | tauto].
Qed.

Lemma Map_fill_keys es : forall m k,
  In k (map fst (Map_fill m es)) <-> In k (map fst m) \/ In k (map fst es).
Proof.
  induction es as [|[k0 v0] es IH]; intros m k; cbn; [tauto|].
  unfold Map_fill in *. cbn. rewrite IH, Map_set_keys. cbn. intuition congruence.
Qed.

Lemma Map_fill_NoDup es : forall m,
  List.NoDup (map fst m) -> List.NoDup (map fst (Map_fill m es)).
Proof.
  induction es as [|[k0 v0] es IH]; intros m Hnd; [exact Hnd|].
  apply IH. now apply Map_set_NoDup.
Qed.

Lemma Map_fill_In es : forall m e,
  In e (Map_fill m es) -> In e m \/ In e es.
Proof.
  induction es as [|[k0 v0] es IH]; intros m e; cbn; [tauto|].
  intros Hin. apply IH in Hin as [Hin|Hin]; [|tauto].
  apply Map_set_In in Hin. cbn in Hin.
  destruct Hin as [->|Hin]; [right; now left | now left].
Qed.

Lemma Map_fill_new es : forall m,
  List.NoDup (map fst es) ->
  (forall k, In k (map fst es) -> ~ In k (map fst m)) ->
  Map_fill m es = m ++ es.
Proof.
  induction es as [|[k0 v0] es IH]; intros m Hnd Hdisj; cbn; [now rewrite app_nil_r|].
  inversion Hnd as [|? ? Hnotin Hnd']; subst.
  change (Map_fill (Map_set k0 v0 m) es = m ++ (k0, v0) :: es).
  rewrite Map_set_new by (apply Hdisj; now left).
  rewrite IH; [now rewrite <- app_assoc | exact Hnd' |].
  intros k Hk. rewrite map_app, in_app_iff. cbn. intros [Hin|[<-|[]]].
  - apply (Hdisj k); [now right | exact Hin].
  - now apply Hnotin.
Qed.
End MapSet.

Lemma truthy_Some (x : option string) (v : string) :
  truthy x = Some v <-> x = Some v /\ v <> "".
Proof.
  destruct x as [[|c x]|]; cbn; split; try (intros [H1 H2]); try intros H;
    try discriminate; try (injection H as <-); try (injection H1 as <-);
    try (split; [reflexivity | discriminate]); try reflexivity; try congruence.
Qed.

Lemma searchResults_In (chunks : list GroundingChunk) (r : SearchResultItem) :
  In r (searchResults chunks) <->
  exists w, In (Some w) chunks /\ uri w = Some (sr_url r) /\ chunk_title w = Some (sr_title r) /\
            sr_url r <> "" /\ sr_title r <> "".
Proof.
  unfold searchResults. rewrite in_flat_map. split.
  - intros ([w|] & Hin & Hr); [|contradiction].
    destruct (truthy (uri w)) as [u|] eqn:Hu; [|contradiction].
    destruct (truthy (chunk_title w)) as [t|] eqn:Ht; [|contradiction].
    destruct Hr as [<-|[]]. apply truthy_Some in Hu as [Hu Hu']. apply truthy_Some in Ht as [Ht Ht'].
    exists w. cbn. auto.
  - intros (w & Hin & Hu & Ht & Hu' & Ht'). exists (Some w). split; [exact Hin|].
    assert (truthy (uri w) = Some (sr_url r)) as -> by (apply truthy_Some; auto).
    assert (truthy (chunk_title w) = Some (sr_title r)) as -> by (apply truthy_Some; auto).
    left. now destruct r.
Qed.

Lemma uniqueResults_spec (rs : list SearchResultItem) :
  List.NoDup (map sr_url (uniqueResults rs)) /\
  (forall r, In r (uniqueResults rs) -> In r rs) /\
  (forall r, In r rs -> exists r', In r' (uniqueResults rs) /\ sr_url r' = sr_url r) /\
  (List.NoDup (map sr_url rs) -> uniqueResults rs = rs).
Proof.
  unfold uniqueResults, Map_of.
  set (es := map (fun item => (sr_url item, item)) rs).
  assert (Hentry : forall e, In e (Map_fill [] es) -> fst e = sr_url (snd e) /\ In (snd e) rs).
  { intros e He. apply Map_fill_In in He as [[]|He].
    apply in_map_iff in He as (item & <- & Hitem). split; [reflexivity | exact Hitem]. }
  assert (Hkeys : map sr_url (map snd (Map_fill [] es)) = map fst (Map_fill [] es)).
  { rewrite map_map. apply map_ext_in. intros e He. symmetry. now apply Hentry. }
  assert (Hes : map fst es = map sr_url rs).
  { unfold es. rewrite map_map. reflexivity. }
  split; [|split; [|split]].
  - rewrite Hkeys. apply Map_fill_NoDup. constructor.
  - intros r Hr. apply in_map_iff in Hr as (e & <- & He). now apply Hentry.
  - intros r Hr.
    assert (Hk : In (sr_url r) (map fst (Map_fill [] es))).
    { apply Map_fill_keys. right. rewrite Hes. now apply in_map. }
    apply in_map_iff in Hk as (e & Hfst & He). exists (snd e). split; [now apply in_map|].
    destruct (Hentry e He) as [<- _]. exact Hfst.
  - intros Hnd. rewrite Map_fill_new; [| now rewrite Hes | intros k _ []].
    cbn. unfold es. rewrite map_map. cbn. apply map_id.
Qed.

(** The search results returned by the research route have pairwise
    different URLs; each of them comes from a grounding chunk that carries
    that URL and that title, both non-empty; and every URL of such a chunk
    is among the results.  Chunks without a web part, without a uri or
    without a title contribute nothing. *)
Theorem search_results_are_unique_by_url (chunks : list GroundingChunk) :
  List.NoDup (map sr_url (uniqueResults (searchResults chunks))) /\
  (forall r, In r (uniqueResults (searchResults chunks)) ->
     sr_url r <> "" /\ sr_title r <> "" /\
     exists w, In (Some w) chunks /\ uri w = Some (sr_url r) /\
               chunk_title w = Some (sr_title r)) /\
  (forall w u t,
     In (Some w) chunks -> uri w = Some u -> chunk_title w = Some t ->
     u <> "" -> t <> "" ->
     exists r, In r (uniqueResults (searchResults chunks)) /\ sr_url r = u).
Proof.
  destruct (uniqueResults_spec (searchResults chunks)) as (Hnd & Hsub & Hcover & _).
  split; [exact Hnd|]. split.
  - intros r Hr. apply Hsub, searchResults_In in Hr as (w & Hw & Hu & Ht & Hu' & Ht').
    split; [exact Hu'|]. split; [exact Ht'|]. exists w. auto.
  - intros w u t Hw Hu Ht Hu' Ht'.
    apply (Hcover (mkSearchResultItem t u)). apply searchResults_In. exists w. cbn. auto.
Qed.

Lemma search_results_are_unique_by_url_witness :
  List.NoDup (map sr_url (uniqueResults (searchResults sample_chunks))) /\
  (forall r, In r (uniqueResults (searchResults sample_chunks)) ->
     sr_url r <> "" /\ sr_title r <> "" /\
     exists w, In (Some w) sample_chunks /\ uri w = Some (sr_url r) /\
               chunk_title w = Some (sr_title r)) /\
  (forall w u t,
     In (Some w) sample_chunks -> uri w = Some u -> chunk_title w = Some t ->
     u <> "" -> t <> "" ->
     exists r, In r (uniqueResults (searchResults sample_chunks)) /\ sr_url r = u).
Proof. apply (search_results_are_unique_by_url sample_chunks). Defined.

(** Of two chunks with one URL the later title is kept, in the place of
    the first. *)
Example duplicate_url_keeps_last_title :
  uniqueResults (searchResults sample_chunks) =
    [mkSearchResultItem "Volcano (mirror)" "https://a.example/volcano";
     mkSearchResultItem "Vent" "https://c.example/vent"].
Proof. reflexivity. Qed.

(** * The session history of the application *)

Lemma filter_twice {A} (p : A -> bool) (l : list A) :
  List.filter p (List.filter p l) = List.filter p l.
Proof.
  induction l as [|x l IH]; cbn; [reflexivity|].
  destruct (p x) eqn:Hp; cbn; [rewrite Hp; now f_equal | exact IH].
Qed.

(** Restoring an image from the dashboard puts it first in the session
    history and leaves no second entry with its id; the entries with other
    ids stay, in their order; a history with pairwise different ids stays
    so; and restoring the same image again changes nothing more. *)
Theorem restore_puts_the_image_first_once (img : GeneratedImage) (a : App) :
  let h := imageHistory (fst (restoreImage img a)) in
  hd_error h = Some img /\
  (forall i, In i (tl h) -> gi_id i <> gi_id img) /\
  List.filter (fun i => negb (String.eqb (gi_id i) (gi_id img))) h =
    List.filter (fun i => negb (String.eqb (gi_id i) (gi_id img))) (imageHistory a) /\
  (List.NoDup (map gi_id (imageHistory a)) -> List.NoDup (map gi_id h)) /\
  restoreImage img (fst (restoreImage img a)) = restoreImage img a.
Proof.
  cbn. split; [reflexivity|]. split; [|split; [|split]].
  - intros i Hi. apply filter_In in Hi as [_ Hi].
    apply negb_true_iff in Hi. now apply String.eqb_neq.
  - rewrite String.eqb_refl. cbn. apply filter_twice.
  - intros Hnd. constructor.
    + intros Hin. apply in_map_iff in Hin as (i & Hid & Hi).
      apply filter_In in Hi as [_ Hi]. apply negb_true_iff, String.eqb_neq in Hi. contradiction.
    + induction (imageHistory a) as [|x l IH]; cbn; [constructor|].
      inversion Hnd as [|? ? Hnotin Hnd']; subst.
      destruct (negb (gi_id x =? gi_id img)%string); cbn; [|now apply IH].
      constructor; [|now apply IH].
      intros Hin. apply Hnotin. apply in_map_iff in Hin as (i & Hid & Hi).
      apply in_map_iff. exists i. split; [exact Hid|]. now apply filter_In in Hi as [Hi _].
  - unfold restoreImage. cbn. rewrite String.eqb_refl. cbn. rewrite filter_twice.
    now destruct a.
Qed.

Lemma restore_puts_the_image_first_once_witness :
  let img := mkGeneratedImage "1700000000000" "data:image/png;base64,iVBORw0KGgo=" "volcano"
               1700000000000 "High School" "Default" "Traditional Chinese" 90 in
  let h := imageHistory (fst (restoreImage img editing_app)) in
  hd_error h = Some img /\
  (forall i, In i (tl h) -> gi_id i <> gi_id img) /\
  List.filter (fun i => negb (String.eqb (gi_id i) (gi_id img))) h =
    List.filter (fun i => negb (String.eqb (gi_id i) (gi_id img))) (imageHistory editing_app) /\
  (List.NoDup (map gi_id (imageHistory editing_app)) -> List.NoDup (map gi_id h)) /\
  restoreImage img (fst (restoreImage img editing_app)) = restoreImage img editing_app.
Proof.
  apply (restore_puts_the_image_first_once
           (mkGeneratedImage "1700000000000" "data:image/png;base64,iVBORw0KGgo=" "volcano"
              1700000000000 "High School" "Default" "Traditional Chinese" 90)
           editing_app).
Defined.

(** After a logout the image actions talk to nobody: [handleGenerate]
    sends no request and leaves the server as it is, asking for a login
    instead (unless an action is still loading), and [handleEdit] finds an
    empty history and does nothing at all. *)
Theorem logged_out_actions_send_nothing
    (w : World) (editPrompt : string) (a : App) (s : Server) :
  let a' := fst (handleLogout a) in
  fst (fst (handleGenerate w a' s)) = [] /\
  snd (handleGenerate w a' s) = s /\
  (isLoading a = false -> showAuthModal (snd (fst (handleGenerate w a' s))) = true) /\
  handleEdit w editPrompt a' s = ([], a', s).
Proof.
  cbn. unfold handleGenerate. cbn. destruct (isLoading a); cbn; repeat split; discriminate.
Qed.

Lemma logged_out_actions_send_nothing_witness :
  let a' := fst (handleLogout editing_app) in
  fst (fst (handleGenerate sample_world a' saved_server)) = [] /\
  snd (handleGenerate sample_world a' saved_server) = saved_server /\
  (isLoading editing_app = false ->
     showAuthModal (snd (fst (handleGenerate sample_world a' saved_server))) = true) /\
  handleEdit sample_world "add labels" a' saved_server = ([], a', saved_server).
Proof.
  apply (logged_out_actions_send_nothing sample_world "add labels" editing_app saved_server).
Defined.
